(** * tapzero: a shallow embedding of the test runner and its comparator

    The development follows the two source files of the package:
    - [fast-deep-equal.js]: the [deepEqual] comparator;
    - [index.ts]: [TestRunner], [Test], the call-site resolver and [toJSON].

    JavaScript values are modelled by the inductive type [Value]; mutable
    objects of the runner are records threaded through a small state and
    exception monad; the services of the host (regular expressions, stack
    traces, loose equality) are the fields of the class [Host]. *)

From Stdlib Require Import List String Ascii ZArith Bool Lia Arith.
From Stdlib Require Import DecimalString Permutation.
Import ListNotations.
Local Open Scope string_scope.

Set Implicit Arguments.
Set Warnings "-register-all".

(* ================================================================= *)
(** ** JavaScript values *)

Module JS.

(** Numbers: the comparator and the serializer only observe whether a
    number is [NaN] and, otherwise, its value.  [Num z] is an integral number
    in the range where the numbers of the language are exact and [String]
    writes every digit (magnitude below [2^53]); the counters of the package
    stay in that range. *)
Inductive JNumber : Type :=
| NaN
| Num (z : Z).

(** A value is taken as it is at the time of the call that receives it.
    Objects carry the identity [id] that [===] compares, and [cls], the
    identity of their constructor: ["Array"], ["RegExp"], ["Error"] and
    ["Object"] are the built-in ones, any other [cls] is a class of the
    program (two classes with one name are two [cls]); a constructor makes
    objects of one kind only.
    - An array has its elements; its constructor is [Array] or a class that
      extends it.
    - A regular expression has its source and its flags; its [lastIndex],
      which [test] moves, is kept in the state.
    - An error has its message, its stack and its name (["Error"],
      ["TypeError"], ...).
    - Any other object has [valueOf] and [toString], given by their results
      when they are not the methods of [Object.prototype]; its own
      enumerable properties [props], in key order, and its other own
      properties [hidden]; [json], the result of its [toJSON] method when it
      has one, own or inherited; and [prim], the primitive value it wraps
      when it is a [Number], [String] or [Boolean] object.
    Arrays, regular expressions and errors have no [toJSON] method, as the
    built-in ones. *)
Inductive Value : Type :=
| VUndefined
| VNull
| VBool (b : bool)
| VNumber (n : JNumber)
| VString (s : string)
| VFunction (id : nat)
| VArray (id : nat) (items : list Value) (cls : string)
| VRegExp (id : nat) (source flags : string) (cls : string)
| VError (id : nat) (message stack : string) (name : string) (cls : string)
| VObject (id : nat) (cls : string) (valueOf : option Value)
          (toString : option string) (props : list (string * Value))
          (hidden : list (string * Value)) (json : option Value)
          (prim : option Value).

(** An object literal with the properties [props]; an array, a regular
    expression and an error built by the built-in constructors. *)
Definition literal (id : nat) (props : list (string * Value)) : Value :=
  VObject id "Object" None None props [] None None.

Definition array (id : nat) (items : list Value) : Value :=
  VArray id items "Array".

Definition regexp (id : nat) (source flags : string) : Value :=
  VRegExp id source flags "RegExp".

Definition error (id : nat) (message stack : string) : Value :=
  VError id message stack "Error" "Error".

(** The constructor of an object: its kind and its identity. *)
Inductive Ctor : Type :=
| CArray (cls : string)
| CRegExp (cls : string)
| CError (cls : string)
| CClass (cls : string).

(** [c === d] on constructors. *)
Definition Ctor_eqb (c d : Ctor) : bool :=
  match c, d with
  | CArray x, CArray y | CRegExp x, CRegExp y | CError x, CError y
  | CClass x, CClass y => String.eqb x y
  | _, _ => false
  end.

(** [typeof v === 'object'] together with [v] being truthy: the guard of
    the comparator's second statement. *)
Definition is_object (v : Value) : bool :=
  match v with
  | VArray _ _ _ | VRegExp _ _ _ _ | VError _ _ _ _ _
  | VObject _ _ _ _ _ _ _ _ => true
  | _ => false
  end.

(** [v.constructor] *)
Definition constructor_of (v : Value) : option Ctor :=
  match v with
  | VArray _ _ cls => Some (CArray cls)
  | VRegExp _ _ _ cls => Some (CRegExp cls)
  | VError _ _ _ _ cls => Some (CError cls)
  | VObject _ cls _ _ _ _ _ _ => Some (CClass cls)
  | _ => None
  end.

Definition JNumber_eqb (m n : JNumber) : bool :=
  match m, n with
  | Num x, Num y => Z.eqb x y
  | _, _ => false
  end.

(** [a === b]: by value on primitives ([NaN] differs from itself), by
    identity on functions and objects. *)
Definition strict_eq (a b : Value) : bool :=
  match a, b with
  | VUndefined, VUndefined => true
  | VNull, VNull => true
  | VBool x, VBool y => Bool.eqb x y
  | VNumber m, VNumber n => JNumber_eqb m n
  | VString s, VString t => String.eqb s t
  | VFunction i, VFunction j => Nat.eqb i j
  | VArray i _ _, VArray j _ _ => Nat.eqb i j
  | VRegExp i _ _ _, VRegExp j _ _ _ => Nat.eqb i j
  | VError i _ _ _ _, VError j _ _ _ _ => Nat.eqb i j
  | VObject i _ _ _ _ _ _ _, VObject j _ _ _ _ _ _ _ => Nat.eqb i j
  | _, _ => false
  end.

(** [!!v] *)
Definition truthy (v : Value) : bool :=
  match v with
  | VUndefined | VNull => false
  | VBool b => b
  | VNumber NaN => false
  | VNumber (Num z) => negb (Z.eqb z 0)
  | VString s => negb (String.eqb s "")
  | _ => true
  end.

Definition typeof (v : Value) : string :=
  match v with
  | VUndefined => "undefined"
  | VBool _ => "boolean"
  | VNumber _ => "number"
  | VString _ => "string"
  | VFunction _ => "function"
  | _ => "object"
  end.

(** [Error.prototype.toString] on an error with that name and that
    message: the one that is not empty, or both with [": "] between. *)
Definition error_toString (name message : string) : string :=
  if String.eqb name "" then message
  else if String.eqb message "" then name
  else name ++ ": " ++ message.

(** [RegExp.prototype.toString] *)
Definition regexp_toString (source flags : string) : string :=
  "/" ++ source ++ "/" ++ flags.

(** [v.valueOf !== Object.prototype.valueOf] *)
Definition overrides_valueOf (v : Value) : bool :=
  match v with
  | VObject _ _ (Some _) _ _ _ _ _ => true
  | _ => false
  end.

(** [v.valueOf()]; the method of [Object.prototype] returns its receiver. *)
Definition call_valueOf (v : Value) : Value :=
  match v with
  | VObject _ _ (Some r) _ _ _ _ _ => r
  | _ => v
  end.

(** [v.toString !== Object.prototype.toString] *)
Definition overrides_toString (v : Value) : bool :=
  match v with
  | VObject _ _ _ (Some _) _ _ _ _ => true
  | VError _ _ _ _ _ => true
  | VRegExp _ _ _ _ => true
  | _ => false
  end.

(** [v.toString()] on the objects that reach that line of the comparator. *)
Definition call_toString (v : Value) : string :=
  match v with
  | VObject _ _ _ (Some s) _ _ _ _ => s
  | VError _ message _ name _ => error_toString name message
  | VRegExp _ source flags _ => regexp_toString source flags
  | _ => "[object Object]"
  end.

(** Own enumerable properties; [Object.keys] is [map fst] of them. *)
Definition own_props (v : Value) : list (string * Value) :=
  match v with
  | VObject _ _ _ _ props _ _ _ => props
  | _ => []
  end.

(** All own properties, the enumerable ones first. *)
Definition all_props (v : Value) : list (string * Value) :=
  match v with
  | VObject _ _ _ _ props hidden _ _ => props ++ hidden
  | _ => []
  end.

Definition same_constructor (a b : Value) : bool :=
  match constructor_of a, constructor_of b with
  | Some c, Some d => Ctor_eqb c d
  | _, _ => false
  end.

(** [v.constructor === RegExp] *)
Definition constructor_is_RegExp (v : Value) : bool :=
  match v with
  | VRegExp _ _ _ cls => String.eqb cls "RegExp"
  | _ => false
  end.

(** [v instanceof RegExp] *)
Definition is_regexp (v : Value) : bool :=
  match v with VRegExp _ _ _ _ => true | _ => false end.

(** [v.source] and [v.flags] of a regular expression. *)
Definition regexp_source (v : Value) : string :=
  match v with VRegExp _ source _ _ => source | _ => "" end.

Definition regexp_flags (v : Value) : string :=
  match v with VRegExp _ _ flags _ => flags | _ => "" end.

Definition array_items (v : Value) : list Value :=
  match v with
  | VArray _ items _ => items
  | _ => []
  end.

Fixpoint lookup (k : string) (ps : list (string * Value)) : option Value :=
  match ps with
  | [] => None
  | (k', v) :: ps' => if String.eqb k k' then Some v else lookup k ps'
  end.

(** [Object.prototype.hasOwnProperty.call(b, key)]: it sees every own
    property of [b], enumerable or not. *)
Definition hasOwnProperty (b : Value) (key : string) : bool :=
  match lookup key (all_props b) with Some _ => true | None => false end.

(** [b[key]] for a key that is an own property of [b]. *)
Definition get (b : Value) (key : string) : Value :=
  match lookup key (all_props b) with Some v => v | None => VUndefined end.

End JS.
Export JS.

(* ================================================================= *)
(** ** fast-deep-equal.js *)

Module FastDeepEqual.

(** [for (i = length; i-- !== 0;) if (!hasOwnProperty(b, keys[i])) return false]:
    the keys are visited from the last one to the first. *)
Fixpoint all_own (b : Value) (keys : list string) : bool :=
  match keys with
  | [] => true
  | k :: keys' => if all_own b keys' then hasOwnProperty b k else false
  end.

(** The comparator.  Both loops over the elements run from the last index
    to the first and leave at the first difference, which is what the local
    fixpoints [items] and [fields] do: the tail is compared before the head. *)
Fixpoint deepEqual (a b : Value) {struct a} : bool :=
  if strict_eq a b then true
  else if is_object a && is_object b then
    if negb (same_constructor a b) then false
    else
      let structure (props : list (string * Value)) :=
        if overrides_valueOf a
        then strict_eq (call_valueOf a) (call_valueOf b)
        else if overrides_toString a
        then String.eqb (call_toString a) (call_toString b)
        else if negb (Nat.eqb (List.length props) (List.length (own_props b)))
        then false
        else if negb (all_own b (map fst props)) then false
        else
          (fix fields (ps : list (string * Value)) {struct ps} : bool :=
             match ps with
             | [] => true
             | (key, v) :: ps' =>
                 if fields ps' then deepEqual v (get b key) else false
             end) props in
      match a with
      | VArray _ xs _ =>
          if negb (Nat.eqb (List.length xs) (List.length (array_items b)))
          then false
          else
            (fix items (xs ys : list Value) {struct xs} : bool :=
               match xs with
               | [] => true
               | x :: xs' =>
                   if items xs' (tl ys) then deepEqual x (hd VUndefined ys)
                   else false
               end) xs (array_items b)
      | VRegExp _ source flags _ =>
          if constructor_is_RegExp a
          then String.eqb source (regexp_source b)
               && String.eqb flags (regexp_flags b)
          else structure []
      | VObject _ _ _ _ props _ _ _ => structure props
      | _ => structure []
      end
  else
    match a, b with
    | VNumber NaN, VNumber NaN => true
    | _, _ => false
    end.

End FastDeepEqual.

(* ================================================================= *)
(** ** Strings of the host language *)

Module Str.

(** [String(n)] for an integral number of magnitude below [10^21], where
    every digit is written. *)
Definition of_Z (z : Z) : string := NilZero.string_of_int (Z.to_int z).

Definition newline : string := String (ascii_of_nat 10) "".

(** [s.replace(/pat/g, rep)] for a pattern without metacharacters: the
    matches are taken from left to right and do not overlap.  [skip] counts
    the characters of the match in progress that are still to be dropped. *)
Fixpoint replace_from (pat rep : string) (skip : nat) (s : string) : string :=
  match s with
  | EmptyString => EmptyString
  | String c s' =>
      match skip with
      | S k => replace_from pat rep k s'
      | O =>
          if String.prefix pat s
          then rep ++ replace_from pat rep (String.length pat - 1) s'
          else String c (replace_from pat rep 0 s')
      end
  end.

Definition replaceAll (pat rep s : string) : string := replace_from pat rep 0 s.

(** [s.split('\n')] *)
Fixpoint split_lines_from (line : string) (s : string) : list string :=
  match s with
  | EmptyString => [line]
  | String c s' =>
      if Ascii.eqb c (ascii_of_nat 10)
      then line :: split_lines_from "" s'
      else split_lines_from (line ++ String c "") s'
  end.

Definition split_lines (s : string) : list string := split_lines_from "" s.

(** [s.slice(0, n)] *)
Definition take (n : nat) (s : string) : string := String.substring 0 n s.

Definition endsWith (s suffix : string) : bool :=
  let n := String.length s in
  let m := String.length suffix in
  Nat.leb m n && String.eqb (String.substring (n - m) m s) suffix.

End Str.

(* ================================================================= *)
(** ** JSON.stringify *)

Module JSON.

Definition dquote : string := String (ascii_of_nat 34) "".
Definition backslash : string := String (ascii_of_nat 92) "".

Definition hex_digit (n : nat) : ascii :=
  if Nat.ltb n 10 then ascii_of_nat (48 + n) else ascii_of_nat (87 + n).

(** The escape of one character inside a JSON string literal. *)
Definition escape_char (c : ascii) : string :=
  let n := nat_of_ascii c in
  if Nat.eqb n 8 then backslash ++ "b"
  else if Nat.eqb n 9 then backslash ++ "t"
  else if Nat.eqb n 10 then backslash ++ "n"
  else if Nat.eqb n 12 then backslash ++ "f"
  else if Nat.eqb n 13 then backslash ++ "r"
  else if Nat.eqb n 34 then backslash ++ dquote
  else if Nat.eqb n 92 then backslash ++ backslash
  else if Nat.ltb n 32
       then backslash ++ "u00"
            ++ String (hex_digit (n / 16)) (String (hex_digit (n mod 16)) "")
  else String c "".

Fixpoint escape (s : string) : string :=
  match s with
  | EmptyString => EmptyString
  | String c s' => escape_char c ++ escape s'
  end.

Definition QuoteJSONString (s : string) : string := dquote ++ escape s ++ dquote.

(** What a replacer function answers for a property: its argument
    unchanged, or a primitive value in its place.  Those are the replacers
    the package passes to [JSON.stringify]. *)
Inductive Replaced : Type :=
| Keep
| Subst (primitive : Value).

Definition Replacer : Type := string -> Value -> Replaced.

Definition no_replacer : Replacer := fun _ _ => Keep.

(** The serialization of a value that is not an object; [None] is the
    [undefined] that [JSON.stringify] answers for what JSON cannot hold. *)
Definition primitive_json (v : Value) : option string :=
  match v with
  | VNull => Some "null"
  | VBool true => Some "true"
  | VBool false => Some "false"
  | VString s => Some (QuoteJSONString s)
  | VNumber NaN => Some "null"
  | VNumber (Num z) => Some (Str.of_Z z)
  | _ => None
  end.

Definition wrap (open close stepback indent : string) (partial : list string)
  : string :=
  match partial with
  | [] => open ++ close
  | _ =>
      open ++ Str.newline ++ indent
      ++ String.concat ("," ++ Str.newline ++ indent) partial
      ++ Str.newline ++ stepback ++ close
  end.

Section Serialize.

Variable replacer : Replacer.
Variable gap : string.

(** [SerializeJSONProperty], with [SerializeJSONArray] and
    [SerializeJSONObject] as its local fixpoints; [indent] is the current
    indentation.  The value is first replaced by the result of its [toJSON]
    method when it has one, then handed to the replacer; a [Number],
    [String] or [Boolean] object is then taken for the primitive value it
    wraps.  Regular expressions and errors have no own enumerable
    property. *)
Fixpoint SerializeJSONProperty (indent key : string) (value : Value)
  {struct value} : option string :=
  let value :=
    match value with
    | VObject _ _ _ _ _ _ (Some result) _ => result
    | _ => value
    end in
  match replacer key value with
  | Subst p => primitive_json p
  | Keep =>
      match value with
      | VObject _ _ _ _ _ _ _ (Some p) => primitive_json p
      | VArray _ xs _ =>
          let stepback := indent in
          let indent := indent ++ gap in
          Some (wrap "[" "]" stepback indent
            ((fix elements (index : nat) (xs : list Value) {struct xs}
                : list string :=
                match xs with
                | [] => []
                | x :: xs' =>
                    match SerializeJSONProperty indent
                            (Str.of_Z (Z.of_nat index)) x with
                    | Some strP => strP
                    | None => "null"
                    end :: elements (S index) xs'
                end) 0%nat xs))
      | VObject _ _ _ _ props _ _ None =>
          let stepback := indent in
          let indent := indent ++ gap in
          Some (wrap "{" "}" stepback indent
            ((fix members (ps : list (string * Value)) {struct ps}
                : list string :=
                match ps with
                | [] => []
                | (P, v) :: ps' =>
                    match SerializeJSONProperty indent P v with
                    | Some strP =>
                        (QuoteJSONString P ++ ":"
                         ++ (if String.eqb gap "" then "" else " ") ++ strP)
                        :: members ps'
                    | None => members ps'
                    end
                end) props))
      | VRegExp _ _ _ _ | VError _ _ _ _ _ => Some "{}"
      | _ => primitive_json value
      end
  end.

End Serialize.

(** [JSON.stringify(value, replacer, gap)] *)
Definition stringify (value : Value) (replacer : Replacer) (gap : string)
  : option string :=
  SerializeJSONProperty replacer gap "" "" value.

End JSON.

(* ================================================================= *)
(** ** index.ts: [toJSON] *)

Definition sentinel : string := "_tz_undefined_tz_".

(** [(_k, v) => (v === undefined) ? '_tz_undefined_tz_' : v] *)
Definition replacer : JSON.Replacer :=
  fun _k v =>
    if strict_eq v VUndefined then JSON.Subst (VString sentinel) else JSON.Keep.

(** [x || 'undefined'] on the result of [JSON.stringify]. *)
Definition or_undefined (x : option string) : string :=
  match x with
  | Some s => if String.eqb s "" then "undefined" else s
  | None => "undefined"
  end.

Definition toJSON (thing : Value) : string :=
  let json := or_undefined (JSON.stringify thing replacer "  ") in
  Str.replaceAll (JSON.QuoteJSONString sentinel) "undefined" json.

(* ================================================================= *)
(** ** The host *)

(** An error object, as [throws] catches it and as [ifError] receives it:
    its identity, its message, its stack, its name and its constructor. *)
Record ErrorObject : Type := mkError {
  error_id : nat;
  message : string;
  stack : string;
  error_name : string;
  error_class : string
}.

Definition error_value (e : ErrorObject) : Value :=
  VError (error_id e) (message e) (stack e) (error_name e) (error_class e).

(** The groups of a match of [AT_REGEX]: the description of the call, the
    file path with its position, the line and the column. *)
Record AtMatch : Type := mkAtMatch {
  m1 : option string;
  m2 : string;
  m3 : string;
  m4 : option string
}.

(** What the package asks of the platform it runs on. *)
Class Host : Type := {
  (** the search of [re.exec(s)] for the regular expression with that
      source and those flags, from that index of the text: the index where
      the match ends, when there is one *)
  regexp_exec : string -> string -> Z -> string -> option Z;
  (** [a == b] *)
  loose_eq : Value -> Value -> bool;
  (** the [stack] of the [new Error(description)] of [_assert] *)
  assert_error_stack : string -> string;
  (** the [stack] of the [new Error('temp')] of [getTapZeroFileName] *)
  temp_error_stack : string;
  (** [AT_REGEX.exec(line)] *)
  at_regex_exec : string -> option AtMatch;
  (** [process] is there, with [exit] and [on], and is not the browser's *)
  has_process : bool
}.

(** What the package does to the platform, in order. *)
Inductive HostEvent : Type :=
| SetTimeout
| OnFinishCalled (callback : Value) (total success fail : Z)
| ProcessOnExit (fail : Z)
| Rethrown (message : string).

(* ================================================================= *)
(** ** The objects of index.ts *)

(** A test function is the sequence of calls it makes on the [Test] it
    receives, each with its arguments as they are at the time of the call;
    [Raise] is a [throw] of its own.  Awaiting the promise of an
    asynchronous function is running that sequence to its end.  The function
    that [throws] receives is given by the error it throws, if any. *)
Module Script.

Inductive MaybeError : Type :=
| ErrUndefined
| ErrNull
| Err (e : ErrorObject).

Inductive Call : Type :=
| Comment (msg : string)
| Plan (n : Z)
| DeepEqual (actual expected : Value) (msg : option string)
| NotDeepEqual (actual expected : Value) (msg : option string)
| Equal (actual expected : Value) (msg : option string)
| NotEqual (actual expected : Value) (msg : option string)
| Fail (msg : option string)
| Ok (actual : Value) (msg : option string)
| IfError (err : MaybeError) (msg : option string)
| Throws (fn : unit -> option ErrorObject) (expected : Value)
         (message : option string)
| Raise (message : string).

End Script.

Definition TestFn : Type := list Script.Call.

Record Tally : Type := mkTally { pass : Z; fail : Z }.

Module TestObject.

(** [runner] tells whether [this.runner] is the runner of the ambient
    state or [undefined]. *)
Record t : Type := mk {
  name : string;
  _planned : option Z;
  _actual : option Z;
  fn : TestFn;
  runner : bool;
  _result : Tally;
  done : bool;
  strict : bool
}.

End TestObject.

Module RunnerObject.

(** [reported] holds the lines the sink [report] has received, oldest
    first. *)
Record t : Type := mk {
  reported : list string;
  tests : list TestObject.t;
  onlyTests : list TestObject.t;
  scheduled : bool;
  _id : Z;
  completed : bool;
  rethrowExceptions : bool;
  strict : bool;
  _onFinishCallback : Value
}.

End RunnerObject.

(** The state outside a test: its runner, the module variable
    [CACHED_FILE] (empty while unset), the trace of the host and the
    [lastIndex] of the regular expressions, by identity: the latest entry
    counts, and a regular expression without an entry is at 0, where a new
    one starts. *)
Record Env : Type := mkEnv {
  the_runner : RunnerObject.t;
  CACHED_FILE : string;
  events : list HostEvent;
  lastIndex : list (nat * Z)
}.

(* ================================================================= *)
(** ** State and exceptions *)

Inductive Outcome (A : Type) : Type :=
| Return (a : A)
| Throw (message : string).
Arguments Return {A} a.
Arguments Throw {A} message.

(** A computation on the state [S]; what it wrote before it threw stays
    written. *)
Definition M (S A : Type) : Type := S -> Outcome A * S.

Definition ret {S A} (a : A) : M S A := fun s => (Return a, s).

Definition throw {S A} (message : string) : M S A := fun s => (Throw message, s).

Definition bind {S A B} (m : M S A) (k : A -> M S B) : M S B :=
  fun s =>
    match m s with
    | (Return a, s') => k a s'
    | (Throw e, s') => (Throw e, s')
    end.

Definition gets {S A} (f : S -> A) : M S A := fun s => (Return (f s), s).

Definition modify {S} (f : S -> S) : M S unit := fun s => (Return tt, f s).

Definition when {S} (b : bool) (m : M S unit) : M S unit :=
  if b then m else ret tt.

Declare Scope monad_scope.
Delimit Scope monad_scope with monad.
Notation "x <- m ;; k" := (bind m (fun x => k))
  (at level 61, m at next level, right associativity) : monad_scope.
Notation "m ;; k" := (bind m (fun _ => k))
  (at level 61, right associativity) : monad_scope.
Local Open Scope monad_scope.

(** [x || d] and [!x] on an optional string argument. *)
Definition or_else (x : option string) (d : string) : string :=
  match x with
  | Some s => if String.eqb s "" then d else s
  | None => d
  end.

Definition missing (x : option string) : bool :=
  match x with
  | Some s => String.eqb s ""
  | None => true
  end.

(** [x || 0] on an optional count. *)
Definition or_zero (x : option Z) : Z :=
  match x with
  | Some n => n
  | None => 0%Z
  end.

(* ================================================================= *)
(** ** Field updates *)

Module SetTest.

Definition _planned (x : option Z) (t : TestObject.t) : TestObject.t :=
  TestObject.mk (TestObject.name t) x (TestObject._actual t) (TestObject.fn t) (TestObject.runner t) (TestObject._result t) (TestObject.done t) (TestObject.strict t).

Definition _actual (x : option Z) (t : TestObject.t) : TestObject.t :=
  TestObject.mk (TestObject.name t) (TestObject._planned t) x (TestObject.fn t) (TestObject.runner t) (TestObject._result t) (TestObject.done t) (TestObject.strict t).

Definition _result (x : Tally) (t : TestObject.t) : TestObject.t :=
  TestObject.mk (TestObject.name t) (TestObject._planned t) (TestObject._actual t) (TestObject.fn t) (TestObject.runner t) x (TestObject.done t) (TestObject.strict t).

Definition done (x : bool) (t : TestObject.t) : TestObject.t :=
  TestObject.mk (TestObject.name t) (TestObject._planned t) (TestObject._actual t) (TestObject.fn t) (TestObject.runner t) (TestObject._result t) x (TestObject.strict t).

End SetTest.

Module SetRunner.

Definition reported (x : list string) (r : RunnerObject.t) : RunnerObject.t :=
  RunnerObject.mk x (RunnerObject.tests r) (RunnerObject.onlyTests r) (RunnerObject.scheduled r) (RunnerObject._id r) (RunnerObject.completed r)
     (RunnerObject.rethrowExceptions r) (RunnerObject.strict r) (RunnerObject._onFinishCallback r).

Definition tests (x : list TestObject.t) (r : RunnerObject.t) : RunnerObject.t :=
  RunnerObject.mk (RunnerObject.reported r) x (RunnerObject.onlyTests r) (RunnerObject.scheduled r) (RunnerObject._id r) (RunnerObject.completed r)
     (RunnerObject.rethrowExceptions r) (RunnerObject.strict r) (RunnerObject._onFinishCallback r).

Definition onlyTests (x : list TestObject.t) (r : RunnerObject.t)
  : RunnerObject.t :=
  RunnerObject.mk (RunnerObject.reported r) (RunnerObject.tests r) x (RunnerObject.scheduled r) (RunnerObject._id r) (RunnerObject.completed r)
     (RunnerObject.rethrowExceptions r) (RunnerObject.strict r) (RunnerObject._onFinishCallback r).

Definition scheduled (x : bool) (r : RunnerObject.t) : RunnerObject.t :=
  RunnerObject.mk (RunnerObject.reported r) (RunnerObject.tests r) (RunnerObject.onlyTests r) x (RunnerObject._id r) (RunnerObject.completed r)
     (RunnerObject.rethrowExceptions r) (RunnerObject.strict r) (RunnerObject._onFinishCallback r).

Definition _id (x : Z) (r : RunnerObject.t) : RunnerObject.t :=
  RunnerObject.mk (RunnerObject.reported r) (RunnerObject.tests r) (RunnerObject.onlyTests r) (RunnerObject.scheduled r) x (RunnerObject.completed r)
     (RunnerObject.rethrowExceptions r) (RunnerObject.strict r) (RunnerObject._onFinishCallback r).

Definition completed (x : bool) (r : RunnerObject.t) : RunnerObject.t :=
  RunnerObject.mk (RunnerObject.reported r) (RunnerObject.tests r) (RunnerObject.onlyTests r) (RunnerObject.scheduled r) (RunnerObject._id r) x
     (RunnerObject.rethrowExceptions r) (RunnerObject.strict r) (RunnerObject._onFinishCallback r).

Definition strict (x : bool) (r : RunnerObject.t) : RunnerObject.t :=
  RunnerObject.mk (RunnerObject.reported r) (RunnerObject.tests r) (RunnerObject.onlyTests r) (RunnerObject.scheduled r) (RunnerObject._id r) (RunnerObject.completed r)
     (RunnerObject.rethrowExceptions r) x (RunnerObject._onFinishCallback r).

Definition _onFinishCallback (x : Value) (r : RunnerObject.t) : RunnerObject.t :=
  RunnerObject.mk (RunnerObject.reported r) (RunnerObject.tests r) (RunnerObject.onlyTests r) (RunnerObject.scheduled r) (RunnerObject._id r) (RunnerObject.completed r)
     (RunnerObject.rethrowExceptions r) (RunnerObject.strict r) x.

End SetRunner.

Definition with_runner (x : RunnerObject.t) (e : Env) : Env :=
  mkEnv x (CACHED_FILE e) (events e) (lastIndex e).

Definition with_CACHED_FILE (x : string) (e : Env) : Env :=
  mkEnv (the_runner e) x (events e) (lastIndex e).

Definition with_events (x : list HostEvent) (e : Env) : Env :=
  mkEnv (the_runner e) (CACHED_FILE e) x (lastIndex e).

Definition with_lastIndex (x : list (nat * Z)) (e : Env) : Env :=
  mkEnv (the_runner e) (CACHED_FILE e) (events e) x.

(** The runner of the state, read and written from a computation. *)
Definition on_runner (f : RunnerObject.t -> RunnerObject.t) : M Env unit :=
  modify (fun e => with_runner (f (the_runner e)) e).

Definition emit (ev : HostEvent) : M Env unit :=
  modify (fun e => with_events (events e ++ [ev]) e).

(** [this.report(line)] with the collecting sink. *)
Definition report (line : string) : M Env unit :=
  on_runner (fun r => SetRunner.reported (RunnerObject.reported r ++ [line]) r).

(** [nextId () { return String(++this._id) }] *)
Definition nextId : M Env string :=
  on_runner (fun r => SetRunner._id (RunnerObject._id r + 1)%Z r) ;;
  id <- gets (fun e => RunnerObject._id (the_runner e)) ;;
  ret (Str.of_Z id).

(* ================================================================= *)
(** ** Regular expressions *)

(** Whether the flags make a search start at [lastIndex] and move it:
    [g] and [y] do. *)
Fixpoint global_or_sticky (flags : string) : bool :=
  match flags with
  | EmptyString => false
  | String c flags' =>
      Ascii.eqb c "g" || Ascii.eqb c "y" || global_or_sticky flags'
  end.

(** [re.lastIndex] of the regular expression [id]. *)
Definition index_of (id : nat) (indexes : list (nat * Z)) : Z :=
  match find (fun entry => Nat.eqb (fst entry) id) indexes with
  | Some entry => snd entry
  | None => 0%Z
  end.

Definition lastIndex_of (id : nat) (e : Env) : Z := index_of id (lastIndex e).

Definition set_lastIndex (id : nat) (index : Z) (e : Env) : Env :=
  with_lastIndex ((id, index) :: lastIndex e) e.

(** [re.test(s)]: with the flag [g] or [y] the search starts at
    [lastIndex], which then becomes the end of the match, or 0 when there is
    none; without them the search starts at 0 and [lastIndex] stays. *)
Definition regexp_test {host : Host} (id : nat) (source flags s : string)
  : M Env bool :=
  if global_or_sticky flags
  then
    from <- gets (lastIndex_of id) ;;
    match regexp_exec source flags from s with
    | Some last => modify (set_lastIndex id last) ;; ret true
    | None => modify (set_lastIndex id 0%Z) ;; ret false
    end
  else
    ret (match regexp_exec source flags 0%Z s with
         | Some _ => true
         | None => false
         end).

(* ================================================================= *)
(** ** The call-site resolver *)

Section CallSite.
Context {host : Host}.

Fixpoint first_match (lines : list string) : option AtMatch :=
  match lines with
  | [] => None
  | line :: lines' =>
      match at_regex_exec line with
      | None => first_match lines'
      | Some m => Some m
      end
  end.

(** [fileName.slice(0, fileName.length - part.length - 1)] when [part] is
    not empty and [fileName] ends with [':' + part]. *)
Definition strip_position (part fileName : string) : string :=
  if negb (String.eqb part "") && Str.endsWith fileName (":" ++ part)
  then Str.take (String.length fileName - String.length part - 1) fileName
  else fileName.

Definition getTapZeroFileName : M Env string :=
  cached <- gets CACHED_FILE ;;
  if negb (String.eqb cached "") then ret cached
  else
    let lines := Str.split_lines temp_error_stack in
    match first_match lines with
    | None => ret tt
    | Some m =>
        let fileName := m2 m in
        let fileName :=
          match m4 m with
          | Some col => strip_position col fileName
          | None => fileName
          end in
        let fileName := strip_position (m3 m) fileName in
        modify (with_CACHED_FILE fileName)
    end ;;
    gets CACHED_FILE.

(** The loop of [findAtLineFromError] over the lines of the stack. *)
Fixpoint first_outside (dir : string) (lines : list string) : string :=
  match lines with
  | [] => ""
  | line :: lines' =>
      match at_regex_exec line with
      | None => first_outside dir lines'
      | Some m =>
          if String.eqb (Str.take (String.length dir) (m2 m)) dir
          then first_outside dir lines'
          else or_else (m1 m) "<anonymous>" ++ " (" ++ m2 m ++ ")"
      end
  end.

Definition findAtLineFromError (err_stack : string) : M Env string :=
  let lines := Str.split_lines err_stack in
  dir <- getTapZeroFileName ;;
  ret (first_outside dir lines).

End CallSite.

(* ================================================================= *)
(** ** class Test *)

Module Test.
Section Methods.
Context {host : Host}.

(** A method runs on [this] and on the state around it. *)
Definition State : Type := (TestObject.t * Env)%type.

Definition this {A} (f : TestObject.t -> A) : M State A :=
  gets (fun s => f (fst s)).

Definition update (f : TestObject.t -> TestObject.t) : M State unit :=
  modify (fun s => (f (fst s), snd s)).

Definition env {A} (m : M Env A) : M State A :=
  fun s => let '(o, e) := m (snd s) in (o, (fst s, e)).

Definition new (name : string) (fn : TestFn) (runner : option RunnerObject.t)
  : TestObject.t :=
  TestObject.mk name None None fn
    (match runner with Some _ => true | None => false end)
    (mkTally 0 0) false
    (match runner with Some r => RunnerObject.strict r | None => false end).

Definition comment (msg : string) : M State unit :=
  has_runner <- this TestObject.runner ;;
  when has_runner (env (report ("# " ++ msg))).

Definition plan (n : Z) : M State unit :=
  update (SetTest._planned (Some n)).

(** [if (this.strict && !msg) throw new Error('tapzero msg required')] *)
Definition require_msg (msg : option string) : M State unit :=
  strict <- this TestObject.strict ;;
  when (strict && missing msg) (throw "tapzero msg required").

Definition count_pass (t : TestObject.t) : TestObject.t :=
  SetTest._result
    (mkTally (pass (TestObject._result t) + 1) (fail (TestObject._result t))) t.

Definition count_fail (t : TestObject.t) : TestObject.t :=
  SetTest._result
    (mkTally (pass (TestObject._result t)) (fail (TestObject._result t) + 1)) t.

Fixpoint report_stack (lines : list string) : M Env unit :=
  match lines with
  | [] => ret tt
  | line :: lines' => report ("      " ++ line) ;; report_stack lines'
  end.

(** The two lines of the diagnostic block that show the values. *)
Definition report_values (ex ac : string) : M Env unit :=
  if Nat.ltb 65 (Nat.max (String.length ex) (String.length ac))
  then
    let ex := Str.replaceAll Str.newline (Str.newline ++ "      ") ex in
    let ac := Str.replaceAll Str.newline (Str.newline ++ "      ") ac in
    report ("    expected: |-" ++ Str.newline ++ "      " ++ ex) ;;
    report ("    actual:   |-" ++ Str.newline ++ "      " ++ ac)
  else
    report ("    expected: " ++ ex) ;;
    report ("    actual:   " ++ ac).

(** The diagnostic block of a failing assertion: [atErr] is the stack of
    the error built from the description, [err] the stack that is shown. *)
Definition diagnostics (actual expected : Value) (operator atErr err : string)
  : M Env unit :=
  report "  ---" ;;
  report ("    operator: " ++ operator) ;;
  report_values (toJSON expected) (toJSON actual) ;;
  at_ <- findAtLineFromError atErr ;;
  when (negb (String.eqb at_ "")) (report ("    at:       " ++ at_)) ;;
  report "    stack:    |-" ;;
  report_stack (Str.split_lines err) ;;
  report "  ...".

(** [if (actual && OBJ_TO_STRING.call(actual) === '[object Error]')]: the
    stack to show and the value to serialize as [actual]. *)
Definition shown (atErr : string) (actual : Value) : string * Value :=
  match actual with
  | VError _ message stack _ _ => (stack, VString message)
  | _ => (atErr, actual)
  end.

Definition _assert (pass : bool) (actual expected : Value)
  (description operator : string) : M State unit :=
  finished <- this TestObject.done ;;
  when finished
    (name <- this TestObject.name ;;
     throw ("assertion occurred after test was finished: " ++ name)) ;;
  planned <- this TestObject._planned ;;
  match planned with
  | Some planned =>
      update (fun t =>
        SetTest._actual (Some (or_zero (TestObject._actual t) + 1)%Z) t) ;;
      count <- this (fun t => or_zero (TestObject._actual t)) ;;
      when (planned <? count)%Z
        (name <- this TestObject.name ;;
         throw ("More tests than planned in TEST *" ++ name ++ "*"))
  | None => ret tt
  end ;;
  has_report <- this TestObject.runner ;;
  when has_report
    (let prefix := if pass then "ok" else "not ok" in
     id <- env nextId ;;
     env (report (prefix ++ " " ++ id ++ " " ++ description)) ;;
     if pass then update count_pass
     else
       let atErr := assert_error_stack description in
       let '(err, actual) := shown atErr actual in
       update count_fail ;;
       env (diagnostics actual expected operator atErr err)).

Definition deepEqual (actual expected : Value) (msg : option string)
  : M State unit :=
  require_msg msg ;;
  _assert (FastDeepEqual.deepEqual actual expected) actual expected
    (or_else msg "should be equivalent") "deepEqual".

Definition notDeepEqual (actual expected : Value) (msg : option string)
  : M State unit :=
  require_msg msg ;;
  _assert (negb (FastDeepEqual.deepEqual actual expected)) actual expected
    (or_else msg "should not be equivalent") "notDeepEqual".

Definition equal (actual expected : Value) (msg : option string)
  : M State unit :=
  require_msg msg ;;
  _assert (loose_eq actual expected) actual expected
    (or_else msg "should be equal") "equal".

Definition notEqual (actual expected : Value) (msg : option string)
  : M State unit :=
  require_msg msg ;;
  _assert (negb (loose_eq actual expected)) actual expected
    (or_else msg "should not be equal") "notEqual".

Definition fail (msg : option string) : M State unit :=
  require_msg msg ;;
  _assert false (VString "fail called") (VString "fail not called")
    (or_else msg "fail called") "fail".

Definition ok (actual : Value) (msg : option string) : M State unit :=
  require_msg msg ;;
  _assert (truthy actual) actual (VString "truthy value")
    (or_else msg "should be truthy") "ok".

Definition maybe_error_value (err : Script.MaybeError) : Value :=
  match err with
  | Script.ErrUndefined => VUndefined
  | Script.ErrNull => VNull
  | Script.Err e => error_value e
  end.

(** [String(err)] *)
Definition maybe_error_String (err : Script.MaybeError) : string :=
  match err with
  | Script.ErrUndefined => "undefined"
  | Script.ErrNull => "null"
  | Script.Err e => error_toString (error_name e) (message e)
  end.

Definition ifError (err : Script.MaybeError) (msg : option string)
  : M State unit :=
  require_msg msg ;;
  _assert (negb (truthy (maybe_error_value err))) (maybe_error_value err)
    (VString "no error") (or_else msg (maybe_error_String err)) "ifError".

Definition throws (fn : unit -> option ErrorObject) (expected : Value)
  (msg : option string) : M State unit :=
  let '(msg, expected) :=
    match expected with
    | VString s => (Some s, VUndefined)
    | _ => (msg, expected)
    end in
  require_msg msg ;;
  let caught := fn tt in
  let pass := match caught with Some _ => true | None => false end in
  pass <-
    match expected with
    | VRegExp id source flags _ =>
        match caught with
        | Some e => env (regexp_test id source flags (message e))
        | None => ret false
        end
    | _ =>
        if truthy expected
        then throw ("t.throws() not implemented for expected: " ++ typeof expected)
        else ret pass
    end ;;
  _assert pass
    (match caught with Some e => error_value e | None => VNull end)
    expected (or_else msg "show throw") "throws".

(** One call of the test function on its argument. *)
Definition call (c : Script.Call) : M State unit :=
  match c with
  | Script.Comment msg => comment msg
  | Script.Plan n => plan n
  | Script.DeepEqual actual expected msg => deepEqual actual expected msg
  | Script.NotDeepEqual actual expected msg => notDeepEqual actual expected msg
  | Script.Equal actual expected msg => equal actual expected msg
  | Script.NotEqual actual expected msg => notEqual actual expected msg
  | Script.Fail msg => fail msg
  | Script.Ok actual msg => ok actual msg
  | Script.IfError err msg => ifError err msg
  | Script.Throws fn expected message => throws fn expected message
  | Script.Raise message => throw message
  end.

(** [this.fn(this)], awaited. *)
Fixpoint apply (fn : TestFn) : M State unit :=
  match fn with
  | [] => ret tt
  | c :: fn' => call c ;; apply fn'
  end.

Definition ended_before_planned (planned actual : Z) : string :=
  "Test ended before the planned number" ++ Str.newline
  ++ "          planned: " ++ Str.of_Z planned ++ Str.newline
  ++ "          actual: " ++ Str.of_Z actual ++ Str.newline
  ++ "          ".

Definition run : M State Tally :=
  has_runner <- this TestObject.runner ;;
  name <- this TestObject.name ;;
  when has_runner (env (report ("# " ++ name))) ;;
  fn <- this TestObject.fn ;;
  apply fn ;;
  update (SetTest.done true) ;;
  planned <- this TestObject._planned ;;
  match planned with
  | Some planned =>
      actual <- this (fun t => or_zero (TestObject._actual t)) ;;
      when (actual <? planned)%Z (throw (ended_before_planned planned actual))
  | None => ret tt
  end ;;
  this TestObject._result.

End Methods.
End Test.

(* ================================================================= *)
(** ** class TestRunner *)

Module TestRunner.
Section Methods.
Context {host : Host}.

(** [new TestRunner(report)] with a collecting sink that has received
    nothing yet. *)
Definition new : RunnerObject.t :=
  RunnerObject.mk [] [] [] false 0 false true false VUndefined.

Definition add (name : string) (fn : TestFn) (only : bool) : M Env unit :=
  completed <- gets (fun e => RunnerObject.completed (the_runner e)) ;;
  when completed (throw "Cannot add() a test case after tests completed.") ;;
  runner <- gets the_runner ;;
  let t := Test.new name fn (Some runner) in
  on_runner (fun r =>
    if only
    then SetRunner.onlyTests (RunnerObject.onlyTests r ++ [t]) r
    else SetRunner.tests (RunnerObject.tests r ++ [t]) r) ;;
  scheduled <- gets (fun e => RunnerObject.scheduled (the_runner e)) ;;
  when (negb scheduled)
    (on_runner (SetRunner.scheduled true) ;;
     emit SetTimeout).

Fixpoint store_nth (index : nat) (t : TestObject.t) (ts : list TestObject.t)
  : list TestObject.t :=
  match ts, index with
  | [], _ => []
  | _ :: ts', O => t :: ts'
  | t0 :: ts', S i => t0 :: store_nth i t ts'
  end.

(** A test is an object of the registry it was taken from: what
    [test.run()] does to it is seen there, also when it throws. *)
Definition store (only : bool) (index : nat) (t : TestObject.t)
  (r : RunnerObject.t) : RunnerObject.t :=
  if only
  then SetRunner.onlyTests (store_nth index t (RunnerObject.onlyTests r)) r
  else SetRunner.tests (store_nth index t (RunnerObject.tests r)) r.

Definition run_test (only : bool) (index : nat) (test : TestObject.t)
  : M Env Tally :=
  fun e =>
    let '(result, (test', e')) := Test.run (test, e) in
    (result, with_runner (store only index test' (the_runner e')) e').

(** The totals of the loop: [total], [success] and [fail]. *)
Record Totals : Type := mkTotals { total : Z; success : Z; failed : Z }.

Fixpoint run_tests (only : bool) (index : nat) (ts : list TestObject.t)
  (acc : Totals) : M Env Totals :=
  match ts with
  | [] => ret acc
  | test :: ts' =>
      result <- run_test only index test ;;
      run_tests only (S index) ts'
        (mkTotals (total acc + (fail result + pass result))
                  (success acc + pass result)
                  (failed acc + fail result))
  end.

Definition run : M Env unit :=
  runner <- gets the_runner ;;
  let only := Nat.ltb 0 (List.length (RunnerObject.onlyTests runner)) in
  let ts := if only then RunnerObject.onlyTests runner
            else RunnerObject.tests runner in
  report "TAP version 13" ;;
  totals <- run_tests only 0 ts (mkTotals 0 0 0) ;;
  on_runner (SetRunner.completed true) ;;
  report "" ;;
  report ("1.." ++ Str.of_Z (total totals)) ;;
  report ("# tests " ++ Str.of_Z (total totals)) ;;
  report ("# pass  " ++ Str.of_Z (success totals)) ;;
  (if negb (Z.eqb (failed totals) 0)
   then report ("# fail  " ++ Str.of_Z (failed totals))
   else report "" ;; report "# ok") ;;
  callback <- gets (fun e => RunnerObject._onFinishCallback (the_runner e)) ;;
  if truthy callback
  then emit (OnFinishCalled callback (total totals) (success totals)
               (failed totals))
  else when has_process (emit (ProcessOnExit (failed totals))).

(** The function [add] gives to [setTimeout]: a rejected run is thrown
    again on a later turn when [rethrowExceptions] is set. *)
Definition scheduled_run : M Env unit :=
  fun e =>
    match run e with
    | (Throw err, e') =>
        if RunnerObject.rethrowExceptions (the_runner e')
        then emit (Rethrown err) e'
        else (Return tt, e')
    | done => done
    end.

Definition onFinish (callback : Value) : M Env unit :=
  if String.eqb (typeof callback) "function"
  then on_runner (SetRunner._onFinishCallback callback)
  else throw "onFinish() expects a function".

End Methods.
End TestRunner.

(** The functions the module exports, on the state whose runner is
    [GLOBAL_TEST_RUNNER]. *)
Section Exports.
Context {host : Host}.

Definition only (name : string) (fn : option TestFn) : M Env unit :=
  match fn with
  | None => ret tt
  | Some fn => TestRunner.add name fn true
  end.

Definition skip (_name : string) (_fn : option TestFn) : M Env unit := ret tt.

Definition setStrict (strict : bool) : M Env unit :=
  on_runner (SetRunner.strict strict).

Definition test (name : string) (fn : option TestFn) : M Env unit :=
  match fn with
  | None => ret tt
  | Some fn => TestRunner.add name fn false
  end.

End Exports.

(** A state whose runner was just built. *)
Definition fresh : Env := mkEnv TestRunner.new "" [] [].

Local Close Scope monad_scope.

(** The search of a regular expression that matches its source, as a
    plain text, at the start of the text only. *)
Definition anchored_exec (source flags : string) (from : Z) (s : string)
  : option Z :=
  if Z.eqb from 0 && String.prefix source s
  then Some (Z.of_nat (String.length source))
  else None.

(** A host without stack traces, whose regular expressions match the
    strings that start with their source. *)
Definition quiet_host : Host := {|
  regexp_exec := anchored_exec;
  loose_eq := strict_eq;
  assert_error_stack := fun description => "Error: " ++ description;
  temp_error_stack := "Error: temp";
  at_regex_exec := fun _ => None;
  has_process := false
|}.

(* ================================================================= *)
(** ** The vocabulary of the statements *)

(** The state after [ls] more lines went to the sink. *)
Definition add_lines (ls : list string) (e : Env) : Env :=
  with_runner
    (SetRunner.reported (RunnerObject.reported (the_runner e) ++ ls)
       (the_runner e)) e.

Definition lines (e : Env) : list string := RunnerObject.reported (the_runner e).

(** The result line of the assertion numbered [id]. *)
Definition result_text (pass : bool) (id : Z) (description : string) : string :=
  (if pass then "ok" else "not ok") ++ " " ++ Str.of_Z id ++ " " ++ description.

(** The form of a field on one line. *)
Definition inline (field value : string) : string := field ++ value.

(** The block form of a field of the diagnostic block. *)
Definition block (field value : string) : string :=
  field ++ "|-" ++ Str.newline ++ "      "
  ++ Str.replaceAll Str.newline (Str.newline ++ "      ") value.

(** A line that shows its field in block form opens the block after the
    name of the field. *)
Definition is_block (field line : string) : bool :=
  String.prefix (field ++ "|-" ++ Str.newline) line.

Definition bar : ascii := ascii_of_nat 124.

Definition starts_with_bar (s : string) : bool :=
  match s with
  | String c _ => Ascii.eqb c bar
  | EmptyString => false
  end.

(** The two lines that show the values, as [report_values] sends them. *)
Definition value_lines (ex ac : string) : list string :=
  if Nat.ltb 65 (Nat.max (String.length ex) (String.length ac))
  then [ block "    expected: " ex; block "    actual:   " ac ]
  else [ inline "    expected: " ex; inline "    actual:   " ac ].

(** [this] after the plan bookkeeping of [_assert]. *)
Definition counted (t : TestObject.t) : TestObject.t :=
  match TestObject._planned t with
  | Some _ => SetTest._actual (Some (or_zero (TestObject._actual t) + 1)%Z) t
  | None => t
  end.

(** The state after the result line of an assertion went out. *)
Definition result_line (pass : bool) (description : string) (e : Env) : Env :=
  let id := (RunnerObject._id (the_runner e) + 1)%Z in
  add_lines [result_text pass id description]
    (with_runner (SetRunner._id id (the_runner e)) e).

(** The calls that are assertions. *)
Definition is_assertion (c : Script.Call) : bool :=
  match c with
  | Script.Comment _ | Script.Plan _ | Script.Raise _ => false
  | _ => true
  end.

(** How many assertion calls a test function makes when it runs to its
    end. *)
Definition assertions (fn : TestFn) : Z :=
  Z.of_nat (List.length (filter is_assertion fn)).

Definition count_of (s : Outcome unit * Test.State) : Z :=
  or_zero (TestObject._actual (fst (snd s))).

Definition is_plan (c : Script.Call) : bool :=
  match c with Script.Plan _ => true | _ => false end.

(** The plans of a test function are counts: none is negative. *)
Definition plans_are_counts (fn : TestFn) : bool :=
  forallb (fun c => match c with Script.Plan n => Z.leb 0 n | _ => true end) fn.

Definition plans (fn : TestFn) : nat := List.length (filter is_plan fn).

(** The plan that a test function leaves in force: the last it declares. *)
Fixpoint last_plan (fn : TestFn) : option Z :=
  match fn with
  | [] => None
  | c :: fn' =>
      match last_plan fn' with
      | Some n => Some n
      | None => match c with Script.Plan n => Some n | _ => None end
      end
  end.

(** The calls that follow the first call of [plan]. *)
Fixpoint after_first_plan (fn : TestFn) : TestFn :=
  match fn with
  | [] => []
  | Script.Plan _ :: fn' => fn'
  | _ :: fn' => after_first_plan fn'
  end.

(** The count is within the plan, and unset while there is no plan. *)
Definition within_plan (t : TestObject.t) : Prop :=
  match TestObject._planned t with
  | Some n => (or_zero (TestObject._actual t) <= n)%Z
  | None => TestObject._actual t = None
  end.

(** The results that a test has tallied. *)
Definition made (t : TestObject.t) : Z :=
  (pass (TestObject._result t) + fail (TestObject._result t))%Z.

(** A call that, on a test whose count is within its plan, tallies a
    result only when it counts an assertion within the plan: when it returns,
    the plan is as it was, the count is within it and the tally grew by no
    more than the count; when it throws, the tally is as it was. *)
Definition Spends (m : M Test.State unit) : Prop :=
  forall t e n,
    TestObject._planned t = Some n ->
    (or_zero (TestObject._actual t) <= n)%Z ->
    let t' := fst (snd (m (t, e))) in
    match fst (m (t, e)) with
    | Return _ =>
        TestObject._planned t' = Some n
        /\ (or_zero (TestObject._actual t') <= n)%Z
        /\ (made t' - made t
            <= or_zero (TestObject._actual t') - or_zero (TestObject._actual t))%Z
    | Throw _ => made t' = made t
    end.

(** A call that leaves the plan as it is and, when it returns, the count
    within it. *)
Definition Keeps (m : M Test.State unit) : Prop :=
  forall t e,
    TestObject._planned (fst (snd (m (t, e)))) = TestObject._planned t
    /\ (fst (m (t, e)) = Return tt ->
        within_plan t -> within_plan (fst (snd (m (t, e))))).

Definition forty_a : string := "aaaaaaaaaaaaaaaaaaaaaaaaaaaaaaaaaaaaaaaa".

Definition forty_b : string := "bbbbbbbbbbbbbbbbbbbbbbbbbbbbbbbbbbbbbbbb".

Module Sentinel.

Definition dq : ascii := ascii_of_nat 34.

Fixpoint all_chars (p : ascii -> bool) (s : string) : bool :=
  match s with
  | EmptyString => true
  | String c s' => p c && all_chars p s'
  end.

(** The characters that a JSON string literal holds as they are. *)
Definition plain_char (c : ascii) : bool :=
  Nat.leb 32 (nat_of_ascii c)
  && negb (Nat.eqb (nat_of_ascii c) 34)
  && negb (Nat.eqb (nat_of_ascii c) 92).

Definition plain (s : string) : bool := all_chars plain_char s.

Definition not_dq (c : ascii) : bool := negb (Ascii.eqb c dq).

(** What [toJSON] looks for in the serialized text. *)
Definition pattern : string := JSON.QuoteJSONString sentinel.

End Sentinel.

(** The member that a property brings to the text of its object, on a
    line of its own: none when its value has no text. *)
Definition member (key : string) (text : option string) : list string :=
  match text with
  | Some strP => [JSON.QuoteJSONString key ++ ": " ++ strP]
  | None => []
  end.

(** The text of an element of an array: [null] when it has none. *)
Definition element (text : option string) : string :=
  match text with
  | Some strP => strP
  | None => "null"
  end.

(** The text of a value, written directly: [u] is the text of
    [undefined], if it has one.  Objects and arrays are written over several
    lines, two more spaces at each level; a function has no text. *)
Fixpoint text_of (u : option string) (indent : string) (v : Value) {struct v}
  : option string :=
  match v with
  | VUndefined => u
  | VFunction _ => None
  | VNull => Some "null"
  | VBool true => Some "true"
  | VBool false => Some "false"
  | VNumber NaN => Some "null"
  | VNumber (Num z) => Some (Str.of_Z z)
  | VString s => Some (JSON.QuoteJSONString s)
  | VRegExp _ _ _ _ | VError _ _ _ _ _ => Some "{}"
  | VArray _ xs _ =>
      Some (JSON.wrap "[" "]" indent (indent ++ "  ")
              (map (fun x => element (text_of u (indent ++ "  ") x)) xs))
  | VObject _ _ _ _ props _ _ _ =>
      Some (JSON.wrap "{" "}" indent (indent ++ "  ")
              (flat_map
                 (fun kv =>
                    let '(key, x) := kv in
                    member key (text_of u (indent ++ "  ") x))
                 props))
  end.

(** Whether [s] ends with a quote followed by the sentinel. *)
Fixpoint ends_as_sentinel (s : string) : bool :=
  match s with
  | EmptyString => false
  | String c s' =>
      (Ascii.eqb c Sentinel.dq && String.eqb s' sentinel)
      || ends_as_sentinel s'
  end.

(** A string or a key whose text between quotes does not hold the quoted
    sentinel: it is not the sentinel, and it does not end with a quote
    followed by the sentinel (that quote is written after a backslash, and
    with the closing quote it would read as the quoted sentinel). *)
Definition quotable (s : string) : bool :=
  negb (String.eqb s sentinel) && negb (ends_as_sentinel s).

(** The values whose text is their structure: their strings and keys are
    quotable, their numbers are in the range where every digit is written,
    and none of their objects has a [toJSON] method or wraps a primitive
    value. *)
Fixpoint plain_data (v : Value) {struct v} : bool :=
  match v with
  | VString s => quotable s
  | VNumber (Num z) => (Z.abs z <? 2 ^ 53)%Z
  | VArray _ xs _ => forallb plain_data xs
  | VObject _ _ _ _ props _ json prim =>
      match json, prim with
      | None, None =>
          forallb (fun kv => let '(key, x) := kv in quotable key && plain_data x)
            props
      | _, _ => false
      end
  | _ => true
  end.

(** Text that does not start with the first character of the sentinel. *)
Definition ok_start (s : string) : bool :=
  match s with
  | String c _ => negb (Ascii.eqb c "_")
  | EmptyString => true
  end.

(** Indentation. *)
Definition blank (s : string) : bool :=
  Sentinel.all_chars (fun c => Ascii.eqb c " ") s.

(** [s'] is [s] with every quoted sentinel replaced by the bare token,
    whatever text follows that does not start as the sentinel does. *)
Definition Substituted (s s' : string) : Prop :=
  forall rest,
    ok_start rest = true ->
    Str.replaceAll Sentinel.pattern "undefined" (s ++ rest)
    = s' ++ Str.replaceAll Sentinel.pattern "undefined" rest.

(** The texts of one value with the quoted sentinel and with the bare
    token for [undefined]. *)
Definition Rendered (x y : option string) : Prop :=
  match x, y with
  | Some s, Some s' => Substituted s s' /\ ok_start s = true
  | None, None => True
  | _, _ => False
  end.

(** A replacer that answers [u] for [undefined] and leaves every other
    value as it is. *)
Definition answers (r : JSON.Replacer) (u : option string) : Prop :=
  forall key v,
    match r key v with
    | JSON.Subst p => v = VUndefined /\ JSON.primitive_json p = u
    | JSON.Keep => v <> VUndefined \/ u = None
    end.

(** The text of an object with one field. *)
Definition one_field (key value : string) : string :=
  "{" ++ Str.newline ++ "  " ++ JSON.dquote ++ key ++ JSON.dquote ++ ": " ++ value
  ++ Str.newline ++ "}".

(** The state with [x] as the registry of the tests that are not
    exclusive. *)
Definition retest (x : list TestObject.t) (e : Env) : Env :=
  with_runner (SetRunner.tests x (the_runner e)) e.

(** A computation that neither reads nor writes that registry. *)
Definition Indep {A} (m : M Env A) : Prop :=
  forall x e, m (retest x e) = (fst (m e), retest x (snd (m e))).

Definition IndepT {A} (m : M Test.State A) : Prop :=
  forall x t e,
    m (t, retest x e)
    = (fst (m (t, e)), (fst (snd (m (t, e))), retest x (snd (snd (m (t, e)))))).

Module Symmetry.
Import FastDeepEqual.

Definition both_nan (a b : Value) : bool :=
  match a, b with
  | VNumber NaN, VNumber NaN => true
  | _, _ => false
  end.

(** The loop over the elements of two arrays, from the last to the first. *)
Definition items_eq (eq : Value -> Value -> bool)
  : list Value -> list Value -> bool :=
  fix items (xs ys : list Value) {struct xs} : bool :=
    match xs with
    | [] => true
    | x :: xs' => if items xs' (tl ys) then eq x (hd VUndefined ys) else false
    end.

(** The loop over the properties of [a], looked up in [b]. *)
Definition fields_eq (eq : Value -> Value -> bool) (b : Value)
  : list (string * Value) -> bool :=
  fix fields (ps : list (string * Value)) {struct ps} : bool :=
    match ps with
    | [] => true
    | (key, v) :: ps' => if fields ps' then eq v (get b key) else false
    end.

(** The comparison of two objects of one constructor that are neither
    arrays nor regular expressions. *)
Definition structure_eq (a b : Value) : bool :=
  if overrides_valueOf a then strict_eq (call_valueOf a) (call_valueOf b)
  else if overrides_toString a
  then String.eqb (call_toString a) (call_toString b)
  else if negb (Nat.eqb (List.length (own_props a)) (List.length (own_props b)))
  then false
  else if negb (all_own b (map fst (own_props a))) then false
  else fields_eq deepEqual b (own_props a).

(** For each class, whether its instances override [valueOf] and
    [toString]. *)
Definition Shape : Type := string -> bool * bool.

Definition is_some {A} (x : option A) : bool :=
  match x with Some _ => true | None => false end.

Fixpoint nodupb (ks : list string) : bool :=
  match ks with
  | [] => true
  | k :: ks' => negb (existsb (String.eqb k) ks') && nodupb ks'
  end.

(** The values whose objects have distinct keys, all of them
    enumerable, and the overrides of their class, in all their elements and
    properties. *)
Fixpoint well_formed (shape : Shape) (v : Value) {struct v} : bool :=
  match v with
  | VArray _ xs _ =>
      (fix all (xs : list Value) : bool :=
         match xs with
         | [] => true
         | x :: xs' => well_formed shape x && all xs'
         end) xs
  | VObject _ cls valueOf toString ps hidden _ _ =>
      Bool.eqb (is_some valueOf) (fst (shape cls))
      && Bool.eqb (is_some toString) (snd (shape cls))
      && match hidden with [] => true | _ :: _ => false end
      && nodupb (map fst ps)
      && (fix all (ps : list (string * Value)) : bool :=
            match ps with
            | [] => true
            | (_, v) :: ps' => well_formed shape v && all ps'
            end) ps
  | _ => true
  end.

(** The comparator gives one answer in both directions at [x] and every
    well-formed value. *)
Definition symmetric_at (shape : Shape) (x : Value) : Prop :=
  forall y, well_formed shape y = true -> deepEqual x y = deepEqual y x.

End Symmetry.

Section ValueInduction.

Variable P : Value -> Prop.

Hypothesis P_undefined : P VUndefined.

Hypothesis P_null : P VNull.

Hypothesis P_bool : forall b, P (VBool b).

Hypothesis P_number : forall n, P (VNumber n).

Hypothesis P_string : forall s, P (VString s).

Hypothesis P_function : forall id, P (VFunction id).

Hypothesis P_array :
  forall id items cls, Forall P items -> P (VArray id items cls).

Hypothesis P_regexp :
  forall id source flags cls, P (VRegExp id source flags cls).

Hypothesis P_error :
  forall id message stack name cls, P (VError id message stack name cls).

Hypothesis P_object :
  forall id cls valueOf toString props hidden json prim,
    Forall (fun kv => P (snd kv)) props ->
    P (VObject id cls valueOf toString props hidden json prim).

(** Induction on a value, with the elements of an array and the values
    of the properties of an object as the smaller values. *)
Fixpoint Value_nested_ind (v : Value) : P v :=
  match v with
  | VUndefined => P_undefined
  | VNull => P_null
  | VBool b => P_bool b
  | VNumber n => P_number n
  | VString s => P_string s
  | VFunction id => P_function id
  | VArray id items cls =>
      P_array id cls
        ((fix all (xs : list Value) : Forall P xs :=
            match xs with
            | [] => Forall_nil P
            | x :: xs' => Forall_cons x (Value_nested_ind x) (all xs')
            end) items)
  | VRegExp id source flags cls => P_regexp id source flags cls
  | VError id message stack name cls => P_error id message stack name cls
  | VObject id cls valueOf toString props hidden json prim =>
      P_object id cls valueOf toString hidden json prim
        ((fix all (ps : list (string * Value))
            : Forall (fun kv => P (snd kv)) ps :=
            match ps with
            | [] => Forall_nil _
            | kv :: ps' =>
                Forall_cons kv (Value_nested_ind (snd kv)) (all ps')
            end) props)
  end.

End ValueInduction.

(* ================================================================= *)
(** ** The vocabulary of a run and of its report *)

(** The state after [ls] more lines went to the sink, [k] more
    identifiers were taken, [CACHED_FILE] became [c] and the [lastIndex] of
    the regular expressions became [ix]. *)
Definition touch (ls : list string) (k : Z) (c : string) (ix : list (nat * Z))
  (e : Env) : Env :=
  with_lastIndex ix
    (with_CACHED_FILE c
       (with_runner
          (SetRunner._id (RunnerObject._id (the_runner e) + k)
             (SetRunner.reported (RunnerObject.reported (the_runner e) ++ ls)
                (the_runner e)))
          e)).

Definition ids (e : Env) : Z := RunnerObject._id (the_runner e).

(** A line of the report that gives the result of an assertion. *)
Definition is_result (line : string) : bool :=
  String.prefix "ok " line || String.prefix "not ok " line.

(** The lines of a diagnostic block are indented. *)
Definition indented (line : string) : bool := String.prefix " " line.

(** The lines a test sends: results, comments and diagnostic blocks. *)
Definition body_line (line : string) : bool :=
  is_result line || String.prefix "# " line || indented line.

(** The result lines of the assertions [rs], each given by its outcome and
    its description, numbered from [from]. *)
Fixpoint numbered (from : Z) (rs : list (bool * string)) : list string :=
  match rs with
  | [] => []
  | (p, description) :: rs' =>
      result_text p from description :: numbered (from + 1) rs'
  end.

Definition count {A} (xs : list A) : Z := Z.of_nat (List.length xs).

Definition oks (rs : list (bool * string)) : Z := count (filter fst rs).

Definition not_oks (rs : list (bool * string)) : Z :=
  count (filter (fun r => negb (fst r)) rs).

(** [t'] is the test [t] at a later time: the fields the constructor
    sets and no method writes are the same. *)
Definition same_test (t t' : TestObject.t) : Prop :=
  TestObject.name t' = TestObject.name t
  /\ TestObject.fn t' = TestObject.fn t
  /\ TestObject.runner t' = TestObject.runner t
  /\ TestObject.strict t' = TestObject.strict t.

(** What a method of a test does to the state around it and to the
    tally: it sends lines, among them the result lines of the assertions
    [rs] it accepts, numbered after the identifiers already taken; it takes
    one identifier for each, may set [CACHED_FILE] and may move the
    [lastIndex] of a regular expression; the tally grows by the outcomes of
    [rs]; without a runner nothing else moves. *)
Definition Records {A} (m : M Test.State A) : Prop :=
  forall t e,
    exists ls rs c ix,
      snd (snd (m (t, e))) = touch ls (count rs) c ix e
      /\ filter is_result ls = numbered (ids e + 1) rs
      /\ forallb body_line ls = true
      /\ same_test t (fst (snd (m (t, e))))
      /\ pass (TestObject._result (fst (snd (m (t, e)))))
         = (pass (TestObject._result t) + oks rs)%Z
      /\ fail (TestObject._result (fst (snd (m (t, e)))))
         = (fail (TestObject._result t) + not_oks rs)%Z
      /\ (TestObject.runner t = false ->
          snd (snd (m (t, e))) = with_lastIndex ix e /\ rs = []).

(** [e'] is [e] after a part of a run: [ls] more lines at the sink, among
    them the result lines of the assertions [rs], numbered after the
    identifiers of [e]; the flags of the runner, its callback and the trace
    of the host are those of [e]. *)
Definition Reports (e e' : Env) (ls : list string) (rs : list (bool * string))
  : Prop :=
  lines e' = (lines e ++ ls)%list
  /\ ids e' = (ids e + count rs)%Z
  /\ filter is_result ls = numbered (ids e + 1) rs
  /\ forallb body_line ls = true
  /\ events e' = events e
  /\ RunnerObject.completed (the_runner e')
     = RunnerObject.completed (the_runner e)
  /\ RunnerObject._onFinishCallback (the_runner e')
     = RunnerObject._onFinishCallback (the_runner e)
  /\ RunnerObject.rethrowExceptions (the_runner e')
     = RunnerObject.rethrowExceptions (the_runner e)
  /\ RunnerObject.strict (the_runner e') = RunnerObject.strict (the_runner e)
  /\ RunnerObject.scheduled (the_runner e')
     = RunnerObject.scheduled (the_runner e).

(** A test that has not run: its tally is the one of the constructor. *)
Definition unrun (t : TestObject.t) : Prop :=
  TestObject._result t = mkTally 0 0.

(** The tests a run takes: [onlyTests] when there is one, [tests]
    otherwise. *)
Definition selected (r : RunnerObject.t) : list TestObject.t :=
  if Nat.ltb 0 (List.length (RunnerObject.onlyTests r))
  then RunnerObject.onlyTests r
  else RunnerObject.tests r.

(** The totals of a run whose accepted assertions are [rs]. *)
Definition totals_of (rs : list (bool * string)) : TestRunner.Totals :=
  TestRunner.mkTotals (count rs) (oks rs) (not_oks rs).

(** The lines that close the report of a run. *)
Definition summary_lines (totals : TestRunner.Totals) : list string :=
  [ "";
    "1.." ++ Str.of_Z (TestRunner.total totals);
    "# tests " ++ Str.of_Z (TestRunner.total totals);
    "# pass  " ++ Str.of_Z (TestRunner.success totals) ]
  ++ (if Z.eqb (TestRunner.failed totals) 0
      then [""; "# ok"]
      else ["# fail  " ++ Str.of_Z (TestRunner.failed totals)]).

(** What the end of a run asks of the host. *)
Definition finish_events {host : Host} (callback : Value)
  (totals : TestRunner.Totals) : list HostEvent :=
  if truthy callback
  then [OnFinishCalled callback (TestRunner.total totals)
          (TestRunner.success totals) (TestRunner.failed totals)]
  else if has_process then [ProcessOnExit (TestRunner.failed totals)]
  else [].

(** The state in which a run that met no exception ends. *)
Definition finished {host : Host} (totals : TestRunner.Totals) (e : Env) : Env :=
  with_events
    (events e
     ++ finish_events (RunnerObject._onFinishCallback (the_runner e)) totals)
    (add_lines (summary_lines totals)
       (with_runner (SetRunner.completed true (the_runner e)) e)).

(** A computation that answers the tally of the test it leaves. *)
Definition Yields (m : M Test.State Tally) : Prop :=
  forall s res, fst (m s) = Return res ->
                res = TestObject._result (fst (snd (m s))).

(** The body of [run] after the name of the test went out. *)
Definition test_body {host : Host} : M Test.State Tally :=
  bind (Test.this TestObject.fn) (fun fn =>
  bind (Test.apply fn) (fun _ =>
  bind (Test.update (SetTest.done true)) (fun _ =>
  bind (Test.this TestObject._planned) (fun planned =>
  bind
    match planned with
    | Some planned =>
        bind (Test.this (fun t => or_zero (TestObject._actual t)))
          (fun actual =>
             when (actual <? planned)%Z
               (throw (Test.ended_before_planned planned actual)))
    | None => ret tt
    end
    (fun _ => Test.this TestObject._result))))).

(** What [test] answers on the regular expression [id] and where it
    leaves the [lastIndex] of the regular expressions, from [ix]. *)
Definition tested {host : Host} (id : nat) (source flags s : string)
  (ix : list (nat * Z)) : bool * list (nat * Z) :=
  if global_or_sticky flags
  then match regexp_exec source flags (index_of id ix) s with
       | Some last => (true, (id, last) :: ix)
       | None => (false, (id, 0%Z) :: ix)
       end
  else (match regexp_exec source flags 0%Z s with
        | Some _ => true
        | None => false
        end, ix).

(** Whether [throws] finds what it expects: an exception, whose message
    the regular expression matches when one is expected; the regular
    expression is tested when an exception was caught, and only then. *)
Definition throws_passes {host : Host} (fn : unit -> option ErrorObject)
  (expected : Value) (ix : list (nat * Z)) : bool * list (nat * Z) :=
  match expected, fn tt with
  | VRegExp id source flags _, Some e => tested id source flags (message e) ix
  | _, Some _ => (true, ix)
  | _, None => (false, ix)
  end.

(** The result that a call of a test function asks to be reported: the
    outcome of its assertion and its description, the given one or the one
    of the method; and the [lastIndex] of the regular expressions after the
    call, from [ix] before it. *)
Definition verdict {host : Host} (c : Script.Call) (ix : list (nat * Z))
  : list (bool * string) * list (nat * Z) :=
  match c with
  | Script.DeepEqual actual expected msg =>
      ([(FastDeepEqual.deepEqual actual expected,
         or_else msg "should be equivalent")], ix)
  | Script.NotDeepEqual actual expected msg =>
      ([(negb (FastDeepEqual.deepEqual actual expected),
         or_else msg "should not be equivalent")], ix)
  | Script.Equal actual expected msg =>
      ([(loose_eq actual expected, or_else msg "should be equal")], ix)
  | Script.NotEqual actual expected msg =>
      ([(negb (loose_eq actual expected), or_else msg "should not be equal")],
       ix)
  | Script.Fail msg => ([(false, or_else msg "fail called")], ix)
  | Script.Ok actual msg =>
      ([(truthy actual, or_else msg "should be truthy")], ix)
  | Script.IfError err msg =>
      ([(negb (truthy (Test.maybe_error_value err)),
         or_else msg (Test.maybe_error_String err))], ix)
  | Script.Throws fn (VString s) _ =>
      ([(fst (throws_passes fn VUndefined ix), or_else (Some s) "show throw")],
       ix)
  | Script.Throws fn expected msg =>
      ([(fst (throws_passes fn expected ix), or_else msg "show throw")],
       snd (throws_passes fn expected ix))
  | Script.Comment _ | Script.Plan _ | Script.Raise _ => ([], ix)
  end.

(** The results of the calls of a test function, one after the other. *)
Fixpoint verdicts {host : Host} (fn : TestFn) (ix : list (nat * Z))
  : list (bool * string) * list (nat * Z) :=
  match fn with
  | [] => ([], ix)
  | c :: fn' =>
      let '(vs, ix1) := verdict c ix in
      let '(ws, ix2) := verdicts fn' ix1 in
      ((vs ++ ws)%list, ix2)
  end.

(** No result, and the regular expressions where they were. *)
Definition no_verdict (ix : list (nat * Z))
  : list (bool * string) * list (nat * Z) := ([], ix).

(** The results of one part, then those of the next. *)
Definition and_then
  (vs ws : list (nat * Z) -> list (bool * string) * list (nat * Z))
  (ix : list (nat * Z)) : list (bool * string) * list (nat * Z) :=
  ((fst (vs ix) ++ fst (ws (snd (vs ix))))%list, snd (ws (snd (vs ix)))).

(** A method that, on a test with a runner, reports the results that
    [vs] gives, and leaves the regular expressions where [vs] says,
    whenever it returns. *)
Definition Verdicts {A} (m : M Test.State A)
  (vs : list (nat * Z) -> list (bool * string) * list (nat * Z)) : Prop :=
  forall t e a,
    TestObject.runner t = true ->
    fst (m (t, e)) = Return a ->
    exists ls c,
      snd (snd (m (t, e)))
      = touch ls (count (fst (vs (lastIndex e)))) c (snd (vs (lastIndex e))) e
      /\ filter is_result ls = numbered (ids e + 1) (fst (vs (lastIndex e)))
      /\ forallb body_line ls = true
      /\ same_test t (fst (snd (m (t, e))))
      /\ pass (TestObject._result (fst (snd (m (t, e)))))
         = (pass (TestObject._result t) + oks (fst (vs (lastIndex e))))%Z
      /\ fail (TestObject._result (fst (snd (m (t, e)))))
         = (fail (TestObject._result t) + not_oks (fst (vs (lastIndex e))))%Z.

(** One of the two registries of a runner. *)
Definition registry (only : bool) (r : RunnerObject.t) : list TestObject.t :=
  if only then RunnerObject.onlyTests r else RunnerObject.tests r.

(** [t'] is the test [t] after a run of it that returned. *)
Definition ran (t t' : TestObject.t) : Prop :=
  same_test t t' /\ TestObject.done t' = true.

(** A test as [add] makes it, that has not run. *)
Definition queued_test (t : TestObject.t) : Prop :=
  TestObject.runner t = true /\ unrun t.

(* ================================================================= *)
(** ** The vocabulary of registrations *)

(** The calls by which a test file registers its tests. *)
Inductive Registration : Type :=
| CallTest (name : string) (fn : option TestFn)
| CallOnly (name : string) (fn : option TestFn)
| CallSkip (name : string) (fn : option TestFn).

Definition register (c : Registration) : M Env unit :=
  match c with
  | CallTest name fn => test name fn
  | CallOnly name fn => only name fn
  | CallSkip name fn => skip name fn
  end.

Fixpoint register_all (cs : list Registration) : M Env unit :=
  match cs with
  | [] => ret tt
  | c :: cs' => bind (register c) (fun _ => register_all cs')
  end.

(** The tests that the calls [cs] put in [onlyTests] (for [exclusive])
    or in [tests], built on the runner [r]. *)
Definition queued (exclusive : bool) (r : RunnerObject.t)
  (cs : list Registration) : list TestObject.t :=
  flat_map
    (fun c =>
       match c, exclusive with
       | CallTest name (Some fn), false => [Test.new name fn (Some r)]
       | CallOnly name (Some fn), true => [Test.new name fn (Some r)]
       | _, _ => []
       end) cs.

(** Whether an assertion call comes with a description; a string in the
    place of what [throws] expects is one. *)
Definition has_description (c : Script.Call) : bool :=
  match c with
  | Script.DeepEqual _ _ msg | Script.NotDeepEqual _ _ msg
  | Script.Equal _ _ msg | Script.NotEqual _ _ msg
  | Script.Fail msg | Script.Ok _ msg | Script.IfError _ msg =>
      negb (missing msg)
  | Script.Throws _ (VString s) _ => negb (missing (Some s))
  | Script.Throws _ _ msg => negb (missing msg)
  | _ => true
  end.

(** The state in which [add] leaves an uncompleted runner. *)
Definition added (name : string) (fn : TestFn) (only : bool) (e : Env) : Env :=
  let r := the_runner e in
  let t := Test.new name fn (Some r) in
  let r1 :=
    if only
    then SetRunner.onlyTests (RunnerObject.onlyTests r ++ [t]) r
    else SetRunner.tests (RunnerObject.tests r ++ [t]) r in
  if RunnerObject.scheduled r
  then with_runner r1 e
  else with_events (events e ++ [SetTimeout])
         (with_runner (SetRunner.scheduled true r1) e).


(** The run that a sequence of registrations schedules: one, when none
    was scheduled before and a test is registered. *)
Definition schedules (r : RunnerObject.t) (cs : list Registration)
  : list HostEvent :=
  if RunnerObject.scheduled r then []
  else match (queued false r cs ++ queued true r cs)%list with
       | [] => []
       | _ :: _ => [SetTimeout]
       end.

(* ================================================================= *)
(** ** The vocabulary of call sites and diagnostic blocks *)

(** Whether the frame [m] lies in the file [dir] of the package, or
    under it: [m[2].slice(0, dir.length) === dir]. *)
Definition inside (dir : string) (m : AtMatch) : bool :=
  String.eqb (Str.take (String.length dir) (m2 m)) dir.

(** The lines of a stack before the call site: each one is no frame, or
    a frame of the package. *)
Definition skipped {host : Host} (dir : string) (line : string) : Prop :=
  match at_regex_exec line with
  | None => True
  | Some m => inside dir m = true
  end.

(** A host whose stack lines are frames written [at name (path:line:col)]
    with one-character fields: the line [name path line col] stands for the
    frame of the function [name] at that position. *)
Definition frames_host : Host := {|
  regexp_exec := anchored_exec;
  loose_eq := strict_eq;
  assert_error_stack := fun description => "t /app/test.js 7 3";
  temp_error_stack := "Error: temp" ++ Str.newline ++ "f /lib/index.js 9 5";
  at_regex_exec := fun line =>
    match Str.split_lines
            (Str.replaceAll " " Str.newline line) with
    | [name; path; line; col] =>
        Some (mkAtMatch (Some name) (path ++ ":" ++ line ++ ":" ++ col)
                line (Some col))
    | _ => None
    end;
  has_process := true
|}.

(** The diagnostic block of a failing assertion: the operator, the two
    values as serialized, the call site when there is one, and the lines of
    the stack; [site] is empty without a call site. *)
Definition diagnostic_block (operator ex ac site stack : string)
  : list string :=
  ["  ---"; "    operator: " ++ operator]
  ++ value_lines ex ac
  ++ (if String.eqb site "" then [] else ["    at:       " ++ site])
  ++ ["    stack:    |-"]
  ++ map (fun line => "      " ++ line) (Str.split_lines stack)
  ++ ["  ..."].

(** The file of the package as [getTapZeroFileName] answers it when
    [cached] is the name it has cached: the cached name, or else the file of
    the first frame of the stack of a new error, without line and column. *)
Definition package_file {host : Host} (cached : string) : string :=
  if negb (String.eqb cached "") then cached
  else
    match first_match (Str.split_lines temp_error_stack) with
    | None => cached
    | Some m =>
        strip_position (m3 m)
          match m4 m with
          | Some col => strip_position col (m2 m)
          | None => m2 m
          end
    end.

(* ================================================================= *)
(** ** Samples *)

Example deepEqual_nested_arrays :
  FastDeepEqual.deepEqual
    (array 1 [VNumber (Num 1); array 2 [VNumber (Num 2); VNumber (Num 3)]])
    (array 3 [VNumber (Num 1); array 4 [VNumber (Num 2); VNumber (Num 3)]])
  = true
  /\ FastDeepEqual.deepEqual
    (array 1 [VNumber (Num 1); array 2 [VNumber (Num 2); VNumber (Num 3)]])
    (array 3 [VNumber (Num 1);
               array 4 [VNumber (Num 2); VNumber (Num 3); VNumber (Num 4)]])
  = false.
Proof. split; reflexivity. Qed.

Example deepEqual_field_order :
  FastDeepEqual.deepEqual
    (literal 1 [("x", VNumber (Num 1)); ("y", VNumber NaN)])
    (literal 2 [("y", VNumber NaN); ("x", VNumber (Num 1))])
  = true.
Proof. reflexivity. Qed.

Example deepEqual_regexp :
  FastDeepEqual.deepEqual (regexp 1 "a" "gi") (regexp 2 "a" "gi") = true
  /\ FastDeepEqual.deepEqual (regexp 1 "a" "gi") (regexp 2 "a" "g") = false.
Proof. split; reflexivity. Qed.

Example toJSON_samples :
  toJSON (VNumber (Num 2)) = "2"
  /\ toJSON (VString ("a" ++ JSON.dquote ++ "b"))
     = JSON.dquote ++ "a" ++ JSON.backslash ++ JSON.dquote ++ "b" ++ JSON.dquote
  /\ toJSON (array 1 [VNumber (Num 1); VUndefined])
     = "[" ++ Str.newline ++ "  1," ++ Str.newline ++ "  undefined"
       ++ Str.newline ++ "]"
  /\ toJSON (literal 1
               [("a", literal 2 [("b", VNull)]);
                ("f", VFunction 3)])
     = "{" ++ Str.newline ++ "  " ++ JSON.dquote ++ "a" ++ JSON.dquote ++ ": {"
       ++ Str.newline ++ "    " ++ JSON.dquote ++ "b" ++ JSON.dquote ++ ": null"
       ++ Str.newline ++ "  }" ++ Str.newline ++ "}"
  /\ toJSON (VFunction 1) = "undefined"
  /\ toJSON (VNumber (Num (-12))) = "-12"
  /\ toJSON (array 1 []) = "[]".
Proof. repeat split; reflexivity. Qed.

(* ================================================================= *)
(** ** Running a computation *)

Ltac unfold_monad :=
  unfold Test.this, Test.update, Test.env, on_runner, emit, when in *;
  unfold bind, ret, throw, gets, modify in *.

Ltac simpl_test :=
  cbn [fst snd or_zero TestObject.done TestObject._planned TestObject._actual
       TestObject.name TestObject.runner TestObject._result TestObject.fn
       TestObject.strict SetTest._actual SetTest._planned SetTest.done
       SetTest._result].

Lemma report_eq (line : string) (e : Env) :
  report line e = (Return tt, add_lines [line] e).
Proof. reflexivity. Qed.

Lemma add_lines_app (xs ys : list string) (e : Env) :
  add_lines ys (add_lines xs e) = add_lines (xs ++ ys) e.
Proof.
  destruct e as [r c ev ix]; destruct r; unfold add_lines; cbn.
  now rewrite app_assoc.
Qed.

Lemma add_lines_nil (e : Env) : add_lines [] e = e.
Proof.
  destruct e as [r c ev ix]; destruct r; unfold add_lines; cbn.
  now rewrite app_nil_r.
Qed.

Lemma add_lines_cached (ls : list string) (c : string) (e : Env) :
  add_lines ls (with_CACHED_FILE c e) = with_CACHED_FILE c (add_lines ls e).
Proof. reflexivity. Qed.

(* ================================================================= *)
(** ** The report of a run *)

(** C1: a runner built with a collecting sink, holding the single test
    [t1] whose function calls [ok(true)] without a description, reports
    exactly the nine lines of a passing run, in order, and its run ends
    without an exception. *)
Theorem run_one_passing_test (host : Host) :
  let registered :=
    snd (TestRunner.add "t1" [Script.Ok (VBool true) None] false fresh) in
  RunnerObject.tests (the_runner registered)
    = [Test.new "t1" [Script.Ok (VBool true) None] (Some TestRunner.new)]
  /\ RunnerObject.onlyTests (the_runner registered) = []
  /\ fst (TestRunner.run registered) = Return tt
  /\ lines (snd (TestRunner.run registered))
     = ["TAP version 13"; "# t1"; "ok 1 should be truthy"; ""; "1..1";
        "# tests 1"; "# pass  1"; ""; "# ok"].
Proof.
  destruct host as [rt le aes tes are hp].
  destruct hp; vm_compute; repeat split.
Qed.

(* ================================================================= *)
(** ** What an assertion does to the state *)

Section Assertions.

Context {host : Host}.

Lemma with_CACHED_FILE_same (e : Env) : with_CACHED_FILE (CACHED_FILE e) e = e.
Proof. now destruct e. Qed.

Lemma getTapZeroFileName_eq (e : Env) :
  exists file c, getTapZeroFileName e = (Return file, with_CACHED_FILE c e).
Proof.
  unfold getTapZeroFileName; unfold_monad.
  destruct (negb (String.eqb (CACHED_FILE e) "")).
  - exists (CACHED_FILE e), (CACHED_FILE e). now rewrite with_CACHED_FILE_same.
  - destruct (first_match (Str.split_lines temp_error_stack)); cbn.
    + eexists _, _. reflexivity.
    + exists (CACHED_FILE e), (CACHED_FILE e). now rewrite with_CACHED_FILE_same.
Qed.

Lemma findAtLineFromError_eq (err_stack : string) (e : Env) :
  exists at_ c,
    findAtLineFromError err_stack e = (Return at_, with_CACHED_FILE c e).
Proof.
  unfold findAtLineFromError; unfold_monad.
  destruct (getTapZeroFileName_eq e) as (file & c & ->).
  eexists _, _. reflexivity.
Qed.

Lemma report_stack_eq (ls : list string) (e : Env) :
  Test.report_stack ls e
  = (Return tt, add_lines (map (fun line => "      " ++ line) ls) e).
Proof.
  revert e; induction ls as [|l ls IH]; intro e; cbn [Test.report_stack map].
  - unfold ret. now rewrite add_lines_nil.
  - unfold bind. rewrite report_eq, IH, add_lines_app. reflexivity.
Qed.

Lemma report_values_eq (ex ac : string) (e : Env) :
  Test.report_values ex ac e = (Return tt, add_lines (value_lines ex ac) e).
Proof.
  unfold Test.report_values, value_lines.
  destruct (Nat.ltb 65 _); unfold bind; now rewrite !report_eq, add_lines_app.
Qed.

Lemma diagnostics_eq (actual expected : Value) (operator atErr err : string)
  (e : Env) :
  exists c rest,
    Test.diagnostics actual expected operator atErr err e
    = (Return tt,
       with_CACHED_FILE c
         (add_lines
            (["  ---"; "    operator: " ++ operator]
             ++ value_lines (toJSON expected) (toJSON actual) ++ rest) e)).
Proof.
  unfold Test.diagnostics, bind.
  rewrite !report_eq, report_values_eq.
  match goal with
  | |- context [findAtLineFromError ?s ?e0] =>
      destruct (findAtLineFromError_eq s e0) as (at_ & c & ->)
  end.
  exists c.
  unfold when.
  destruct (negb (String.eqb at_ "")).
  - rewrite !report_eq, report_stack_eq, report_eq.
    rewrite !add_lines_cached, !add_lines_app.
    eexists. cbn [app]. reflexivity.
  - unfold ret. rewrite !report_eq, report_stack_eq, report_eq.
    rewrite !add_lines_cached, !add_lines_app.
    eexists. cbn [app]. reflexivity.
Qed.

Lemma bind_ret {S A B} (a : A) (k : A -> M S B) (s : S) :
  bind (ret a) k s = k a s.
Proof. reflexivity. Qed.

Lemma bind_throw {S A B} (m : string) (k : A -> M S B) (s : S) :
  bind (throw m) k s = (Throw m, s).
Proof. reflexivity. Qed.

Lemma bind_bind {S A B C} (m : M S A) (k : A -> M S B) (h : B -> M S C) (s : S) :
  bind (bind m k) h s = bind m (fun a => bind (k a) h) s.
Proof. unfold bind. destruct (m s) as [[a|x] s']; reflexivity. Qed.

Lemma bind_this {A B} (f : TestObject.t -> A) (k : A -> M Test.State B)
  (t : TestObject.t) (e : Env) :
  bind (Test.this f) k (t, e) = k (f t) (t, e).
Proof. reflexivity. Qed.

Lemma bind_update {B} (f : TestObject.t -> TestObject.t)
  (k : unit -> M Test.State B) (t : TestObject.t) (e : Env) :
  bind (Test.update f) k (t, e) = k tt (f t, e).
Proof. reflexivity. Qed.

Lemma bind_env {A B} (m : M Env A) (k : A -> M Test.State B)
  (t : TestObject.t) (e : Env) :
  bind (Test.env m) k (t, e)
  = match m e with
    | (Return a, e') => k a (t, e')
    | (Throw x, e') => (Throw x, (t, e'))
    end.
Proof.
  unfold bind, Test.env. cbn [fst snd].
  destruct (m e) as [[a|x] e']; reflexivity.
Qed.

Lemma env_eq {A} (m : M Env A) (t : TestObject.t) (e : Env) :
  Test.env m (t, e) = (fst (m e), (t, snd (m e))).
Proof. unfold Test.env. cbn [snd fst]. now destruct (m e). Qed.

Lemma with_lastIndex_same (e : Env) : with_lastIndex (lastIndex e) e = e.
Proof. now destruct e. Qed.

Lemma regexp_test_eq (id : nat) (source flags s : string) (e : Env) :
  regexp_test id source flags s e
  = (Return (fst (tested id source flags s (lastIndex e))),
     with_lastIndex (snd (tested id source flags s (lastIndex e))) e).
Proof.
  unfold regexp_test, tested.
  destruct (global_or_sticky flags).
  - unfold bind, gets, lastIndex_of.
    now destruct (regexp_exec source flags (index_of id (lastIndex e)) s).
  - cbn [fst snd]. now rewrite with_lastIndex_same.
Qed.

Lemma bind_regexp_test {B} (id : nat) (source flags s : string)
  (k : bool -> M Test.State B) (t : TestObject.t) (e : Env) :
  bind (Test.env (regexp_test id source flags s)) k (t, e)
  = k (fst (tested id source flags s (lastIndex e)))
      (t, with_lastIndex (snd (tested id source flags s (lastIndex e))) e).
Proof. now rewrite bind_env, regexp_test_eq. Qed.

Lemma nextId_eq (e : Env) :
  nextId e
  = (Return (Str.of_Z (RunnerObject._id (the_runner e) + 1)),
     with_runner
       (SetRunner._id (RunnerObject._id (the_runner e) + 1) (the_runner e)) e).
Proof. reflexivity. Qed.

Lemma _assert_finished (pass : bool) (actual expected : Value)
  (description operator : string) (t : TestObject.t) (e : Env) :
  TestObject.done t = true ->
  Test._assert pass actual expected description operator (t, e)
  = (Throw ("assertion occurred after test was finished: " ++ TestObject.name t),
     (t, e)).
Proof.
  intros Hdone. unfold Test._assert.
  rewrite bind_this, Hdone. unfold when.
  now rewrite bind_bind, bind_this, bind_throw.
Qed.

Lemma _assert_more (pass : bool) (actual expected : Value)
  (description operator : string) (t : TestObject.t) (e : Env) (n : Z) :
  TestObject.done t = false ->
  TestObject._planned t = Some n ->
  (n < or_zero (TestObject._actual t) + 1)%Z ->
  Test._assert pass actual expected description operator (t, e)
  = (Throw ("More tests than planned in TEST *" ++ TestObject.name t ++ "*"),
     (counted t, e)).
Proof.
  intros Hdone Hplan Hlt. unfold counted, Test._assert.
  rewrite bind_this, Hdone. unfold when at 1.
  rewrite bind_ret, bind_this, Hplan.
  rewrite !bind_bind, bind_update, bind_bind, bind_this.
  simpl_test. apply Z.ltb_lt in Hlt. rewrite Hlt. unfold when at 1.
  now rewrite !bind_bind, bind_this, bind_throw.
Qed.

Lemma record_result (pass : bool) (actual expected : Value)
  (description operator : string) (t : TestObject.t) (e : Env) :
  bind (Test.this TestObject.runner)
    (fun has_report =>
       when has_report
         (let prefix := if pass then "ok" else "not ok" in
          bind (Test.env nextId) (fun id =>
          bind (Test.env (report (prefix ++ " " ++ id ++ " " ++ description)))
            (fun _ =>
             if pass then Test.update Test.count_pass
             else
               let atErr := assert_error_stack description in
               let '(err, actual) := Test.shown atErr actual in
               bind (Test.update Test.count_fail) (fun _ =>
               Test.env (Test.diagnostics actual expected operator atErr err))))))
    (t, e)
  = if TestObject.runner t
    then
      if pass
      then (Return tt, (Test.count_pass t, result_line pass description e))
      else
        let atErr := assert_error_stack description in
        let d := Test.diagnostics (snd (Test.shown atErr actual)) expected
                   operator atErr (fst (Test.shown atErr actual))
                   (result_line pass description e) in
        (fst d, (Test.count_fail t, snd d))
    else (Return tt, (t, e)).
Proof.
  rewrite bind_this. destruct (TestObject.runner t); [|reflexivity].
  unfold when. cbv zeta.
  rewrite bind_env, nextId_eq, bind_env, report_eq.
  destruct pass; [reflexivity|].
  destruct (Test.shown _ actual) as [err actual'].
  rewrite bind_update, env_eq. reflexivity.
Qed.

Lemma _assert_accepted (pass : bool) (actual expected : Value)
  (description operator : string) (t : TestObject.t) (e : Env) :
  TestObject.done t = false ->
  (forall n, TestObject._planned t = Some n ->
             (or_zero (TestObject._actual t) + 1 <= n)%Z) ->
  Test._assert pass actual expected description operator (t, e)
  = if TestObject.runner t
    then
      if pass
      then (Return tt, (Test.count_pass (counted t), result_line pass description e))
      else
        let atErr := assert_error_stack description in
        let d := Test.diagnostics (snd (Test.shown atErr actual)) expected
                   operator atErr (fst (Test.shown atErr actual))
                   (result_line pass description e) in
        (fst d, (Test.count_fail (counted t), snd d))
    else (Return tt, (counted t, e)).
Proof.
  intros Hdone Hplan. unfold Test._assert.
  rewrite bind_this, Hdone. unfold when at 1.
  rewrite bind_ret, bind_this.
  assert (Hrunner : forall x, TestObject.runner (SetTest._actual x t)
                              = TestObject.runner t) by reflexivity.
  unfold counted.
  destruct (TestObject._planned t) as [n|] eqn:Hp.
  - rewrite !bind_bind, bind_update, bind_bind, bind_this.
    simpl_test. specialize (Hplan n eq_refl). apply Z.ltb_ge in Hplan.
    rewrite Hplan. unfold when at 1. rewrite bind_ret.
    rewrite record_result, Hrunner. reflexivity.
  - rewrite bind_ret. apply record_result.
Qed.

End Assertions.

(* ================================================================= *)
(** ** The plan *)

Lemma diagnostics_returns {host : Host} (actual expected : Value)
  (operator atErr err : string) (e : Env) :
  fst (Test.diagnostics actual expected operator atErr err e) = Return tt.
Proof.
  destruct (diagnostics_eq actual expected operator atErr err e)
    as (c & rest & ->).
  reflexivity.
Qed.

(** On a test whose plan is [n], an assertion call that would take the
    count of assertions past [n] throws before anything goes to the sink; a
    call that returns leaves the count at one more than it was and at most
    [n]. *)
Lemma _assert_under_plan (host : Host) (t : TestObject.t) (e : Env)
  (n : Z) (pass : bool) (actual expected : Value)
  (description operator : string) :
  TestObject._planned t = Some n ->
  let after := Test._assert pass actual expected description operator (t, e) in
  ((n < or_zero (TestObject._actual t) + 1)%Z ->
     fst after
     = Throw (if TestObject.done t
              then "assertion occurred after test was finished: "
                   ++ TestObject.name t
              else "More tests than planned in TEST *" ++ TestObject.name t ++ "*")
     /\ snd (snd after) = e
     /\ TestObject._result (fst (snd after)) = TestObject._result t)
  /\ (fst after = Return tt ->
      TestObject._actual (fst (snd after))
      = Some (or_zero (TestObject._actual t) + 1)%Z
      /\ (or_zero (TestObject._actual (fst (snd after))) <= n)%Z)
  /\ ((or_zero (TestObject._actual t) + 1 <= n)%Z ->
      TestObject.done t = false ->
      fst after = Return tt).
Proof.
  intros Hplan after; subst after.
  destruct (TestObject.done t) eqn:Hdone.
  - rewrite _assert_finished by assumption. cbn [fst snd].
    repeat split; intros; discriminate.
  - destruct (Z.ltb n (or_zero (TestObject._actual t) + 1)) eqn:Hcmp.
    + apply Z.ltb_lt in Hcmp.
      rewrite (@_assert_more host pass actual expected description operator
                 t e n Hdone Hplan Hcmp).
      cbn [fst snd]. unfold counted. rewrite Hplan.
      repeat split; intros; try discriminate; lia.
    + apply Z.ltb_ge in Hcmp.
      rewrite _assert_accepted; try assumption.
      2:{ intros m Hm. rewrite Hplan in Hm. injection Hm as <-. exact Hcmp. }
      unfold counted. rewrite Hplan.
      split; [intros; lia|].
      destruct (TestObject.runner t), pass; cbn [fst snd];
        try rewrite diagnostics_returns;
        repeat split; auto.
Qed.

(** A plan of two and three assertions: the third call throws, and the
    sink holds two result lines. *)
Example third_assertion_after_plan_of_two :
  let fn := [Script.Plan 2; Script.Ok (VBool true) None;
             Script.Ok (VBool true) None; Script.Ok (VBool true) None] in
  let after :=
    Test.run (host := quiet_host) (Test.new "t" fn (Some TestRunner.new), fresh) in
  fst after = Throw "More tests than planned in TEST *t*"
  /\ lines (snd (snd after))
     = ["# t"; "ok 1 should be truthy"; "ok 2 should be truthy"]
  /\ TestObject._result (fst (snd after)) = mkTally 2 0.
Proof. vm_compute. repeat split. Qed.

(* ================================================================= *)
(** ** The count of assertions *)

(** Without a plan the count stays unset: the assertion below is made and
    reported, and [_actual] is [null] before and after it. *)
Lemma count_unset_without_plan :
  let t := Test.new "t" [] (Some TestRunner.new) in
  let after := Test.ok (host := quiet_host) (VBool true) None (t, fresh) in
  fst after = Return tt
  /\ lines (snd (snd after)) = ["ok 1 should be truthy"]
  /\ TestObject._planned t = None
  /\ TestObject._actual t = None
  /\ TestObject._actual (fst (snd after)) = None
  /\ TestObject._actual (fst (snd after))
     <> Some (or_zero (TestObject._actual t) + 1)%Z.
Proof. vm_compute. repeat split. discriminate. Qed.

(** C7, amended: the count starts unset; a call of [_assert] on a test
    that is not done adds one to it when a plan has been declared by then,
    and leaves it as it was when none has. *)
Theorem count_follows_plan (host : Host) (t : TestObject.t) (e : Env)
  (pass : bool) (actual expected : Value) (description operator : string) :
  TestObject.done t = false ->
  let after := Test._assert pass actual expected description operator (t, e) in
  (forall name fn runner, TestObject._actual (Test.new name fn runner) = None)
  /\ (forall n, TestObject._planned t = Some n ->
        TestObject._actual (fst (snd after))
        = Some (or_zero (TestObject._actual t) + 1)%Z)
  /\ (TestObject._planned t = None ->
        TestObject._actual (fst (snd after)) = TestObject._actual t).
Proof.
  intros Hdone after; subst after.
  split; [reflexivity|].
  assert (Hcount : forall t0, TestObject._actual (Test.count_pass t0)
                              = TestObject._actual t0
                              /\ TestObject._actual (Test.count_fail t0)
                                 = TestObject._actual t0)
    by (intro; split; reflexivity).
  split.
  - intros n Hplan.
    destruct (Z.ltb n (or_zero (TestObject._actual t) + 1)) eqn:Hcmp.
    + apply Z.ltb_lt in Hcmp.
      rewrite (@_assert_more host pass actual expected description operator
                 t e n Hdone Hplan Hcmp).
      cbn [fst snd]. unfold counted. now rewrite Hplan.
    + apply Z.ltb_ge in Hcmp.
      rewrite _assert_accepted; try assumption.
      2:{ intros m Hm. rewrite Hplan in Hm. injection Hm as <-. exact Hcmp. }
      unfold counted. rewrite Hplan.
      destruct (TestObject.runner t), pass; cbn [fst snd]; reflexivity.
  - intros Hplan.
    rewrite _assert_accepted; try assumption.
    2:{ intros m Hm. rewrite Hplan in Hm. discriminate. }
    unfold counted. rewrite Hplan.
    destruct (TestObject.runner t), pass; cbn [fst snd]; reflexivity.
Qed.

Lemma count_follows_plan_witness :
  let t := TestObject.mk "t" (Some 3%Z) (Some 1%Z) [] true (mkTally 1 0) false false in
  TestObject._actual
    (fst (snd (Test._assert (host := quiet_host) false (VNumber (Num 1))
                 (VNumber (Num 2)) "should be equal" "equal" (t, fresh))))
  = Some 2%Z.
Proof.
  intro t.
  exact (proj1 (proj2 (count_follows_plan quiet_host t fresh false
                         (VNumber (Num 1)) (VNumber (Num 2))
                         "should be equal" "equal" eq_refl))
           3%Z eq_refl).
Defined.

(* ================================================================= *)
(** ** A test function that ends under its plan *)

Section Counting.

Context {host : Host}.

Lemma require_msg_eq (msg : option string) (t : TestObject.t) (e : Env) :
  Test.require_msg msg (t, e)
  = (if TestObject.strict t && missing msg
     then Throw "tapzero msg required" else Return tt, (t, e)).
Proof.
  unfold Test.require_msg. rewrite bind_this. unfold when.
  now destruct (TestObject.strict t && missing msg).
Qed.

Lemma _assert_count (pass : bool) (actual expected : Value)
  (description operator : string) (t : TestObject.t) (e : Env) :
  (count_of (Test._assert pass actual expected description operator (t, e))
   <= or_zero (TestObject._actual t) + 1)%Z.
Proof.
  unfold count_of.
  destruct (TestObject.done t) eqn:Hdone.
  - rewrite _assert_finished by assumption. cbn [fst snd]. lia.
  - assert (Hc : (or_zero (TestObject._actual (counted t))
                  <= or_zero (TestObject._actual t) + 1)%Z).
    { unfold counted. destruct (TestObject._planned t); simpl_test; lia. }
    destruct (TestObject._planned t) as [n|] eqn:Hplan.
    + destruct (Z.ltb n (or_zero (TestObject._actual t) + 1)) eqn:Hcmp.
      * apply Z.ltb_lt in Hcmp.
        rewrite (@_assert_more host pass actual expected description operator
                   t e n Hdone Hplan Hcmp).
        exact Hc.
      * apply Z.ltb_ge in Hcmp.
        rewrite _assert_accepted; try assumption.
        2:{ intros m Hm. assert (m = n) by congruence. subst m. exact Hcmp. }
        destruct (TestObject.runner t), pass; cbn [fst snd]; exact Hc.
    + rewrite _assert_accepted; try assumption.
      2:{ intros m Hm. congruence. }
      destruct (TestObject.runner t), pass; cbn [fst snd]; exact Hc.
Qed.

Lemma guarded_assert_count (msg : option string) (pass : bool)
  (actual expected : Value) (description operator : string)
  (t : TestObject.t) (e : Env) :
  (count_of (bind (Test.require_msg msg)
               (fun _ => Test._assert pass actual expected description operator)
               (t, e))
   <= or_zero (TestObject._actual t) + 1)%Z.
Proof.
  unfold bind at 1. rewrite require_msg_eq.
  destruct (TestObject.strict t && missing msg).
  - unfold count_of; cbn [fst snd]. lia.
  - apply _assert_count.
Qed.

Lemma throws_count (fn : unit -> option ErrorObject) (expected : Value)
  (msg : option string) (t : TestObject.t) (e : Env) :
  (count_of (Test.throws fn expected msg (t, e))
   <= or_zero (TestObject._actual t) + 1)%Z.
Proof.
  unfold Test.throws.
  set (args := match expected with
               | VString s => (Some s, VUndefined)
               | _ => (msg, expected)
               end).
  destruct args as [msg' expected'].
  unfold bind at 1. rewrite require_msg_eq.
  destruct (TestObject.strict t && missing msg').
  - unfold count_of; cbn [fst snd]. lia.
  - destruct expected';
      try (rewrite bind_ret; apply _assert_count);
      try (match goal with
           | |- context [if truthy ?v then _ else _] => destruct (truthy v)
           end;
           [rewrite bind_throw; unfold count_of; cbn [fst snd]; lia
           |rewrite bind_ret; apply _assert_count]).
    destruct (fn tt);
      [rewrite bind_regexp_test|rewrite bind_ret]; apply _assert_count.
Qed.

Lemma call_count (c : Script.Call) (t : TestObject.t) (e : Env) :
  (count_of (Test.call c (t, e))
   <= or_zero (TestObject._actual t) + (if is_assertion c then 1 else 0))%Z.
Proof.
  destruct c; cbn [Test.call is_assertion];
    try apply guarded_assert_count; try apply throws_count.
  - unfold Test.comment. rewrite bind_this. unfold when, count_of.
    destruct (TestObject.runner t); [rewrite env_eq|unfold ret];
      cbn [fst snd]; lia.
  - unfold count_of; cbn. lia.
  - unfold count_of; cbn. lia.
Qed.

Lemma apply_count (fn : TestFn) (t : TestObject.t) (e : Env) :
  (count_of (Test.apply fn (t, e))
   <= or_zero (TestObject._actual t) + assertions fn)%Z.
Proof.
  revert t e; induction fn as [|c fn IH]; intros t e.
  - unfold count_of, assertions; cbn. lia.
  - cbn [Test.apply]. unfold bind.
    pose proof (call_count c t e) as Hc. unfold count_of in Hc.
    destruct (Test.call c (t, e)) as [[[]|m] [t1 e1]]; cbn [fst snd] in Hc.
    + specialize (IH t1 e1).
      unfold assertions in *; cbn [filter].
      destruct (is_assertion c); cbn [List.length]; lia.
    + unfold count_of, assertions; cbn [fst snd filter].
      destruct (is_assertion c); cbn [List.length]; lia.
Qed.

End Counting.

(** C8: when the function of a test runs to its end, the plan then in
    force is [n] and the function made fewer than [n] assertions, [run]
    marks the test done and throws the error of a test that ended before its
    plan, instead of returning the tally. *)
Theorem run_ends_before_planned (host : Host) (t : TestObject.t) (e : Env)
  (n : Z) :
  let started :=
    (t, if TestObject.runner t
        then add_lines ["# " ++ TestObject.name t] e else e) in
  let body := Test.apply (TestObject.fn t) started in
  TestObject._actual t = None ->
  fst body = Return tt ->
  TestObject._planned (fst (snd body)) = Some n ->
  (assertions (TestObject.fn t) < n)%Z ->
  Test.run (t, e)
  = (Throw (Test.ended_before_planned n
              (or_zero (TestObject._actual (fst (snd body))))),
     (SetTest.done true (fst (snd body)), snd (snd body)))
  /\ TestObject.done (SetTest.done true (fst (snd body))) = true
  /\ (or_zero (TestObject._actual (fst (snd body))) < n)%Z.
Proof.
  intros started body Hfresh Hret Hplan Hfew.
  pose proof (apply_count (TestObject.fn t) t (snd started)) as Hcount.
  unfold count_of in Hcount. rewrite Hfresh in Hcount. cbn [or_zero] in Hcount.
  assert (Hs : (t, snd started) = started) by reflexivity.
  rewrite Hs in Hcount. fold body in Hcount.
  assert (Hlt : (or_zero (TestObject._actual (fst (snd body))) < n)%Z) by lia.
  split; [|split; [reflexivity|exact Hlt]].
  unfold Test.run.
  rewrite bind_this, bind_this.
  assert (Hstart : forall k : unit -> M Test.State Tally,
    bind (when (TestObject.runner t)
            (Test.env (report ("# " ++ TestObject.name t)))) k (t, e)
    = k tt started).
  { intro k. unfold started, when.
    destruct (TestObject.runner t); [|reflexivity].
    now rewrite bind_env, report_eq. }
  rewrite Hstart.
  assert (Hfn : forall x, TestObject.fn (fst (x : Test.State))
                          = TestObject.fn (fst x)) by reflexivity.
  unfold started at 1. rewrite bind_this. fold started.
  unfold bind at 1. fold body.
  destruct body as [[[]|m] [t1 e1]]; cbn [fst snd] in *; [|discriminate].
  rewrite bind_update, bind_this. simpl_test. rewrite Hplan. cbv iota.
  apply Z.ltb_lt in Hlt.
  unfold bind, Test.this, gets, when, throw. simpl_test.
  now rewrite Hlt.
Qed.

Lemma run_ends_before_planned_witness :
  let fn := [Script.Plan 2; Script.Ok (VBool true) None] in
  Test.run (host := quiet_host) (Test.new "t" fn (Some TestRunner.new), fresh)
  = (Throw (Test.ended_before_planned 2 1),
     (TestObject.mk "t" (Some 2%Z) (Some 1%Z) fn true (mkTally 1 0) true false,
      add_lines ["# t"; "ok 1 should be truthy"]
        (with_runner (SetRunner._id 1 TestRunner.new) fresh))).
Proof.
  intro fn.
  exact (proj1 (run_ends_before_planned quiet_host
                  (Test.new "t" fn (Some TestRunner.new)) fresh (n := 2)
                  eq_refl eq_refl eq_refl ltac:(vm_compute; reflexivity))).
Defined.

(* ================================================================= *)
(** ** What throws expects *)

(** A string in the place of [expected] is the description of the
    assertion, and a falsy value there is no expectation: neither call
    throws, and each records a passing assertion. *)
Lemma throws_accepts_string_and_zero :
  let t := Test.new "t" [] (Some TestRunner.new) in
  let fn := fun _ : unit => Some (mkError 1 "boom" "Error: boom" "Error" "Error") in
  let described :=
    Test.throws (host := quiet_host) fn (VString "must throw") None (t, fresh) in
  let zero :=
    Test.throws (host := quiet_host) fn (VNumber (Num 0)) None (t, fresh) in
  fst described = Return tt
  /\ lines (snd (snd described)) = ["ok 1 must throw"]
  /\ TestObject._result (fst (snd described)) = mkTally 1 0
  /\ fst zero = Return tt
  /\ lines (snd (snd zero)) = ["ok 1 show throw"]
  /\ TestObject._result (fst (snd zero)) = mkTally 1 0.
Proof. vm_compute. repeat split. Qed.

(** C6, amended: when [expected] is truthy, is not a string and is not a
    regular expression, [throws] throws and records nothing: the error of the
    unsupported expectation, unless strict mode first asks for the missing
    description.  Every string in the place of [expected] is taken as the
    description of a call without expectation, and with any falsy value
    there that is not a string the call is the assertion that [fn] throws:
    after the check of strict mode, [_assert] receives whether [fn] threw,
    what it threw, the value given as expected and the description. *)
Theorem throws_unsupported_expected (host : Host)
  (fn : unit -> option ErrorObject) (expected : Value) (msg : option string)
  (t : TestObject.t) (e : Env) :
  let threw := match fn tt with Some _ => true | None => false end in
  let caught :=
    match fn tt with Some err => error_value err | None => VNull end in
  let asserted (msg : option string) (expected : Value) :=
    bind (Test.require_msg msg)
      (fun _ => Test._assert threw caught expected
                  (or_else msg "show throw") "throws") (t, e) in
  (truthy expected = true ->
   typeof expected <> "string" ->
   is_regexp expected = false ->
   Test.throws fn expected msg (t, e)
   = (Throw (if TestObject.strict t && missing msg
             then "tapzero msg required"
             else "t.throws() not implemented for expected: "
                  ++ typeof expected),
      (t, e)))
  /\ (forall s, expected = VString s ->
      Test.throws fn expected msg (t, e) = asserted (Some s) VUndefined)
  /\ (truthy expected = false ->
      typeof expected <> "string" ->
      Test.throws fn expected msg (t, e) = asserted msg expected).
Proof.
  intros threw caught asserted. subst threw caught asserted. cbv beta.
  split; [|split].
  - intros Htruthy Hstring Hregexp. unfold Test.throws.
    destruct expected;
      try discriminate Htruthy;
      try (now elim Hstring); try discriminate Hregexp;
      cbv beta iota zeta;
      (unfold bind at 1; rewrite require_msg_eq;
       destruct (TestObject.strict t && missing msg); [reflexivity|];
       rewrite Htruthy; now rewrite bind_throw).
  - intros s ->. unfold Test.throws. cbv beta iota zeta.
    unfold bind at 1 3. rewrite require_msg_eq.
    destruct (TestObject.strict t && missing (Some s)); [reflexivity|].
    cbn [truthy]. now rewrite bind_ret.
  - intros Hfalsy Hstring. unfold Test.throws.
    destruct expected as [| |b|n|s| | | | |];
      try discriminate Hfalsy; try (now elim Hstring);
      cbv beta iota zeta;
      (unfold bind at 1 3; rewrite require_msg_eq;
       destruct (TestObject.strict t && missing msg); [reflexivity|];
       rewrite Hfalsy; now rewrite bind_ret).
Qed.

Lemma throws_unsupported_expected_witness :
  let t := Test.new "t" [] (Some TestRunner.new) in
  Test.throws (host := quiet_host) (fun _ => None) (VNumber (Num 7)) None
    (t, fresh)
  = (Throw "t.throws() not implemented for expected: number", (t, fresh))
  /\ lines (snd (snd (Test.throws (host := quiet_host) (fun _ => None)
                        (VString "never") None (t, fresh))))
     = lines (snd (snd (Test.throws (host := quiet_host) (fun _ => None)
                          VUndefined (Some "never") (t, fresh))))
  /\ fst (Test.throws (host := quiet_host) (fun _ => None) VNull None
            (t, fresh)) = Return tt.
Proof.
  intro t.
  split; [|split].
  - exact (proj1 (throws_unsupported_expected quiet_host (fun _ => None)
                    (VNumber (Num 7)) None t fresh)
             eq_refl ltac:(discriminate) eq_refl).
  - rewrite (proj1 (proj2 (throws_unsupported_expected quiet_host
                             (fun _ => None) (VString "never") None t fresh))
               "never" eq_refl).
    reflexivity.
  - rewrite (proj2 (proj2 (throws_unsupported_expected quiet_host
                             (fun _ => None) VNull None t fresh))
               eq_refl ltac:(discriminate)).
    vm_compute. reflexivity.
Defined.

(* ================================================================= *)
(** ** Strings *)

Module StrFacts.

Lemma append_assoc (a b c : string) : (a ++ b) ++ c = a ++ (b ++ c).
Proof. induction a as [|x a IH]; cbn; [reflexivity|now rewrite IH]. Qed.

Lemma prefix_cons (c d : ascii) (p s : string) :
  String.prefix (String c p) (String d s)
  = if Ascii.eqb c d then String.prefix p s else false.
Proof.
  cbn [String.prefix]. destruct (ascii_dec c d) as [->|Hne].
  - now rewrite Ascii.eqb_refl.
  - destruct (Ascii.eqb c d) eqn:E; [|reflexivity].
    apply Ascii.eqb_eq in E. contradiction.
Qed.

Lemma prefix_cons_ne (c d : ascii) (p s : string) :
  Ascii.eqb d c = false -> String.prefix (String c p) (String d s) = false.
Proof.
  intros H. rewrite prefix_cons, Ascii.eqb_sym. now rewrite H.
Qed.

Lemma prefix_app_same (a b c : string) :
  String.prefix (a ++ b) (a ++ c) = String.prefix b c.
Proof.
  induction a as [|x a IH]; [reflexivity|].
  cbn [String.append]. now rewrite prefix_cons, Ascii.eqb_refl.
Qed.

Lemma prefix_bar (p s : string) :
  starts_with_bar s = false -> String.prefix (String bar p) s = false.
Proof.
  destruct s as [|c s]; [reflexivity|]. cbn [starts_with_bar]. intros H.
  now apply prefix_cons_ne.
Qed.

Lemma of_Z_head (z : Z) : starts_with_bar (Str.of_Z z) = false.
Proof.
  unfold Str.of_Z. destruct z as [|p|p]; cbn [Z.to_int].
  - reflexivity.
  - cbn [NilZero.string_of_int]. unfold NilZero.string_of_uint.
    destruct (Pos.to_uint p); reflexivity.
  - reflexivity.
Qed.

Lemma primitive_head (p : Value) :
  starts_with_bar (or_undefined (JSON.primitive_json p)) = false.
Proof.
  destruct p as [| |[|]|[|z]|s| | | | |]; try reflexivity.
  cbn [JSON.primitive_json or_undefined].
  pose proof (of_Z_head z) as H.
  destruct (Str.of_Z z) as [|c s]; [reflexivity|]. exact H.
Qed.

Ltac serialized_head :=
  cbn [JSON.SerializeJSONProperty replacer strict_eq];
  first
    [ apply primitive_head
    | reflexivity
    | unfold JSON.wrap;
      match goal with
      | |- context [match ?l with [] => _ | _ :: _ => _ end] => destruct l
      end; reflexivity ].

Lemma stringify_head (v : Value) :
  starts_with_bar (or_undefined (JSON.stringify v replacer "  ")) = false.
Proof.
  unfold JSON.stringify.
  destruct v as [| |b|n|s|i|i xs c|i s f c|i m st n c
                 |i c vo ts ps hs [r|] [p|]];
    try serialized_head;
    destruct r as [| |b|n|s|j|j xs d|j s f d|j m st n d
                   |j d vo' ts' ps' hs' js' [p'|]];
    serialized_head.
Qed.

Lemma replaceAll_head (pat rep s : string) :
  starts_with_bar rep = false ->
  rep <> "" ->
  starts_with_bar s = false ->
  starts_with_bar (Str.replaceAll pat rep s) = false.
Proof.
  intros Hrep Hne Hs. unfold Str.replaceAll.
  destruct s as [|c s]; [reflexivity|].
  cbn [Str.replace_from].
  destruct (String.prefix pat (String c s)).
  - destruct rep as [|r rep]; [congruence|]. exact Hrep.
  - exact Hs.
Qed.

(** A serialized value does not open with the mark of a block. *)
Lemma toJSON_head (v : Value) : starts_with_bar (toJSON v) = false.
Proof.
  unfold toJSON.
  apply replaceAll_head; [reflexivity|discriminate|apply stringify_head].
Qed.

Lemma block_is_block (field value : string) :
  is_block field (block field value) = true.
Proof.
  unfold is_block, block.
  rewrite prefix_app_same.
  change ("|-" ++ Str.newline) with (("|-" ++ Str.newline) ++ "").
  change ("|-" ++ Str.newline ++ "      "
          ++ Str.replaceAll Str.newline (Str.newline ++ "      ") value)
    with (("|-" ++ Str.newline)
          ++ ("      "
              ++ Str.replaceAll Str.newline (Str.newline ++ "      ") value)).
  rewrite prefix_app_same. reflexivity.
Qed.

Lemma inline_is_not_block (field : string) (v : Value) :
  is_block field (inline field (toJSON v)) = false.
Proof.
  unfold is_block, inline. rewrite prefix_app_same.
  apply prefix_bar, toJSON_head.
Qed.

End StrFacts.

(* ================================================================= *)
(** ** The values of a diagnostic block *)

(** Two serialized values of 42 characters each: together they pass 65
    characters, and both are shown on the lines of their fields, not in block
    form. *)
Lemma long_pair_shown_inline :
  let after :=
    Test._assert (host := quiet_host) false (VString forty_b) (VString forty_a)
      "should be equal" "equal" (Test.new "t" [] (Some TestRunner.new), fresh) in
  Nat.ltb 65 (String.length (toJSON (VString forty_a))
              + String.length (toJSON (VString forty_b))) = true
  /\ lines (snd (snd after))
     = [ "not ok 1 should be equal";
         "  ---";
         "    operator: equal";
         inline "    expected: " (toJSON (VString forty_a));
         inline "    actual:   " (toJSON (VString forty_b));
         "    stack:    |-";
         "      Error: should be equal";
         "  ..." ]
  /\ is_block "    expected: " (nth 3 (lines (snd (snd after))) "") = false
  /\ is_block "    actual:   " (nth 4 (lines (snd (snd after))) "") = false.
Proof. vm_compute. repeat split. Qed.

(** C5, amended: a failing assertion that is accepted reports its result
    line, the opening of the block and the operator, and then the expected and
    the actual value: both in block form when the longer of the two
    serialized strings has more than 65 characters, both on the line of their
    field otherwise.  The two forms are told apart by the mark of a block
    after the name of the field, which a serialized value never opens with,
    so that the lines are in block form exactly when the longer string has
    more than 65 characters. *)
Theorem values_block_when_longer_exceeds (host : Host) (t : TestObject.t)
  (e : Env) (actual expected : Value) (description operator : string) :
  TestObject.done t = false ->
  TestObject.runner t = true ->
  (forall n, TestObject._planned t = Some n ->
             (or_zero (TestObject._actual t) + 1 <= n)%Z) ->
  let ex := toJSON expected in
  let ac := toJSON (snd (Test.shown (assert_error_stack description) actual)) in
  let long := Nat.ltb 65 (Nat.max (String.length ex) (String.length ac)) in
  let expected_line :=
    if long then block "    expected: " ex else inline "    expected: " ex in
  let actual_line :=
    if long then block "    actual:   " ac else inline "    actual:   " ac in
  let after := Test._assert false actual expected description operator (t, e) in
  (exists rest,
     lines (snd (snd after))
     = (lines e
        ++ [ result_text false (RunnerObject._id (the_runner e) + 1) description;
             "  ---";
             inline "    operator: " operator;
             expected_line;
             actual_line ]
        ++ rest)%list)
  /\ is_block "    expected: " expected_line = long
  /\ is_block "    actual:   " actual_line = long.
Proof.
  intros Hdone Hrunner Hplan ex ac long expected_line actual_line after.
  subst after. split.
  - rewrite _assert_accepted by assumption. rewrite Hrunner. cbv zeta.
    cbn [fst snd].
    destruct (diagnostics_eq
                (snd (Test.shown (assert_error_stack description) actual))
                expected operator (assert_error_stack description)
                (fst (Test.shown (assert_error_stack description) actual))
                (result_line false description e)) as (c & rest & ->).
    exists rest. cbn [snd]. unfold result_line.
    unfold lines, add_lines, with_CACHED_FILE, with_runner.
    cbn [the_runner RunnerObject.reported SetRunner.reported SetRunner._id
         RunnerObject._id].
    rewrite <- app_assoc. f_equal.
    unfold value_lines. fold ex ac long.
    subst expected_line actual_line. now destruct long.
  - subst expected_line actual_line ex ac. destruct long.
    + split; apply StrFacts.block_is_block.
    + split; apply StrFacts.inline_is_not_block.
Qed.

Lemma values_block_when_longer_exceeds_witness :
  exists rest,
    lines (snd (snd (Test._assert (host := quiet_host) false
                       (VString (forty_b ++ forty_b)) (VString forty_a)
                       "should be equal" "equal"
                       (Test.new "t" [] (Some TestRunner.new), fresh))))
    = ([ "not ok 1 should be equal";
         "  ---";
         "    operator: equal";
         block "    expected: " (toJSON (VString forty_a));
         block "    actual:   " (toJSON (VString (forty_b ++ forty_b))) ]
       ++ rest)%list.
Proof.
  exact (proj1 (values_block_when_longer_exceeds quiet_host
                  (Test.new "t" [] (Some TestRunner.new)) fresh
                  (VString (forty_b ++ forty_b)) (VString forty_a)
                  "should be equal" "equal" eq_refl eq_refl
                  ltac:(intros n H; discriminate H))).
Defined.

(* ================================================================= *)
(** ** The serializer and its sentinel *)

Module SentinelFacts.
Import Sentinel StrFacts.

Lemma pattern_eq : pattern = String dq (sentinel ++ String dq "").
Proof. reflexivity. Qed.

Lemma plain_char_not_dq (c : ascii) : plain_char c = true -> not_dq c = true.
Proof.
  unfold plain_char, not_dq. intros H.
  apply andb_true_iff in H as [H _]. apply andb_true_iff in H as [_ H].
  destruct (Ascii.eqb c dq) eqn:E; [|reflexivity].
  apply Ascii.eqb_eq in E. subst c. discriminate H.
Qed.

Lemma plain_not_dq (s : string) : plain s = true -> all_chars not_dq s = true.
Proof.
  induction s as [|c s IH]; cbn; [reflexivity|].
  intros H. apply andb_true_iff in H as [Hc Hs].
  now rewrite plain_char_not_dq, IH.
Qed.

Lemma escape_char_plain (c : ascii) :
  plain_char c = true -> JSON.escape_char c = String c "".
Proof.
  unfold plain_char, JSON.escape_char. intros H.
  apply andb_true_iff in H as [H H92]. apply andb_true_iff in H as [H32 H34].
  apply Nat.leb_le in H32.
  apply negb_true_iff in H34, H92.
  rewrite H34, H92.
  repeat match goal with
         | |- context [Nat.eqb ?n ?k] =>
             let E := fresh in
             destruct (Nat.eqb n k) eqn:E; [apply Nat.eqb_eq in E; lia|]
         end.
  destruct (Nat.ltb (nat_of_ascii c) 32) eqn:E; [apply Nat.ltb_lt in E; lia|].
  reflexivity.
Qed.

Lemma escape_plain (s : string) : plain s = true -> JSON.escape s = s.
Proof.
  induction s as [|c s IH]; cbn; [reflexivity|].
  intros H. apply andb_true_iff in H as [Hc Hs].
  now rewrite escape_char_plain, IH.
Qed.

(** Text without a quote is copied as it is. *)
Lemma replace_no_dq (rep s1 s2 : string) :
  all_chars not_dq s1 = true ->
  Str.replaceAll pattern rep (s1 ++ s2) = s1 ++ Str.replaceAll pattern rep s2.
Proof.
  unfold Str.replaceAll. induction s1 as [|c s1 IH]; cbn [all_chars]; intros H.
  - reflexivity.
  - apply andb_true_iff in H as [Hc Hs].
    cbn [String.append Str.replace_from].
    rewrite pattern_eq, prefix_cons_ne.
    + rewrite <- pattern_eq. now rewrite IH.
    + unfold not_dq in Hc. now apply negb_true_iff in Hc.
Qed.

Lemma replace_cons_no_dq (rep : string) (c : ascii) (s : string) :
  not_dq c = true ->
  Str.replaceAll pattern rep (String c s)
  = String c (Str.replaceAll pattern rep s).
Proof.
  intros Hc. apply (replace_no_dq rep (String c "") s).
  cbn [all_chars]. now rewrite Hc.
Qed.

(** A quote that does not open the sentinel is copied. *)
Lemma replace_other_quote (rep s : string) :
  String.prefix pattern (String dq s) = false ->
  Str.replaceAll pattern rep (String dq s)
  = String dq (Str.replaceAll pattern rep s).
Proof.
  intros H. unfold Str.replaceAll. cbn [Str.replace_from]. now rewrite H.
Qed.

(** Between quotes, text without a quote that matches the sentinel is the
    sentinel. *)
Lemma prefix_quoted (p k rest : string) :
  all_chars not_dq p = true ->
  all_chars not_dq k = true ->
  String.prefix (p ++ String dq "") (k ++ String dq rest) = true ->
  p = k.
Proof.
  revert k; induction p as [|c p IH]; intros k Hp Hk.
  - destruct k as [|d k]; [reflexivity|].
    cbn [all_chars] in Hk. apply andb_true_iff in Hk as [Hd _].
    cbn [String.append]. rewrite prefix_cons.
    unfold not_dq in Hd. rewrite Ascii.eqb_sym.
    apply negb_true_iff in Hd. rewrite Hd. discriminate.
  - cbn [all_chars] in Hp. apply andb_true_iff in Hp as [Hc Hp].
    destruct k as [|d k]; cbn [String.append]; rewrite prefix_cons.
    + unfold not_dq in Hc. apply negb_true_iff in Hc. rewrite Hc. discriminate.
    + cbn [all_chars] in Hk. apply andb_true_iff in Hk as [_ Hk].
      destruct (Ascii.eqb c d) eqn:E; [|discriminate].
      apply Ascii.eqb_eq in E. subst d.
      intros H. f_equal. now apply IH.
Qed.

End SentinelFacts.

(* ================================================================= *)
(** ** The text of a value *)

Module TextFacts.
Import Sentinel StrFacts SentinelFacts.

Lemma strict_eq_undefined (v : Value) :
  strict_eq v VUndefined = true -> v = VUndefined.
Proof. destruct v; cbn; congruence. Qed.

Lemma answers_replacer : answers replacer (Some pattern).
Proof.
  intros key v. unfold replacer.
  destruct (strict_eq v VUndefined) eqn:E.
  - split; [now apply strict_eq_undefined|reflexivity].
  - left. intros ->. discriminate E.
Qed.

Lemma answers_no_replacer : answers JSON.no_replacer None.
Proof. intros key v. right. reflexivity. Qed.

(** The serializer writes the text of plain data. *)
Lemma serialize_text (r : JSON.Replacer) (u : option string) (v : Value) :
  answers r u ->
  plain_data v = true ->
  forall indent key,
    JSON.SerializeJSONProperty r "  " indent key v = text_of u indent v.
Proof.
  intros Hr.
  induction v as [| |b|n|s|i|i xs c IH|i s f c|i m st n c
                  |i c vo ts ps hs js pm IH]
    using Value_nested_ind;
    intros Hd indent key; cbn [JSON.SerializeJSONProperty];
    try (specialize (Hr key) as Hk;
         match goal with
         | |- context [r key ?w] =>
             specialize (Hk w); destruct (r key w) as [|p]
         end;
         [|destruct Hk as [Hk _]; discriminate Hk]).
  - (* undefined *)
    specialize (Hr key VUndefined).
    destruct (r key VUndefined) as [|p].
    + destruct Hr as [Hr|Hr]; [congruence|now subst u].
    + now destruct Hr.
  - reflexivity.
  - now destruct b.
  - now destruct n.
  - reflexivity.
  - reflexivity.
  - (* arrays *)
    cbn [text_of]. do 2 f_equal.
    cbn [plain_data] in Hd. clear Hk.
    generalize 0%nat as index.
    induction xs as [|x xs IHxs]; intro index; cbn [map]; [reflexivity|].
    cbn [forallb] in Hd. apply andb_true_iff in Hd as [Hx Hxs].
    inversion IH as [|? ? IHx IHrest]; subst.
    rewrite (IHx Hx). unfold element at 1. f_equal. now apply IHxs.
  - reflexivity.
  - reflexivity.
  - (* other objects *)
    cbn [plain_data] in Hd.
    destruct js as [j|]; [discriminate|].
    destruct pm as [q|]; [discriminate|].
    specialize (Hr key (VObject i c vo ts ps hs None None)).
    cbn [JSON.SerializeJSONProperty].
    destruct (r key (VObject i c vo ts ps hs None None)) as [|p];
      [|destruct Hr as [Hr _]; discriminate Hr].
    clear Hr.
    cbn [text_of]. do 2 f_equal.
    induction ps as [|[k x] ps IHps]; cbn [flat_map]; [reflexivity|].
    cbn [forallb] in Hd. apply andb_true_iff in Hd as [Hx Hps].
    apply andb_true_iff in Hx as [_ Hx].
    inversion IH as [|? ? IHx IHrest]; subst. cbn [snd] in IHx.
    rewrite (IHx Hx). unfold member.
    destruct (text_of u (indent ++ "  ") x); cbn [app String.eqb];
      [f_equal|]; now apply IHps.
Qed.

(** *** Characters *)

Lemma escape_char_no_dq (c : ascii) :
  not_dq c = true -> all_chars not_dq (JSON.escape_char c) = true.
Proof.
  destruct c as [[] [] [] [] [] [] [] []]; vm_compute; congruence.
Qed.

Lemma escape_char_cases (c : ascii) :
  (JSON.escape_char c = String c ""
   /\ Ascii.eqb c dq = false /\ Ascii.eqb c (ascii_of_nat 92) = false)
  \/ exists t, JSON.escape_char c = String (ascii_of_nat 92) t.
Proof.
  destruct c as [[] [] [] [] [] [] [] []];
    first [left; repeat split; reflexivity | right; eexists; reflexivity].
Qed.

Lemma all_chars_app (p : ascii -> bool) (a b : string) :
  all_chars p (a ++ b) = all_chars p a && all_chars p b.
Proof.
  induction a as [|c a IH]; cbn; [reflexivity|].
  now rewrite IH, andb_assoc.
Qed.

(** A string whose escaped text holds no backslash is written as it
    is. *)
Lemma escape_same (s t : string) :
  JSON.escape s = t ->
  all_chars (fun c => negb (Ascii.eqb c (ascii_of_nat 92))) t = true ->
  s = t.
Proof.
  revert t; induction s as [|c s IH]; intros t; cbn [JSON.escape].
  - now intros <-.
  - destruct (escape_char_cases c) as [[-> _]|[x ->]]; cbn [String.append].
    + intros <-. cbn [all_chars]. intros H. apply andb_true_iff in H as [_ H].
      f_equal. now apply IH.
    + intros <-. cbn [all_chars]. rewrite Ascii.eqb_refl. discriminate.
Qed.

(** Text without quote or backslash that is read after an opening quote up
    to the next quote is the whole escaped string. *)
Lemma prefix_escaped (p s rest : string) :
  plain p = true ->
  String.prefix (p ++ String dq "") (JSON.escape s ++ String dq rest) = true ->
  JSON.escape s = p.
Proof.
  unfold plain.
  revert s; induction p as [|x p IH]; intros s Hp.
  - destruct s as [|c s]; [reflexivity|].
    cbn [JSON.escape String.append].
    destruct (escape_char_cases c) as [[-> [Hc _]]|[t ->]];
      cbn [String.append]; rewrite prefix_cons.
    + rewrite Ascii.eqb_sym, Hc. discriminate.
    + discriminate.
  - cbn [all_chars] in Hp. apply andb_true_iff in Hp as [Hx Hp].
    pose proof (plain_char_not_dq x Hx) as Hxdq.
    unfold not_dq in Hxdq. apply negb_true_iff in Hxdq.
    assert (Hxb : Ascii.eqb x (ascii_of_nat 92) = false).
    { unfold plain_char in Hx. apply andb_true_iff in Hx as [_ Hx].
      apply negb_true_iff in Hx.
      destruct (Ascii.eqb x (ascii_of_nat 92)) eqn:E; [|reflexivity].
      apply Ascii.eqb_eq in E. subst x. discriminate Hx. }
    destruct s as [|c s]; cbn [JSON.escape String.append].
    + rewrite prefix_cons, Hxdq. discriminate.
    + destruct (escape_char_cases c) as [[-> _]|[t ->]];
        cbn [String.append]; rewrite prefix_cons.
      * destruct (Ascii.eqb x c) eqn:E; [|discriminate].
        apply Ascii.eqb_eq in E. subst c.
        intros H. f_equal. now apply IH.
      * rewrite Hxb. discriminate.
Qed.

Lemma not_the_sentinel (s rest : string) :
  String.eqb s sentinel = false ->
  String.prefix pattern (String dq (JSON.escape s ++ String dq rest)) = false.
Proof.
  intros Hne.
  destruct (String.prefix pattern _) eqn:E; [|reflexivity].
  exfalso. apply String.eqb_neq in Hne. apply Hne.
  rewrite pattern_eq, prefix_cons, Ascii.eqb_refl in E.
  apply (escape_same s); [|reflexivity].
  now apply (prefix_escaped sentinel s rest).
Qed.

Lemma digits_no_dq (d : Decimal.uint) :
  all_chars not_dq (NilEmpty.string_of_uint d) = true.
Proof.
  induction d as [|d IH|d IH|d IH|d IH|d IH|d IH|d IH|d IH|d IH|d IH];
    cbn [NilEmpty.string_of_uint all_chars]; rewrite ?IH; reflexivity.
Qed.

Lemma of_uint_no_dq (d : Decimal.uint) :
  all_chars not_dq (NilZero.string_of_uint d) = true.
Proof.
  unfold NilZero.string_of_uint. destruct d; try apply digits_no_dq.
  reflexivity.
Qed.

Lemma of_Z_no_dq (z : Z) : all_chars not_dq (Str.of_Z z) = true.
Proof.
  unfold Str.of_Z. destruct z as [|p|p]; cbn [Z.to_int].
  - reflexivity.
  - cbn [NilZero.string_of_int]. apply of_uint_no_dq.
  - cbn [NilZero.string_of_int all_chars]. apply of_uint_no_dq.
Qed.

Lemma of_Z_start (z : Z) : ok_start (Str.of_Z z) = true.
Proof.
  unfold Str.of_Z. destruct z as [|p|p]; cbn [Z.to_int].
  - reflexivity.
  - cbn [NilZero.string_of_int].
    destruct (Pos.to_uint p); reflexivity.
  - reflexivity.
Qed.

Lemma blank_no_dq (s : string) : blank s = true -> all_chars not_dq s = true.
Proof.
  unfold blank. induction s as [|c s IH]; cbn [all_chars]; [reflexivity|].
  intros H. apply andb_true_iff in H as [Hc Hs].
  apply Ascii.eqb_eq in Hc. subst c. now rewrite IH.
Qed.

Lemma blank_start (s : string) : blank s = true -> ok_start s = true.
Proof.
  unfold blank. destruct s as [|c s]; cbn [all_chars ok_start]; [reflexivity|].
  intros H. apply andb_true_iff in H as [Hc _].
  apply Ascii.eqb_eq in Hc. now subst c.
Qed.

Lemma blank_deeper (s : string) : blank s = true -> blank (s ++ "  ") = true.
Proof. unfold blank. intros H. now rewrite all_chars_app, H. Qed.

Lemma ok_start_app (a b : string) :
  ok_start a = true -> ok_start b = true -> ok_start (a ++ b) = true.
Proof. destruct a; cbn; auto. Qed.

(** *** Replacing the sentinel *)

Lemma prefix_empty (s : string) : String.prefix "" s = true.
Proof. now destruct s. Qed.

Lemma replace_skip (pat rep a rest : string) :
  Str.replace_from pat rep (String.length a) (a ++ rest)
  = Str.replace_from pat rep 0 rest.
Proof.
  induction a as [|c a IH]; cbn [String.length String.append]; [reflexivity|].
  cbn [Str.replace_from]. exact IH.
Qed.

Lemma prefix_self (p rest : string) : String.prefix p (p ++ rest) = true.
Proof.
  induction p as [|c p IH]; [apply prefix_empty|].
  cbn [String.append]. now rewrite prefix_cons, Ascii.eqb_refl.
Qed.

Lemma replace_match (pat_tail rep rest : string) (c : ascii) :
  Str.replaceAll (String c pat_tail) rep (String c pat_tail ++ rest)
  = rep ++ Str.replaceAll (String c pat_tail) rep rest.
Proof.
  unfold Str.replaceAll. cbn [String.append Str.replace_from].
  change (String c (pat_tail ++ rest)) with (String c pat_tail ++ rest).
  rewrite prefix_self.
  replace (String.length (String c pat_tail) - 1) with (String.length pat_tail)
    by (cbn [String.length]; lia).
  now rewrite replace_skip.
Qed.

Lemma Substituted_app (a a' b b' : string) :
  Substituted a a' -> Substituted b b' -> ok_start b = true ->
  Substituted (a ++ b) (a' ++ b').
Proof.
  intros Ha Hb Hs rest Hrest.
  rewrite !append_assoc, Ha by (now apply ok_start_app).
  now rewrite Hb.
Qed.

Lemma Substituted_same (s : string) :
  all_chars not_dq s = true -> Substituted s s.
Proof. intros H rest _. now apply replace_no_dq. Qed.

Lemma Substituted_hole : Substituted pattern "undefined".
Proof. intros rest _. rewrite pattern_eq. apply replace_match. Qed.

Lemma closing_quote (rest : string) :
  ok_start rest = true -> String.prefix pattern (String dq rest) = false.
Proof.
  intros H. rewrite pattern_eq, prefix_cons, Ascii.eqb_refl.
  destruct rest as [|c rest]; [reflexivity|].
  cbn [ok_start] in H. apply negb_true_iff in H.
  apply prefix_cons_ne. exact H.
Qed.

(** The text of a string after its opening quote. *)
Lemma replace_escaped (s rest : string) :
  ends_as_sentinel s = false ->
  ok_start rest = true ->
  Str.replaceAll pattern "undefined" (JSON.escape s ++ String dq rest)
  = JSON.escape s ++ String dq (Str.replaceAll pattern "undefined" rest).
Proof.
  intros Hs Hrest. induction s as [|c s IH]; cbn [JSON.escape String.append].
  - now rewrite replace_other_quote by (now apply closing_quote).
  - cbn [ends_as_sentinel] in Hs. apply orb_false_iff in Hs as [Hc Hs].
    rewrite !append_assoc.
    destruct (Ascii.eqb c dq) eqn:E.
    + apply Ascii.eqb_eq in E. subst c. cbn [andb] in Hc.
      change (JSON.escape_char dq)
        with (String (ascii_of_nat 92) (String dq "")).
      cbn [String.append].
      rewrite replace_cons_no_dq by reflexivity.
      rewrite replace_other_quote by (now apply not_the_sentinel).
      now rewrite IH.
    + rewrite replace_no_dq.
      * now rewrite IH.
      * apply escape_char_no_dq. unfold not_dq. now rewrite E.
Qed.

Lemma Substituted_quoted (s : string) :
  quotable s = true ->
  Substituted (JSON.QuoteJSONString s) (JSON.QuoteJSONString s).
Proof.
  unfold quotable. intros H. apply andb_true_iff in H as [Hne Hends].
  apply negb_true_iff in Hne, Hends.
  intros rest Hrest.
  unfold JSON.QuoteJSONString, JSON.dquote.
  cbn [String.append]. change (ascii_of_nat 34) with dq.
  rewrite append_assoc. cbn [String.append].
  rewrite replace_other_quote by (now apply not_the_sentinel).
  f_equal. rewrite replace_escaped by assumption.
  now rewrite append_assoc.
Qed.

(** *** Lines *)

Lemma Substituted_concat (sep : string) (xs ys : list string) :
  all_chars not_dq sep = true ->
  ok_start sep = true ->
  sep <> "" ->
  Forall2 (fun a b => Substituted a b /\ ok_start a = true) xs ys ->
  Substituted (String.concat sep xs) (String.concat sep ys)
  /\ ok_start (String.concat sep xs) = true.
Proof.
  intros Hsep Hstart Hne H.
  induction H as [|x y xs ys [Hxy Hx] Hrest IH].
  - split; [apply Substituted_same; reflexivity|reflexivity].
  - destruct IH as [IH IHs].
    inversion Hrest as [|x2 y2 xs2 ys2 _ _]; subst; cbn [String.concat].
    + split; assumption.
    + split.
      * apply Substituted_app; [exact Hxy| |].
        -- apply Substituted_app; [now apply Substituted_same|exact IH|exact IHs].
        -- destruct sep; [congruence|exact Hstart].
      * apply ok_start_app; [exact Hx|].
        destruct sep; [congruence|exact Hstart].
Qed.

Lemma Substituted_wrap (open close : ascii) (stepback indent : string)
  (xs ys : list string) :
  not_dq open = true -> not_dq close = true ->
  blank stepback = true -> blank indent = true ->
  Forall2 (fun a b => Substituted a b /\ ok_start a = true) xs ys ->
  Substituted (JSON.wrap (String open "") (String close "") stepback indent xs)
    (JSON.wrap (String open "") (String close "") stepback indent ys).
Proof.
  intros Ho Hc Hsb Hin H.
  assert (Hin' := blank_no_dq _ Hin).
  assert (Hsb' := blank_no_dq _ Hsb).
  unfold JSON.wrap.
  inversion H as [|x y xs' ys' Hxy Hrest]; subst.
  - apply Substituted_same. cbn [String.append all_chars]. now rewrite Ho, Hc.
  - assert (Hsep : all_chars not_dq ("," ++ Str.newline ++ indent) = true).
    { cbn [String.append Str.newline all_chars]. exact Hin'. }
    destruct (@Substituted_concat ("," ++ Str.newline ++ indent) _ _ Hsep eq_refl
                ltac:(discriminate) H) as [Hbody Hstart].
    set (body := String.concat ("," ++ Str.newline ++ indent) (x :: xs')) in *.
    set (body' := String.concat ("," ++ Str.newline ++ indent) (y :: ys')) in *.
    assert (Htail : Substituted (Str.newline ++ stepback ++ String close "")
                      (Str.newline ++ stepback ++ String close "")).
    { apply Substituted_same.
      cbn [String.append Str.newline all_chars].
      rewrite all_chars_app, Hsb'. cbn [all_chars]. now rewrite Hc. }
    assert (H3 : Substituted (body ++ Str.newline ++ stepback ++ String close "")
                   (body' ++ Str.newline ++ stepback ++ String close "")).
    { apply Substituted_app; [exact Hbody|exact Htail|reflexivity]. }
    assert (S3 : ok_start (body ++ Str.newline ++ stepback ++ String close "")
                 = true).
    { apply ok_start_app; [exact Hstart|reflexivity]. }
    assert (H2 : Substituted
                   (indent ++ body ++ Str.newline ++ stepback ++ String close "")
                   (indent ++ body' ++ Str.newline ++ stepback
                    ++ String close "")).
    { apply Substituted_app; [now apply Substituted_same|exact H3|exact S3]. }
    assert (S2 : ok_start
                   (indent ++ body ++ Str.newline ++ stepback ++ String close "")
                 = true).
    { apply ok_start_app; [now apply blank_start|exact S3]. }
    apply Substituted_app.
    + apply Substituted_same. cbn [all_chars]. now rewrite Ho.
    + apply Substituted_app; [now apply Substituted_same|exact H2|exact S2].
    + reflexivity.
Qed.

Lemma wrap_start (open close : ascii) (stepback indent : string)
  (xs : list string) :
  Ascii.eqb open "_" = false ->
  ok_start (JSON.wrap (String open "") (String close "") stepback indent xs)
  = true.
Proof.
  intros H. unfold JSON.wrap. destruct xs; cbn [String.append ok_start];
    now rewrite H.
Qed.

(** The text that [JSON.stringify] writes with the sentinel becomes, by
    the replacement, the text with the bare token. *)
Lemma text_rendered (v : Value) :
  plain_data v = true ->
  forall indent,
    blank indent = true ->
    Rendered (text_of (Some pattern) indent v)
      (text_of (Some "undefined") indent v).
Proof.
  induction v as [| |b|n|s|i|i xs c IH|i s f c|i m st n c
                  |i c vo ts ps hs js pm IH]
    using Value_nested_ind;
    intros Hd indent Hin; cbn [text_of Rendered].
  - split; [apply Substituted_hole|reflexivity].
  - split; [now apply Substituted_same|reflexivity].
  - destruct b; (split; [now apply Substituted_same|reflexivity]).
  - destruct n as [|z].
    + split; [now apply Substituted_same|reflexivity].
    + split; [apply Substituted_same, of_Z_no_dq|apply of_Z_start].
  - cbn [plain_data] in Hd.
    split; [now apply Substituted_quoted|reflexivity].
  - exact I.
  - (* arrays *)
    split; [|now apply wrap_start].
    apply Substituted_wrap; try reflexivity; try assumption.
    { now apply blank_deeper. }
    cbn [plain_data] in Hd.
    induction xs as [|x xs IHxs]; cbn [map]; constructor.
    + cbn [forallb] in Hd. apply andb_true_iff in Hd as [Hx _].
      inversion IH as [|? ? IHx _]; subst.
      specialize (IHx Hx (indent ++ "  ") (blank_deeper _ Hin)).
      unfold Rendered in IHx.
      destruct (text_of (Some pattern) (indent ++ "  ") x),
               (text_of (Some "undefined") (indent ++ "  ") x);
        try contradiction; cbn [element].
      * exact IHx.
      * split; [now apply Substituted_same|reflexivity].
    + cbn [forallb] in Hd. apply andb_true_iff in Hd as [_ Hxs].
      inversion IH as [|? ? _ IHrest]; subst. now apply IHxs.
  - split; [now apply Substituted_same|reflexivity].
  - split; [now apply Substituted_same|reflexivity].
  - (* other objects *)
    split; [|now apply wrap_start].
    apply Substituted_wrap; try reflexivity; try assumption.
    { now apply blank_deeper. }
    cbn [plain_data] in Hd.
    destruct js as [j|]; [discriminate|].
    destruct pm as [q|]; [discriminate|].
    induction ps as [|[k x] ps IHps]; cbn [flat_map]; [constructor|].
    cbn [forallb] in Hd. apply andb_true_iff in Hd as [Hx Hps].
    apply andb_true_iff in Hx as [Hk Hx].
    inversion IH as [|? ? IHx IHrest]; subst. cbn [snd] in IHx.
    specialize (IHx Hx (indent ++ "  ") (blank_deeper _ Hin)).
    specialize (IHps IHrest Hps).
    unfold Rendered in IHx.
    destruct (text_of (Some pattern) (indent ++ "  ") x),
             (text_of (Some "undefined") (indent ++ "  ") x);
      try contradiction; cbn [member app]; [|exact IHps].
    constructor; [|exact IHps].
    destruct IHx as [IHx Hs]. split.
    + apply Substituted_app; [now apply Substituted_quoted| |reflexivity].
      apply Substituted_app; [now apply Substituted_same|exact IHx|exact Hs].
    + reflexivity.
Qed.

Lemma replace_not_empty (pat rep : string) (c : ascii) (s : string) :
  rep <> "" -> Str.replaceAll pat rep (String c s) <> "".
Proof.
  intros Hrep. unfold Str.replaceAll. cbn [Str.replace_from].
  destruct (String.prefix pat (String c s)); [|discriminate].
  destruct rep; [congruence|discriminate].
Qed.

Lemma append_empty (s : string) : s ++ "" = s.
Proof. induction s as [|c s IH]; cbn; [reflexivity|now rewrite IH]. Qed.

(** [toJSON] writes the text of plain data with the bare token. *)
Lemma toJSON_text (v : Value) :
  plain_data v = true ->
  toJSON v = or_undefined (text_of (Some "undefined") "" v).
Proof.
  intros Hd. unfold toJSON, JSON.stringify.
  rewrite (@serialize_text _ _ v answers_replacer Hd).
  pose proof (text_rendered v Hd "" eq_refl) as H.
  fold pattern.
  unfold Rendered in H.
  destruct (text_of (Some pattern) "" v) as [s|],
           (text_of (Some "undefined") "" v) as [s'|];
    try contradiction; [|reflexivity].
  destruct H as [H _]. specialize (H "" eq_refl).
  change (Str.replaceAll pattern "undefined" "") with "" in H.
  rewrite !append_empty in H.
  unfold or_undefined.
  destruct s as [|c s].
  - cbn in H. subst s'. reflexivity.
  - cbn [String.eqb]. rewrite H.
    destruct s' as [|c' s'']; [|reflexivity].
    exfalso. revert H. apply replace_not_empty. discriminate.
Qed.

End TextFacts.

(** C9: the serializer of the formatter renders the absence marker as the
    bare token [undefined]: as a whole value, where [JSON.stringify] alone
    answers nothing; and wherever it is the value of a field or an element
    inside a structure, at any depth and however many times, where
    [JSON.stringify] alone leaves the field out and writes [null] for the
    element.  For every value whose strings and keys cannot be taken for the
    sentinel and whose objects have no [toJSON] method and wrap no primitive
    value, [toJSON] answers the text of the value written directly with
    [undefined] as the text of the absence marker, and [JSON.stringify]
    alone answers the text written with no text for it. *)
Theorem undefined_is_rendered (v : Value) :
  plain_data v = true ->
  (toJSON v = or_undefined (text_of (Some "undefined") "" v)
   /\ JSON.stringify v JSON.no_replacer "  " = text_of None "" v)
  /\ (toJSON VUndefined = "undefined"
      /\ JSON.stringify VUndefined JSON.no_replacer "  " = None)
  /\ (forall (u : option string) (indent key : string),
        text_of u indent VUndefined = u
        /\ member key (text_of (Some "undefined") indent VUndefined)
           = [JSON.QuoteJSONString key ++ ": undefined"]
        /\ member key (text_of None indent VUndefined) = []
        /\ element (text_of (Some "undefined") indent VUndefined) = "undefined"
        /\ element (text_of None indent VUndefined) = "null").
Proof.
  intros Hd. split; [split|split].
  - now apply TextFacts.toJSON_text.
  - unfold JSON.stringify.
    now apply (@TextFacts.serialize_text _ _ v TextFacts.answers_no_replacer).
  - split; [vm_compute; reflexivity|reflexivity].
  - intros u indent key. repeat split.
Qed.

Lemma undefined_is_rendered_witness :
  let q := JSON.QuoteJSONString in
  let said := "say " ++ JSON.dquote ++ "undefined" ++ JSON.dquote in
  let v :=
    literal 1
      [("a", VUndefined);
       ("b", array 2 [VNumber (Num 1); VUndefined;
                      literal 3 [("c", VUndefined); ("d", VString said)]]);
       ("e", VUndefined)] in
  Str.split_lines (toJSON v)
  = ["{";
     "  " ++ q "a" ++ ": undefined,";
     "  " ++ q "b" ++ ": [";
     "    1,";
     "    undefined,";
     "    {";
     "      " ++ q "c" ++ ": undefined,";
     "      " ++ q "d" ++ ": " ++ q said;
     "    }";
     "  ],";
     "  " ++ q "e" ++ ": undefined";
     "}"]
  /\ option_map Str.split_lines (JSON.stringify v JSON.no_replacer "  ")
     = Some ["{";
             "  " ++ q "b" ++ ": [";
             "    1,";
             "    null,";
             "    {";
             "      " ++ q "d" ++ ": " ++ q said;
             "    }";
             "  ]";
             "}"].
Proof.
  intros q said v.
  destruct (undefined_is_rendered v eq_refl) as ((Htext & Hplain) & _).
  rewrite Htext, Hplain. split; vm_compute; reflexivity.
Defined.


Lemma property_sentinel (indent key : string) :
  JSON.SerializeJSONProperty replacer "  " indent key (VString sentinel)
  = JSON.SerializeJSONProperty replacer "  " indent key VUndefined.
Proof. reflexivity. Qed.

Lemma stringify_field_congr (r : JSON.Replacer) (id : nat) (cls : string)
  (valueOf : option Value) (toString : option string) (key : string)
  (v w : Value) (hidden : list (string * Value)) (json prim : option Value) :
  r "" (VObject id cls valueOf toString [(key, v)] hidden json prim)
  = r "" (VObject id cls valueOf toString [(key, w)] hidden json prim) ->
  JSON.SerializeJSONProperty r "  " "  " key v
  = JSON.SerializeJSONProperty r "  " "  " key w ->
  JSON.stringify (VObject id cls valueOf toString [(key, v)] hidden json prim)
    r "  "
  = JSON.stringify (VObject id cls valueOf toString [(key, w)] hidden json prim)
      r "  ".
Proof.
  intros Hr Hv. unfold JSON.stringify.
  destruct json as [result|]; [reflexivity|].
  cbn [JSON.SerializeJSONProperty]. rewrite Hr.
  destruct prim; [reflexivity|].
  cbn [String.append]. now rewrite Hv.
Qed.

(** C10: the string that spells the sentinel is serialized as the absence
    marker is: as a whole value both give the bare token [undefined], and as
    the value of a field both give the same text, so the output does not
    tell them apart. *)
Theorem sentinel_string_reads_as_undefined :
  VString sentinel <> VUndefined
  /\ toJSON (VString sentinel) = "undefined"
  /\ toJSON (VString sentinel) = toJSON VUndefined
  /\ (forall id cls valueOf toString key hidden json prim,
        toJSON (VObject id cls valueOf toString [(key, VString sentinel)]
                  hidden json prim)
        = toJSON (VObject id cls valueOf toString [(key, VUndefined)]
                    hidden json prim))
  /\ toJSON (literal 1 [("a", VString sentinel)])
     = one_field "a" "undefined".
Proof.
  split; [discriminate|]. split; [vm_compute; reflexivity|].
  split; [vm_compute; reflexivity|].
  split; [|vm_compute; reflexivity].
  intros. unfold toJSON.
  now rewrite (@stringify_field_congr replacer id cls valueOf toString key
                 (VString sentinel) VUndefined hidden json prim eq_refl
                 (property_sentinel "  " key)).
Qed.

(* ================================================================= *)
(** ** Exclusive tests: the registry that is not run *)

Create HintDb indep.

Section Independence.

Context {host : Host}.

Lemma Indep_ret {A} (a : A) : Indep (ret a).
Proof. intros x e. reflexivity. Qed.

Lemma Indep_throw {A} (msg : string) : Indep (@throw Env A msg).
Proof. intros x e. reflexivity. Qed.

Lemma Indep_bind {A B} (m : M Env A) (k : A -> M Env B) :
  Indep m -> (forall a, Indep (k a)) -> Indep (bind m k).
Proof.
  intros Hm Hk x e. unfold bind. rewrite Hm.
  destruct (m e) as [[a|msg] e1]; cbn [fst snd]; [apply Hk|reflexivity].
Qed.

Lemma Indep_when (b : bool) (m : M Env unit) : Indep m -> Indep (when b m).
Proof. destruct b; [trivial|intros _; apply Indep_ret]. Qed.

Lemma Indep_gets {A} (f : Env -> A) :
  (forall x e, f (retest x e) = f e) -> Indep (gets f).
Proof. intros Hf x e. unfold gets. now rewrite Hf. Qed.

Lemma Indep_modify (f : Env -> Env) :
  (forall x e, f (retest x e) = retest x (f e)) -> Indep (modify f).
Proof. intros Hf x e. unfold modify. cbn [fst snd]. now rewrite Hf. Qed.

Lemma Indep_report (line : string) : Indep (report line).
Proof. apply Indep_modify. reflexivity. Qed.

Lemma Indep_emit (ev : HostEvent) : Indep (emit ev).
Proof. apply Indep_modify. reflexivity. Qed.

Lemma Indep_nextId : Indep nextId.
Proof. intros x e. reflexivity. Qed.

Lemma Indep_getTapZeroFileName : Indep getTapZeroFileName.
Proof.
  unfold getTapZeroFileName.
  apply Indep_bind; [apply Indep_gets; reflexivity|intro cached].
  destruct (negb (String.eqb cached "")); [apply Indep_ret|].
  apply Indep_bind; [|intros _; apply Indep_gets; reflexivity].
  destruct (first_match _); [apply Indep_modify; reflexivity|apply Indep_ret].
Qed.

Lemma Indep_findAtLineFromError (s : string) : Indep (findAtLineFromError s).
Proof.
  unfold findAtLineFromError.
  apply Indep_bind; [apply Indep_getTapZeroFileName|intro; apply Indep_ret].
Qed.

Lemma Indep_report_stack (ls : list string) : Indep (Test.report_stack ls).
Proof.
  induction ls as [|l ls IH]; cbn [Test.report_stack]; [apply Indep_ret|].
  apply Indep_bind; [apply Indep_report|intros _; exact IH].
Qed.

Lemma Indep_report_values (ex ac : string) : Indep (Test.report_values ex ac).
Proof.
  unfold Test.report_values.
  destruct (Nat.ltb 65 _);
    (apply Indep_bind; [apply Indep_report|intros _; apply Indep_report]).
Qed.

Lemma Indep_regexp_test (id : nat) (source flags s : string) :
  Indep (regexp_test id source flags s).
Proof. intros x e. now rewrite !regexp_test_eq. Qed.

Hint Resolve Indep_ret Indep_throw Indep_report Indep_emit Indep_nextId
  Indep_findAtLineFromError Indep_report_stack Indep_report_values
  Indep_when Indep_regexp_test : indep.

Lemma Indep_diagnostics (actual expected : Value) (operator atErr err : string) :
  Indep (Test.diagnostics actual expected operator atErr err).
Proof.
  unfold Test.diagnostics.
  repeat (apply Indep_bind; [auto with indep|intro]); auto with indep.
Qed.

Lemma IndepT_ret {A} (a : A) : IndepT (ret a).
Proof. intros x t e. reflexivity. Qed.

Lemma IndepT_throw {A} (msg : string) : IndepT (@throw Test.State A msg).
Proof. intros x t e. reflexivity. Qed.

Lemma IndepT_bind {A B} (m : M Test.State A) (k : A -> M Test.State B) :
  IndepT m -> (forall a, IndepT (k a)) -> IndepT (bind m k).
Proof.
  intros Hm Hk x t e. unfold bind. rewrite Hm.
  destruct (m (t, e)) as [[a|msg] [t1 e1]]; cbn [fst snd];
    [apply Hk|reflexivity].
Qed.

Lemma IndepT_when (b : bool) (m : M Test.State unit) :
  IndepT m -> IndepT (when b m).
Proof. destruct b; [trivial|intros _; apply IndepT_ret]. Qed.

Lemma IndepT_this {A} (f : TestObject.t -> A) : IndepT (Test.this f).
Proof. intros x t e. reflexivity. Qed.

Lemma IndepT_update (f : TestObject.t -> TestObject.t) : IndepT (Test.update f).
Proof. intros x t e. reflexivity. Qed.

Lemma IndepT_env {A} (m : M Env A) : Indep m -> IndepT (Test.env m).
Proof.
  intros Hm x t e. unfold Test.env. cbn [fst snd]. rewrite Hm.
  now destruct (m e).
Qed.

Hint Resolve IndepT_ret IndepT_throw IndepT_this IndepT_update IndepT_env
  IndepT_when Indep_diagnostics : indep.

Ltac indep :=
  repeat first
    [ solve [auto with indep]
    | progress cbv zeta
    | apply IndepT_bind; [|intro]
    | apply IndepT_when
    | match goal with
      | |- IndepT (if ?b then _ else _) => destruct b
      | |- IndepT (match ?v with _ => _ end) => destruct v
      | |- IndepT (let '(_, _) := ?p in _) => destruct p
      end ].

Lemma IndepT__assert (pass : bool) (actual expected : Value)
  (description operator : string) :
  IndepT (Test._assert pass actual expected description operator).
Proof. unfold Test._assert. indep. Qed.

Lemma IndepT_require_msg (msg : option string) : IndepT (Test.require_msg msg).
Proof. unfold Test.require_msg. indep. Qed.

Hint Resolve IndepT__assert IndepT_require_msg : indep.

Lemma IndepT_call (c : Script.Call) : IndepT (Test.call c).
Proof.
  destruct c; cbn [Test.call];
    unfold Test.comment, Test.plan, Test.deepEqual, Test.notDeepEqual,
      Test.equal, Test.notEqual, Test.fail, Test.ok, Test.ifError, Test.throws;
    indep.
Qed.

Lemma IndepT_apply (fn : TestFn) : IndepT (Test.apply fn).
Proof.
  induction fn as [|c fn IH]; cbn [Test.apply]; [apply IndepT_ret|].
  apply IndepT_bind; [apply IndepT_call|intros _; exact IH].
Qed.

Hint Resolve IndepT_apply : indep.

Lemma IndepT_run : IndepT Test.run.
Proof. unfold Test.run. indep. Qed.

End Independence.

Section Exclusive.

Context {host : Host}.

Lemma Indep_run_test (index : nat) (test : TestObject.t) :
  Indep (TestRunner.run_test true index test).
Proof.
  intros x e. unfold TestRunner.run_test.
  rewrite (IndepT_run x test e).
  destruct (Test.run (test, e)) as [result [test' e']]. reflexivity.
Qed.

Lemma Indep_run_tests (index : nat) (ts : list TestObject.t)
  (acc : TestRunner.Totals) :
  Indep (TestRunner.run_tests true index ts acc).
Proof.
  revert index acc; induction ts as [|test ts IH]; intros index acc;
    cbn [TestRunner.run_tests].
  - apply Indep_ret.
  - apply Indep_bind; [apply Indep_run_test|intro result; apply IH].
Qed.

Lemma retest_same (e : Env) :
  retest (RunnerObject.tests (the_runner e)) e = e.
Proof. destruct e as [r c ev ix]; now destruct r. Qed.

(** With an exclusive test in the registry, the run does not depend on
    the other registry. *)
Lemma run_exclusive (x : list TestObject.t) (e : Env) :
  RunnerObject.onlyTests (the_runner e) <> [] ->
  TestRunner.run (retest x e)
  = (fst (TestRunner.run e), retest x (snd (TestRunner.run e))).
Proof.
  intros Honly.
  assert (Hlen : Nat.ltb 0 (List.length (RunnerObject.onlyTests (the_runner e)))
                 = true).
  { destruct (RunnerObject.onlyTests (the_runner e)); [congruence|reflexivity]. }
  unfold TestRunner.run.
  match goal with
  | |- bind (gets the_runner) ?k _ = _ => set (body := k)
  end.
  change (body (the_runner (retest x e)) (retest x e)
          = (fst (body (the_runner e) e), retest x (snd (body (the_runner e) e)))).
  assert (Hsame : body (the_runner (retest x e)) = body (the_runner e)).
  { subst body. cbv beta zeta.
    cbn [the_runner retest with_runner RunnerObject.onlyTests SetRunner.tests].
    now rewrite Hlen. }
  rewrite Hsame.
  assert (Hbody : Indep (body (the_runner e))).
  { subst body. cbv beta zeta. rewrite Hlen.
    apply Indep_bind; [apply Indep_report|intros _].
    apply Indep_bind; [apply Indep_run_tests|intro totals].
    apply Indep_bind; [apply Indep_modify; reflexivity|intros _].
    do 4 (apply Indep_bind; [apply Indep_report|intros _]).
    apply Indep_bind; [|intros _].
    { destruct (negb (Z.eqb (TestRunner.failed totals) 0));
        [apply Indep_report|].
      apply Indep_bind; [apply Indep_report|intros _; apply Indep_report]. }
    apply Indep_bind; [apply Indep_gets; reflexivity|intro callback].
    destruct (truthy callback); [apply Indep_emit|apply Indep_when, Indep_emit]. }
  apply Hbody.
Qed.

End Exclusive.

(** One exclusive test beside two others: only its lines are reported and
    only its assertion is counted; the others stay in their registry, not
    done. *)
Example exclusive_beside_two :
  let e :=
    snd (TestRunner.add "c" [Script.Ok (VBool true) None] true
      (snd (TestRunner.add "b" [Script.Fail None] false
        (snd (TestRunner.add "a"
                [Script.Ok (VBool true) None] false fresh))))) in
  let after := snd (TestRunner.run (host := quiet_host) e) in
  lines after
  = ["TAP version 13"; "# c"; "ok 1 should be truthy"; ""; "1..1";
     "# tests 1"; "# pass  1"; ""; "# ok"]
  /\ map TestObject.name (RunnerObject.tests (the_runner after)) = ["a"; "b"]
  /\ map TestObject.done (RunnerObject.tests (the_runner after)) = [false; false]
  /\ map TestObject._result (RunnerObject.tests (the_runner after))
     = [mkTally 0 0; mkTally 0 0].
Proof. vm_compute. repeat split. Qed.

(* ================================================================= *)
(** ** The comparator: reflexivity and symmetry *)

Module SymmetryFacts.
Import FastDeepEqual Symmetry.

Lemma deepEqual_unfold (a b : Value) :
  deepEqual a b
  = if strict_eq a b then true
    else if is_object a && is_object b then
      if negb (same_constructor a b) then false
      else
        match a with
        | VArray _ xs _ =>
            if negb (Nat.eqb (List.length xs) (List.length (array_items b)))
            then false
            else items_eq deepEqual xs (array_items b)
        | VRegExp _ source flags _ =>
            if constructor_is_RegExp a
            then String.eqb source (regexp_source b)
                 && String.eqb flags (regexp_flags b)
            else structure_eq a b
        | _ => structure_eq a b
        end
    else both_nan a b.
Proof. destruct a; reflexivity. Qed.

Lemma strict_eq_sym (a b : Value) : strict_eq a b = strict_eq b a.
Proof.
  destruct a, b; cbn; try reflexivity;
    try apply Nat.eqb_sym; try apply String.eqb_sym.
  - now destruct b, b0.
  - destruct n, n0; cbn; try reflexivity. apply Z.eqb_sym.
Qed.

Lemma both_nan_sym (a b : Value) : both_nan a b = both_nan b a.
Proof.
  destruct a as [| | |[|]| | | | | |], b as [| | |[|]| | | | | |]; reflexivity.
Qed.

Lemma Ctor_eqb_sym (c d : Ctor) : Ctor_eqb c d = Ctor_eqb d c.
Proof. destruct c, d; cbn; try reflexivity; apply String.eqb_sym. Qed.

Lemma same_constructor_sym (a b : Value) :
  same_constructor a b = same_constructor b a.
Proof.
  unfold same_constructor.
  destruct (constructor_of a), (constructor_of b); try reflexivity.
  apply Ctor_eqb_sym.
Qed.

(** The comparator holds of every value and itself: a value is
    identical to itself, or is [NaN]. *)
Lemma deepEqual_refl (a : Value) : deepEqual a a = true.
Proof.
  rewrite deepEqual_unfold.
  destruct a as [| |b|[|z]|s|i|i xs|i s f|i m st|i c vo ts ps]; cbn;
    try reflexivity;
    try (now rewrite Nat.eqb_refl).
  - now destruct b.
  - now rewrite Z.eqb_refl.
  - now rewrite String.eqb_refl.
Qed.

Lemma nodupb_NoDup (ks : list string) : nodupb ks = true -> NoDup ks.
Proof.
  induction ks as [|k ks IH]; cbn; intros H; constructor.
  - apply andb_true_iff in H as [H _]. apply negb_true_iff in H.
    intros Hin. enough (existsb (String.eqb k) ks = true) by congruence.
    apply existsb_exists. exists k. split; [exact Hin|apply String.eqb_refl].
  - apply IH. now apply andb_true_iff in H as [_ H].
Qed.

Lemma well_formed_array (shape : Shape) (id : nat) (xs : list Value)
  (cls : string) :
  well_formed shape (VArray id xs cls) = true ->
  Forall (fun x => well_formed shape x = true) xs.
Proof.
  cbn [well_formed]. induction xs as [|x xs IH]; intros H; constructor.
  - now apply andb_true_iff in H as [H _].
  - apply IH. now apply andb_true_iff in H as [_ H].
Qed.

Lemma well_formed_object (shape : Shape) (id : nat) (cls : string)
  (valueOf : option Value) (toString : option string)
  (ps hidden : list (string * Value)) (json prim : option Value) :
  well_formed shape (VObject id cls valueOf toString ps hidden json prim)
  = true ->
  is_some valueOf = fst (shape cls)
  /\ is_some toString = snd (shape cls)
  /\ hidden = []
  /\ NoDup (map fst ps)
  /\ Forall (fun kv => well_formed shape (snd kv) = true) ps.
Proof.
  cbn [well_formed]. intros H.
  apply andb_true_iff in H as [H Hall].
  apply andb_true_iff in H as [H Hnodup].
  apply andb_true_iff in H as [H Hhidden].
  apply andb_true_iff in H as [Hv Ht].
  repeat split.
  - now apply Bool.eqb_prop.
  - now apply Bool.eqb_prop.
  - now destruct hidden.
  - now apply nodupb_NoDup.
  - clear -Hall. induction ps as [|[k v] ps IH]; constructor.
    + now apply andb_true_iff in Hall as [H _].
    + apply IH. now apply andb_true_iff in Hall as [_ H].
Qed.

Lemma all_own_forallb (b : Value) (ks : list string) :
  all_own b ks = forallb (hasOwnProperty b) ks.
Proof.
  induction ks as [|k ks IH]; [reflexivity|].
  cbn [all_own forallb]. rewrite IH.
  now destruct (forallb _ ks), (hasOwnProperty b k).
Qed.

Lemma fields_eq_forallb (eq : Value -> Value -> bool) (b : Value)
  (ps : list (string * Value)) :
  fields_eq eq b ps = forallb (fun kv => eq (snd kv) (get b (fst kv))) ps.
Proof.
  induction ps as [|[k v] ps IH]; [reflexivity|].
  cbn [fields_eq forallb fst snd]. fold (fields_eq eq b). rewrite IH.
  now destruct (forallb _ ps), (eq v (get b k)).
Qed.

Lemma lookup_In (k : string) (v : Value) (ps : list (string * Value)) :
  lookup k ps = Some v -> In (k, v) ps.
Proof.
  induction ps as [|[k' v'] ps IH]; cbn; [discriminate|].
  destruct (String.eqb k k') eqn:E.
  - apply String.eqb_eq in E. subst k'. intros H. injection H as ->. now left.
  - intros H. right. now apply IH.
Qed.

Lemma In_lookup (k : string) (v : Value) (ps : list (string * Value)) :
  NoDup (map fst ps) -> In (k, v) ps -> lookup k ps = Some v.
Proof.
  induction ps as [|[k' v'] ps IH]; cbn; [contradiction|].
  intros Hnodup [H|H].
  - injection H as -> ->. now rewrite String.eqb_refl.
  - inversion Hnodup as [|? ? Hnotin Hrest]; subst.
    destruct (String.eqb k k') eqn:E.
    + apply String.eqb_eq in E. subst k'. exfalso. apply Hnotin.
      apply in_map_iff. now exists (k, v).
    + now apply IH.
Qed.

Lemma lookup_key (k : string) (ps : list (string * Value)) :
  In k (map fst ps) -> exists v, lookup k ps = Some v.
Proof.
  induction ps as [|[k' v'] ps IH]; cbn; [contradiction|].
  destruct (String.eqb k k') eqn:E; [now eexists|].
  intros [H|H]; [|now apply IH].
  subst k'. now rewrite String.eqb_refl in E.
Qed.

Lemma hasOwnProperty_In (b : Value) (k : string) :
  hasOwnProperty b k = true <-> In k (map fst (all_props b)).
Proof.
  unfold hasOwnProperty. split.
  - destruct (lookup k (all_props b)) as [v|] eqn:E; [|discriminate].
    intros _. apply lookup_In in E. apply in_map_iff. now exists (k, v).
  - intros H. now destruct (@lookup_key k (all_props b) H) as [v ->].
Qed.

Section Symmetric.

Variable shape : Shape.

Lemma items_eq_sym (xs ys : list Value) :
  List.length xs = List.length ys ->
  Forall (symmetric_at shape) xs ->
  Forall (fun y => well_formed shape y = true) ys ->
  items_eq deepEqual xs ys = items_eq deepEqual ys xs.
Proof.
  revert ys; induction xs as [|x xs IH]; intros [|y ys] Hlen Hxs Hys;
    try discriminate Hlen; [reflexivity|].
  cbn [items_eq tl hd]. fold (items_eq deepEqual).
  inversion Hxs as [|? ? Hx Hxs']; subst.
  inversion Hys as [|? ? Hy Hys']; subst.
  rewrite (IH ys) by (auto; now injection Hlen).
  now rewrite (Hx y Hy).
Qed.

Lemma keys_incl_sym (pa pb : list (string * Value)) :
  NoDup (map fst pa) ->
  NoDup (map fst pb) ->
  List.length pa = List.length pb ->
  incl (map fst pa) (map fst pb) ->
  incl (map fst pb) (map fst pa).
Proof.
  intros Ha Hb Hlen Hincl.
  apply NoDup_length_incl; try assumption.
  rewrite !length_map. lia.
Qed.

(** The comparison of the properties of two objects, in both directions. *)
Lemma props_sym (a b : Value) :
  all_props a = own_props a ->
  all_props b = own_props b ->
  NoDup (map fst (own_props a)) ->
  NoDup (map fst (own_props b)) ->
  (forall k v w, In (k, v) (own_props a) -> In (k, w) (own_props b) ->
                 deepEqual v w = deepEqual w v) ->
  List.length (own_props a) = List.length (own_props b) ->
  forallb (hasOwnProperty b) (map fst (own_props a)) = true ->
  forallb (fun kv => deepEqual (snd kv) (get b (fst kv))) (own_props a) = true ->
  forallb (hasOwnProperty a) (map fst (own_props b)) = true
  /\ forallb (fun kv => deepEqual (snd kv) (get a (fst kv))) (own_props b) = true.
Proof.
  intros Ea Eb Ha Hb Hsym Hlen Hown Hfields.
  assert (Hincl : incl (map fst (own_props a)) (map fst (own_props b))).
  { intros k Hk. rewrite <- Eb. apply hasOwnProperty_In.
    rewrite forallb_forall in Hown. now apply Hown. }
  pose proof (@keys_incl_sym _ _ Ha Hb Hlen Hincl) as Hback.
  split.
  - apply forallb_forall. intros k Hk. apply hasOwnProperty_In.
    rewrite Ea. now apply Hback.
  - apply forallb_forall. intros [k w] Hkw. cbn [fst snd].
    assert (Hk : In k (map fst (own_props a))).
    { apply Hback. apply in_map_iff. now exists (k, w). }
    destruct (@lookup_key k (own_props a) Hk) as [v Hv].
    unfold get. rewrite Ea, Hv.
    pose proof (@lookup_In k v (own_props a) Hv) as Hin.
    rewrite forallb_forall in Hfields.
    specialize (Hfields (k, v) Hin). cbn [fst snd] in Hfields.
    unfold get in Hfields.
    rewrite Eb, (@In_lookup k w (own_props b) Hb Hkw) in Hfields.
    rewrite <- (Hsym k v w Hin Hkw). exact Hfields.
Qed.

Lemma bool_eq_of_imp (x y : bool) :
  (x = true -> y = true) -> (y = true -> x = true) -> x = y.
Proof. destruct x, y; intuition congruence. Qed.

Lemma plain_structure_sym (a b : Value) :
  all_props a = own_props a ->
  all_props b = own_props b ->
  NoDup (map fst (own_props a)) ->
  NoDup (map fst (own_props b)) ->
  (forall k v w, In (k, v) (own_props a) -> In (k, w) (own_props b) ->
                 deepEqual v w = deepEqual w v) ->
  (Nat.eqb (List.length (own_props a)) (List.length (own_props b))
   && all_own b (map fst (own_props a))
   && fields_eq deepEqual b (own_props a))
  = (Nat.eqb (List.length (own_props b)) (List.length (own_props a))
     && all_own a (map fst (own_props b))
     && fields_eq deepEqual a (own_props b)).
Proof.
  intros Ea Eb Ha Hb Hsym.
  rewrite !all_own_forallb, !fields_eq_forallb.
  apply bool_eq_of_imp; intros H;
    apply andb_true_iff in H as [H Hfields];
    apply andb_true_iff in H as [Hlen Hown];
    apply Nat.eqb_eq in Hlen.
  - destruct (@props_sym a b) as [H1 H2]; try assumption.
    rewrite H1, H2, <- Hlen, Nat.eqb_refl. reflexivity.
  - destruct (@props_sym b a) as [H1 H2]; try assumption.
    + intros k w v Hw Hv. symmetry. now apply (Hsym k v w).
    + rewrite H1, H2, <- Hlen, Nat.eqb_refl. reflexivity.
Qed.

(** The comparator gives one answer in both directions on well-formed
    values. *)
Lemma deepEqual_sym (a : Value) :
  well_formed shape a = true -> symmetric_at shape a.
Proof.
  induction a as [| |b|n|s|i|i xs ca IH|i s f ca|i m st n ca
                  |i c vo ts ps hs js pm IH]
    using Value_nested_ind;
    intros Ha y Hy;
    rewrite (deepEqual_unfold _ y), (deepEqual_unfold y _),
      (strict_eq_sym y _), (andb_comm (is_object y)),
      (same_constructor_sym y _), (both_nan_sym y _);
    match goal with
    | |- context [strict_eq ?a y] => destruct (strict_eq a y); [reflexivity|]
    end;
    try reflexivity.
  - (* arrays *)
    destruct y as [| | | | | |j ys cb| | |]; try reflexivity.
    cbn [is_object andb same_constructor constructor_of Ctor_eqb
         array_items].
    destruct (String.eqb ca cb); [|reflexivity]. cbn [negb].
    rewrite (Nat.eqb_sym (List.length ys)).
    destruct (Nat.eqb (List.length xs) (List.length ys)) eqn:Hlen;
      [|reflexivity].
    cbn [negb]. apply Nat.eqb_eq in Hlen.
    apply items_eq_sym; [exact Hlen| |now apply well_formed_array in Hy].
    apply well_formed_array in Ha.
    rewrite Forall_forall in IH, Ha |- *.
    intros x Hx. apply IH; auto.
  - (* regular expressions *)
    destruct y as [| | | | | | |j s' f' cb| |]; try reflexivity.
    cbn [is_object andb same_constructor constructor_of Ctor_eqb
         constructor_is_RegExp regexp_source regexp_flags].
    destruct (String.eqb ca cb) eqn:Hc; [|reflexivity].
    apply String.eqb_eq in Hc. subst cb. cbn [negb].
    destruct (String.eqb ca "RegExp").
    + now rewrite (String.eqb_sym s'), (String.eqb_sym f').
    + unfold structure_eq.
      cbn [overrides_valueOf overrides_toString call_toString].
      apply String.eqb_sym.
  - (* errors *)
    destruct y as [| | | | | | | |j m' st' n' cb|]; try reflexivity.
    cbn [is_object andb same_constructor constructor_of Ctor_eqb].
    destruct (String.eqb ca cb); [|reflexivity]. cbn [negb].
    unfold structure_eq.
    cbn [overrides_valueOf overrides_toString call_toString].
    apply String.eqb_sym.
  - (* other objects *)
    destruct y as [| | | | | | | | |j c' vo' ts' ps' hs' js' pm'];
      try reflexivity.
    cbn [is_object andb same_constructor constructor_of Ctor_eqb].
    destruct (String.eqb c c') eqn:Hc; [|reflexivity].
    apply String.eqb_eq in Hc. subst c'. cbn [negb].
    destruct (well_formed_object _ _ _ _ _ _ _ _ _ Ha)
      as (Hv & Ht & -> & Hnodup & Hall).
    destruct (well_formed_object _ _ _ _ _ _ _ _ _ Hy)
      as (Hv' & Ht' & -> & Hnodup' & Hall').
    unfold structure_eq.
    destruct vo as [r|], vo' as [r'|]; cbn [is_some] in Hv, Hv';
      try congruence;
      cbn [overrides_valueOf call_valueOf]; [apply strict_eq_sym|].
    destruct ts as [t|], ts' as [t'|]; cbn [is_some] in Ht, Ht';
      try congruence;
      cbn [overrides_toString call_toString]; [apply String.eqb_sym|].
    pose proof (@plain_structure_sym
                  (VObject i c None None ps [] js pm)
                  (VObject j c None None ps' [] js' pm')
                  (app_nil_r ps) (app_nil_r ps') Hnodup Hnodup') as Hplain.
    cbn [own_props] in Hplain |- *.
    assert (Hsym : forall k v w, In (k, v) ps -> In (k, w) ps' ->
                                 deepEqual v w = deepEqual w v).
    { intros k v w Hin Hin'.
      rewrite Forall_forall in IH, Hall, Hall'.
      apply (IH (k, v) Hin (Hall (k, v) Hin) w (Hall' (k, w) Hin')). }
    specialize (Hplain Hsym).
    rewrite (Nat.eqb_sym (List.length ps') (List.length ps)) in Hplain |- *.
    destruct (Nat.eqb (List.length ps) (List.length ps'));
      cbn [negb andb] in Hplain |- *; try congruence.
    destruct (all_own (VObject j c None None ps' [] js' pm') (map fst ps)),
             (all_own (VObject i c None None ps [] js pm) (map fst ps'));
      cbn [negb andb] in Hplain |- *; congruence.
Qed.

End Symmetric.

End SymmetryFacts.




(* ================================================================= *)
(** ** The plan along a test function *)

Section Along.

Context {host : Host}.

Lemma Keeps__assert (pass : bool) (actual expected : Value)
  (description operator : string) :
  Keeps (Test._assert pass actual expected description operator).
Proof.
  intros t e. unfold within_plan.
  destruct (TestObject.done t) eqn:Hdone.
  - rewrite _assert_finished by assumption. cbn [fst snd].
    split; [reflexivity|discriminate].
  - assert (Hp : TestObject._planned (counted t) = TestObject._planned t).
    { unfold counted.
      destruct (TestObject._planned t) eqn:E; simpl_test; congruence. }
    destruct (TestObject._planned t) as [n|] eqn:Hplan.
    + destruct (Z.ltb n (or_zero (TestObject._actual t) + 1)) eqn:Hcmp.
      * apply Z.ltb_lt in Hcmp.
        rewrite (@_assert_more host pass actual expected description operator
                   t e n Hdone Hplan Hcmp).
        cbn [fst snd]. split; [exact Hp|discriminate].
      * apply Z.ltb_ge in Hcmp.
        rewrite _assert_accepted; try assumption.
        2:{ intros m Hm. assert (m = n) by congruence. subst m. exact Hcmp. }
        assert (Ha : or_zero (TestObject._actual (counted t))
                     = (or_zero (TestObject._actual t) + 1)%Z).
        { unfold counted. now rewrite Hplan. }
        destruct (TestObject.runner t), pass; cbn [fst snd];
          (split; [exact Hp|intros _ _]);
          unfold Test.count_pass, Test.count_fail; simpl_test;
          rewrite ?Hp, ?Ha; lia.
    + rewrite _assert_accepted; try assumption.
      2:{ intros m Hm. congruence. }
      assert (Ha : TestObject._actual (counted t) = TestObject._actual t).
      { unfold counted. now rewrite Hplan. }
      destruct (TestObject.runner t), pass; cbn [fst snd];
        (split; [exact Hp|intros _ Hw]);
        unfold Test.count_pass, Test.count_fail; simpl_test;
        rewrite ?Hp, ?Ha; exact Hw.
Qed.

Lemma Keeps_guarded (msg : option string) (m : M Test.State unit) :
  Keeps m -> Keeps (bind (Test.require_msg msg) (fun _ => m)).
Proof.
  intros Hm t e. unfold bind at 1 2 3. rewrite require_msg_eq.
  destruct (TestObject.strict t && missing msg); [|apply Hm].
  cbn [fst snd]. split; [reflexivity|discriminate].
Qed.

Lemma Keeps_throws (fn : unit -> option ErrorObject) (expected : Value)
  (msg : option string) :
  Keeps (Test.throws fn expected msg).
Proof.
  unfold Test.throws.
  set (args := match expected with
               | VString s => (Some s, VUndefined)
               | _ => (msg, expected)
               end).
  destruct args as [msg' expected'].
  apply Keeps_guarded.
  assert (Hthrow : forall x k, Keeps (bind (@throw Test.State bool x) k)).
  { intros x k t e. rewrite bind_throw. cbn [fst snd].
    split; [reflexivity|discriminate]. }
  assert (Hret : forall (p : bool) a d,
            Keeps (bind (ret p)
                     (fun pass => Test._assert pass a expected' d "throws"))).
  { intros p a d t e. rewrite bind_ret. apply Keeps__assert. }
  destruct expected'; try apply Hret;
    try match goal with
    | |- context [if truthy ?v then _ else _] =>
        destruct (truthy v); [apply Hthrow|apply Hret]
    end.
  destruct (fn tt); [|apply Hret].
  intros t0 e0. rewrite bind_regexp_test. apply Keeps__assert.
Qed.

Lemma Keeps_call (c : Script.Call) : is_plan c = false -> Keeps (Test.call c).
Proof.
  destruct c; cbn [Test.call is_plan]; intros Hc; try discriminate Hc;
    try (apply Keeps_guarded, Keeps__assert); try apply Keeps_throws.
  - intros t e. unfold Test.comment. rewrite bind_this. unfold when.
    destruct (TestObject.runner t); [rewrite env_eq|unfold ret];
      cbn [fst snd]; auto.
  - intros t e. cbn [fst snd throw]. split; [reflexivity|discriminate].
Qed.

Lemma apply_keeps (fn : TestFn) (t : TestObject.t) (e : Env) :
  plans fn = 0%nat ->
  fst (Test.apply fn (t, e)) = Return tt ->
  within_plan t ->
  within_plan (fst (snd (Test.apply fn (t, e)))).
Proof.
  revert t e; induction fn as [|c fn IH]; intros t e Hplans Hret Hw.
  - exact Hw.
  - unfold plans in Hplans. cbn [filter] in Hplans.
    destruct (is_plan c) eqn:Hc; [discriminate Hplans|].
    cbn [Test.apply] in Hret |- *. unfold bind in Hret |- *.
    destruct (Keeps_call c Hc t e) as [_ Hk].
    destruct (Test.call c (t, e)) as [[[]|m] [t1 e1]]; cbn [fst snd] in *;
      [|discriminate Hret].
    apply IH; auto.
Qed.

(** Along a test function that declares its plan once, with a count that
    is not negative, the count of assertions is at most the plan whenever the
    function has run to the end of one of its calls. *)
Lemma count_within_plan_along (fn : TestFn) (t : TestObject.t) (e : Env) :
  TestObject._planned t = None ->
  TestObject._actual t = None ->
  (plans fn <= 1)%nat ->
  plans_are_counts fn = true ->
  fst (Test.apply fn (t, e)) = Return tt ->
  within_plan (fst (snd (Test.apply fn (t, e)))).
Proof.
  revert t e; induction fn as [|c fn IH]; intros t e Hp Ha Hplans Hcounts Hret.
  - unfold within_plan. cbn. now rewrite Hp.
  - unfold plans in Hplans. cbn [filter] in Hplans.
    cbn [plans_are_counts forallb] in Hcounts.
    apply andb_true_iff in Hcounts as [Hn Hcounts].
    cbn [Test.apply] in Hret |- *. unfold bind in Hret |- *.
    destruct (is_plan c) eqn:Hc.
    + destruct c; try discriminate Hc.
      cbn [Test.call Test.plan] in Hret |- *.
      unfold Test.update, modify in Hret |- *. cbn [fst snd] in Hret |- *.
      apply apply_keeps; [cbn [List.length] in Hplans; unfold plans; lia
                         |exact Hret|].
      unfold within_plan. simpl_test. rewrite Ha. cbn [or_zero].
      now apply Z.leb_le.
    + destruct (Keeps_call c Hc t e) as [Hk1 Hk2].
      destruct (Test.call c (t, e)) as [[[]|m] [t1 e1]]; cbn [fst snd] in *;
        [|discriminate Hret].
      assert (Hw : within_plan t) by (unfold within_plan; now rewrite Hp).
      specialize (Hk2 eq_refl Hw). unfold within_plan in Hk2.
      rewrite Hk1, Hp in Hk2.
      apply IH; auto. congruence.
Qed.

End Along.

(* ================================================================= *)
(** ** What a test records *)

Section Recording.
Context {host : Host}.

Lemma touch_nil (e : Env) : touch [] 0 (CACHED_FILE e) (lastIndex e) e = e.
Proof.
  destruct e as [r c ev ix]; destruct r. unfold touch; cbn.
  now rewrite app_nil_r, Z.add_0_r.
Qed.

Lemma touch_touch (ls1 ls2 : list string) (k1 k2 : Z) (c1 c2 : string)
  (ix1 ix2 : list (nat * Z)) (e : Env) :
  touch ls2 k2 c2 ix2 (touch ls1 k1 c1 ix1 e)
  = touch (ls1 ++ ls2) (k1 + k2) c2 ix2 e.
Proof.
  destruct e as [r c ev ix]; destruct r. unfold touch; cbn.
  now rewrite app_assoc, Z.add_assoc.
Qed.

Lemma ids_touch (ls : list string) (k : Z) (c : string) (ix : list (nat * Z))
  (e : Env) :
  ids (touch ls k c ix e) = (ids e + k)%Z.
Proof. reflexivity. Qed.

Lemma lastIndex_touch (ls : list string) (k : Z) (c : string)
  (ix : list (nat * Z)) (e : Env) :
  lastIndex (touch ls k c ix e) = ix.
Proof. reflexivity. Qed.

Lemma touch_lastIndex (ix : list (nat * Z)) (e : Env) :
  with_lastIndex ix e = touch [] 0 (CACHED_FILE e) ix e.
Proof.
  destruct e as [r c ev ix0]; destruct r. unfold touch; cbn.
  now rewrite app_nil_r, Z.add_0_r.
Qed.

Lemma count_app {A} (xs ys : list A) :
  count (xs ++ ys) = (count xs + count ys)%Z.
Proof. unfold count. rewrite length_app. lia. Qed.

Lemma oks_app (rs1 rs2 : list (bool * string)) :
  oks (rs1 ++ rs2) = (oks rs1 + oks rs2)%Z.
Proof. unfold oks. now rewrite filter_app, count_app. Qed.

Lemma not_oks_app (rs1 rs2 : list (bool * string)) :
  not_oks (rs1 ++ rs2) = (not_oks rs1 + not_oks rs2)%Z.
Proof. unfold not_oks. now rewrite filter_app, count_app. Qed.

Lemma count_outcomes (rs : list (bool * string)) :
  count rs = (oks rs + not_oks rs)%Z.
Proof.
  unfold oks, not_oks, count.
  induction rs as [|[[|] d] rs IH]; cbn [filter fst negb List.length]; lia.
Qed.

Lemma numbered_app (from : Z) (rs1 rs2 : list (bool * string)) :
  numbered from (rs1 ++ rs2)
  = (numbered from rs1 ++ numbered (from + count rs1) rs2)%list.
Proof.
  revert from; induction rs1 as [|[p d] rs1 IH]; intro from.
  - cbn. unfold count. cbn. now rewrite Z.add_0_r.
  - cbn [app numbered]. rewrite IH. unfold count. cbn [List.length].
    do 3 f_equal. lia.
Qed.

Lemma is_result_head (c : ascii) (s : string) :
  Ascii.eqb c "o" = false -> Ascii.eqb c "n" = false ->
  is_result (String c s) = false.
Proof.
  intros Ho Hn. unfold is_result.
  now rewrite !StrFacts.prefix_cons_ne.
Qed.

Lemma prefix_nil (s : string) : String.prefix "" s = true.
Proof. now destruct s. Qed.

Lemma is_result_text (p : bool) (id : Z) (description : string) :
  is_result (result_text p id description) = true.
Proof.
  unfold is_result, result_text.
  destruct p.
  - change ("ok" ++ " " ++ Str.of_Z id ++ " " ++ description)
      with ("ok " ++ (Str.of_Z id ++ " " ++ description)).
    change "ok " with ("ok " ++ "") at 1.
    now rewrite StrFacts.prefix_app_same, prefix_nil.
  - apply orb_true_iff; right.
    change ("not ok" ++ " " ++ Str.of_Z id ++ " " ++ description)
      with ("not ok " ++ (Str.of_Z id ++ " " ++ description)).
    change "not ok " with ("not ok " ++ "") at 1.
    now rewrite StrFacts.prefix_app_same, prefix_nil.
Qed.

Lemma indented_is_not_result (ls : list string) :
  forallb indented ls = true -> filter is_result ls = [].
Proof.
  induction ls as [|l ls IH]; cbn [forallb filter]; [reflexivity|].
  intros H. apply andb_true_iff in H as [Hl Hls].
  rewrite (IH Hls).
  destruct l as [|c s]; [discriminate|].
  unfold indented in Hl. rewrite StrFacts.prefix_cons in Hl.
  destruct (Ascii.eqb " " c) eqn:E; [|discriminate].
  apply Ascii.eqb_eq in E. subst c.
  now rewrite is_result_head.
Qed.

Lemma indented_body (ls : list string) :
  forallb indented ls = true -> forallb body_line ls = true.
Proof.
  induction ls as [|l ls IH]; cbn [forallb]; [reflexivity|].
  intros H. apply andb_true_iff in H as [Hl Hls].
  unfold body_line at 1. now rewrite Hl, (IH Hls), !orb_true_r.
Qed.

Lemma body_line_comment (msg : string) : body_line ("# " ++ msg) = true.
Proof.
  unfold body_line.
  change "# " with ("# " ++ "") at 2.
  now rewrite StrFacts.prefix_app_same, prefix_nil, orb_true_r.
Qed.

Lemma indented_stack (ls : list string) :
  forallb indented (map (fun line => "      " ++ line) ls) = true.
Proof. induction ls as [|l ls IH]; [reflexivity|exact IH]. Qed.

Lemma indented_values (ex ac : string) :
  forallb indented (value_lines ex ac) = true.
Proof. unfold value_lines. now destruct (Nat.ltb 65 _). Qed.

Lemma diagnostics_lines (actual expected : Value)
  (operator atErr err : string) (e : Env) :
  exists c ls,
    Test.diagnostics actual expected operator atErr err e
    = (Return tt, with_CACHED_FILE c (add_lines ls e))
    /\ forallb indented ls = true.
Proof.
  unfold Test.diagnostics, bind.
  rewrite !report_eq, report_values_eq.
  match goal with
  | |- context [findAtLineFromError ?s ?e0] =>
      destruct (findAtLineFromError_eq s e0) as (at_ & c & ->)
  end.
  exists c.
  unfold when.
  destruct (negb (String.eqb at_ "")).
  - rewrite !report_eq, report_stack_eq, report_eq.
    rewrite !add_lines_cached, !add_lines_app.
    eexists. split; [reflexivity|].
    rewrite !forallb_app, indented_values, indented_stack. reflexivity.
  - unfold ret. rewrite !report_eq, report_stack_eq, report_eq.
    rewrite !add_lines_cached, !add_lines_app.
    eexists. split; [reflexivity|].
    rewrite !forallb_app, indented_values, indented_stack. reflexivity.
Qed.

Lemma Records_same {A} (m : M Test.State A) (t : TestObject.t) (e : Env) :
  snd (snd (m (t, e))) = e ->
  same_test t (fst (snd (m (t, e)))) ->
  TestObject._result (fst (snd (m (t, e)))) = TestObject._result t ->
  exists ls rs c ix,
    snd (snd (m (t, e))) = touch ls (count rs) c ix e
    /\ filter is_result ls = numbered (ids e + 1) rs
    /\ forallb body_line ls = true
    /\ same_test t (fst (snd (m (t, e))))
    /\ pass (TestObject._result (fst (snd (m (t, e)))))
       = (pass (TestObject._result t) + oks rs)%Z
    /\ fail (TestObject._result (fst (snd (m (t, e)))))
       = (fail (TestObject._result t) + not_oks rs)%Z
    /\ (TestObject.runner t = false ->
        snd (snd (m (t, e))) = with_lastIndex ix e /\ rs = []).
Proof.
  intros He Hr Hres. exists [], [], (CACHED_FILE e), (lastIndex e).
  rewrite He, Hres. change (count []) with 0%Z.
  rewrite touch_nil, with_lastIndex_same.
  unfold oks, not_oks, count. cbn [filter List.length Z.of_nat].
  rewrite !Z.add_0_r. tauto.
Qed.

Lemma Records_regexp_test (id : nat) (source flags s : string) :
  Records (Test.env (regexp_test id source flags s)).
Proof.
  intros t e. rewrite env_eq, regexp_test_eq. cbn [fst snd].
  exists [], [], (CACHED_FILE e),
    (snd (tested id source flags s (lastIndex e))).
  change (count []) with 0%Z. rewrite <- touch_lastIndex.
  unfold oks, not_oks, count. cbn [filter List.length Z.of_nat].
  rewrite !Z.add_0_r. repeat split; reflexivity.
Qed.

Lemma same_test_refl (t : TestObject.t) : same_test t t.
Proof. repeat split. Qed.

Lemma same_test_trans (t1 t2 t3 : TestObject.t) :
  same_test t1 t2 -> same_test t2 t3 -> same_test t1 t3.
Proof.
  unfold same_test. intros (? & ? & ? & ?) (? & ? & ? & ?).
  repeat split; congruence.
Qed.

Lemma same_test_counted (t : TestObject.t) : same_test t (counted t).
Proof. unfold counted. destruct (TestObject._planned t); repeat split. Qed.

Lemma Records_ret {A} (a : A) : Records (ret a).
Proof. intros t e. apply Records_same; [| apply same_test_refl |]; reflexivity. Qed.

Lemma Records_throw {A} (msg : string) : Records (@throw Test.State A msg).
Proof. intros t e. apply Records_same; [| apply same_test_refl |]; reflexivity. Qed.

Lemma Records_this {A} (f : TestObject.t -> A) : Records (Test.this f).
Proof. intros t e. apply Records_same; [| apply same_test_refl |]; reflexivity. Qed.

Lemma Records_update (f : TestObject.t -> TestObject.t) :
  (forall t, same_test t (f t)) ->
  (forall t, TestObject._result (f t) = TestObject._result t) ->
  Records (Test.update f).
Proof.
  intros Hr Hres t e. apply Records_same; cbn; auto.
Qed.

Lemma Records_bind {A B} (m : M Test.State A) (k : A -> M Test.State B) :
  Records m -> (forall a, Records (k a)) -> Records (bind m k).
Proof.
  intros Hm Hk t e. unfold bind.
  destruct (Hm t e)
    as (ls1 & rs1 & c1 & ix1 & He1 & Hl1 & Hb1 & Hr1 & Hp1 & Hf1 & Hn1).
  destruct (m (t, e)) as [[a|msg] [t1 e1]]; cbn [fst snd] in *.
  - destruct (Hk a t1 e1)
      as (ls2 & rs2 & c2 & ix2 & He2 & Hl2 & Hb2 & Hr2 & Hp2 & Hf2 & Hn2).
    destruct (k a (t1, e1)) as [o2 [t2 e2]]; cbn [fst snd] in *.
    exists (ls1 ++ ls2)%list, (rs1 ++ rs2)%list, c2, ix2.
    subst e2 e1. rewrite touch_touch, count_app.
    split; [reflexivity|]. split.
    { rewrite filter_app, Hl1, Hl2, ids_touch, numbered_app.
      do 2 f_equal. lia. }
    split; [now rewrite forallb_app, Hb1, Hb2|].
    split; [now apply (same_test_trans Hr1)|].
    rewrite oks_app, not_oks_app.
    split; [lia|]. split; [lia|].
    intros Hr.
    rewrite <- (touch_touch ls1 ls2 (count rs1) (count rs2) c1 c2 ix1 ix2 e).
    destruct (Hn1 Hr) as [He ->].
    destruct (Hn2 ltac:(destruct Hr1 as (_ & _ & Hr1 & _); congruence))
      as [He' ->].
    rewrite He', He. now split.
  - exists ls1, rs1, c1, ix1. tauto.
Qed.

Lemma Records_when (b : bool) (m : M Test.State unit) :
  Records m -> Records (when b m).
Proof. destruct b; [trivial|intros _; apply Records_ret]. Qed.

Lemma result_line_touch (p : bool) (description : string) (e : Env) :
  result_line p description e
  = touch [result_text p (ids e + 1) description] 1 (CACHED_FILE e)
      (lastIndex e) e.
Proof. reflexivity. Qed.

Lemma add_lines_touch (ls more : list string) (k : Z) (c : string)
  (ix : list (nat * Z)) (e : Env) :
  add_lines more (touch ls k c ix e) = touch (ls ++ more) k c ix e.
Proof.
  destruct e as [r c0 ev ix0]; destruct r. unfold touch, add_lines; cbn.
  now rewrite app_assoc.
Qed.

Lemma cached_touch (ls : list string) (k : Z) (c c' : string)
  (ix : list (nat * Z)) (e : Env) :
  with_CACHED_FILE c' (touch ls k c ix e) = touch ls k c' ix e.
Proof. reflexivity. Qed.

Lemma Records__assert (p : bool) (actual expected : Value)
  (description operator : string) :
  Records (Test._assert p actual expected description operator).
Proof.
  intros t e.
  pose proof (same_test_counted t) as Hcr.
  assert (Hcres : TestObject._result (counted t) = TestObject._result t)
    by (unfold counted; now destruct (TestObject._planned t)).
  assert (Haccepted :
    TestObject.done t = false ->
    (forall n, TestObject._planned t = Some n ->
               (or_zero (TestObject._actual t) + 1 <= n)%Z) ->
    exists ls rs c ix,
      snd (snd (Test._assert p actual expected description operator (t, e)))
      = touch ls (count rs) c ix e
      /\ filter is_result ls = numbered (ids e + 1) rs
      /\ forallb body_line ls = true
      /\ same_test t
           (fst (snd (Test._assert p actual expected description operator
                        (t, e))))
      /\ pass (TestObject._result
                 (fst (snd (Test._assert p actual expected description
                              operator (t, e)))))
         = (pass (TestObject._result t) + oks rs)%Z
      /\ fail (TestObject._result
                 (fst (snd (Test._assert p actual expected description
                              operator (t, e)))))
         = (fail (TestObject._result t) + not_oks rs)%Z
      /\ (TestObject.runner t = false ->
          snd (snd (Test._assert p actual expected description operator
                      (t, e))) = with_lastIndex ix e /\ rs = [])).
  { intros Hdone Hplan.
    destruct (Bool.bool_dec (TestObject.runner t) true) as [Hrun|Hrun].
    - rewrite _assert_accepted by assumption. rewrite Hrun.
      destruct p.
      + exists [result_text true (ids e + 1) description],
               [(true, description)], (CACHED_FILE e), (lastIndex e).
        cbn [fst snd]. rewrite result_line_touch.
        unfold Test.count_pass. simpl_test. cbn [pass fail].
        rewrite Hcres.
        split; [reflexivity|]. split.
        { cbn [filter numbered]. now rewrite is_result_text. }
        split; [cbn [forallb]; unfold body_line; now rewrite is_result_text|].
        split; [exact Hcr|].
        split; [reflexivity|]. split; [cbn; lia|discriminate].
      + cbv zeta. cbn [fst snd].
        destruct (diagnostics_lines
                    (snd (Test.shown (assert_error_stack description) actual))
                    expected operator (assert_error_stack description)
                    (fst (Test.shown (assert_error_stack description) actual))
                    (result_line false description e)) as (c & more & Hd & Hm).
        rewrite Hd.
        cbn [snd]. rewrite result_line_touch, add_lines_touch, cached_touch.
        exists ([result_text false (ids e + 1) description] ++ more)%list,
               [(false, description)], c, (lastIndex e).
        unfold Test.count_fail. simpl_test. cbn [pass fail].
        rewrite Hcres.
        split; [reflexivity|]. split.
        { rewrite filter_app, (indented_is_not_result _ Hm).
          cbn [filter numbered app]. now rewrite is_result_text. }
        split.
        { rewrite forallb_app, (indented_body _ Hm). cbn [forallb].
          unfold body_line. now rewrite is_result_text. }
        split; [exact Hcr|].
        split; [cbn; lia|]. split; [reflexivity|discriminate].
    - apply not_true_is_false in Hrun.
      apply Records_same; rewrite _assert_accepted by assumption;
        rewrite Hrun; cbn [fst snd]; auto. }
  destruct (TestObject.done t) eqn:Hdone.
  - apply Records_same; rewrite _assert_finished by assumption;
      cbn [fst snd]; auto using same_test_refl.
  - destruct (TestObject._planned t) as [n|] eqn:Hplan.
    + destruct (Z.ltb n (or_zero (TestObject._actual t) + 1)) eqn:Hcmp.
      * apply Z.ltb_lt in Hcmp.
        apply Records_same;
          rewrite (@_assert_more host p actual expected description operator
                     t e n Hdone Hplan Hcmp); cbn [fst snd]; auto.
      * apply Z.ltb_ge in Hcmp. apply Haccepted; [reflexivity|].
        intros m Hm. assert (m = n) by congruence. now subst m.
    + apply Haccepted; [reflexivity|]. intros m Hm. discriminate Hm.
Qed.

Lemma Records_guarded {A} (msg : option string) (m : M Test.State A) :
  Records m -> Records (bind (Test.require_msg msg) (fun _ => m)).
Proof.
  intros Hm. apply Records_bind; [|intros _; exact Hm].
  unfold Test.require_msg.
  apply Records_bind; [apply Records_this|intro strict].
  apply Records_when, Records_throw.
Qed.

Lemma Records_throws (fn : unit -> option ErrorObject) (expected : Value)
  (msg : option string) :
  Records (Test.throws fn expected msg).
Proof.
  unfold Test.throws.
  set (args := match expected with
               | VString s => (Some s, VUndefined)
               | _ => (msg, expected)
               end).
  destruct args as [msg' expected'].
  apply Records_guarded.
  apply Records_bind; [|intro; apply Records__assert].
  destruct expected'; try apply Records_ret;
    try match goal with
    | |- context [if truthy ?v then _ else _] =>
        destruct (truthy v); [apply Records_throw|apply Records_ret]
    end.
  destruct (fn tt); [apply Records_regexp_test|apply Records_ret].
Qed.

End Recording.

(* ================================================================= *)
(** ** The loop of a run *)

Section RunSummary.
Context {host : Host}.

Lemma Records_announce (msg : string) :
  Records (bind (Test.this TestObject.runner)
             (fun has_runner =>
                when has_runner (Test.env (report ("# " ++ msg))))).
Proof.
  intros t e. rewrite bind_this. unfold when.
  destruct (Bool.bool_dec (TestObject.runner t) true) as [Hr|Hr].
  - rewrite Hr, env_eq, report_eq. cbn [fst snd].
    exists ["# " ++ msg], [], (CACHED_FILE e), (lastIndex e).
    split.
    { destruct e as [r c ev ix]; destruct r. unfold touch, add_lines; cbn.
      now rewrite Z.add_0_r. }
    split; [reflexivity|].
    split; [cbn [forallb]; now rewrite body_line_comment|].
    split; [apply same_test_refl|].
    unfold oks, not_oks, count; cbn. rewrite !Z.add_0_r.
    split; [reflexivity|]. split; [reflexivity|]. congruence.
  - apply not_true_is_false in Hr.
    apply Records_same; rewrite Hr; cbn [ret fst snd];
      auto using same_test_refl.
Qed.

Lemma Records_call (c : Script.Call) : Records (Test.call c).
Proof.
  destruct c; cbn [Test.call];
    try (apply Records_guarded, Records__assert);
    try apply Records_throws.
  - apply Records_announce.
  - apply Records_update; intro; [repeat split|reflexivity].
  - apply Records_throw.
Qed.

Lemma Records_apply (fn : TestFn) : Records (Test.apply fn).
Proof.
  induction fn as [|c fn IH]; cbn [Test.apply]; [apply Records_ret|].
  apply Records_bind; [apply Records_call|intros _; exact IH].
Qed.

Lemma run_body (t : TestObject.t) (e : Env) :
  Test.run (t, e)
  = bind
      (bind (Test.this TestObject.runner)
         (fun has_runner =>
            when has_runner
              (Test.env (report ("# " ++ TestObject.name t)))))
      (fun _ => test_body) (t, e).
Proof. reflexivity. Qed.

Lemma Records_body : Records test_body.
Proof.
  unfold test_body.
  apply Records_bind; [apply Records_this|intro fn].
  apply Records_bind; [apply Records_apply|intros _].
  apply Records_bind;
    [apply Records_update; intro; [repeat split|reflexivity]|intros _].
  apply Records_bind; [apply Records_this|intro planned].
  apply Records_bind; [|intros _; apply Records_this].
  destruct planned; [|apply Records_ret].
  apply Records_bind; [apply Records_this|intro actual].
  apply Records_when, Records_throw.
Qed.

Lemma Records_run : Records Test.run.
Proof.
  intros t e. rewrite run_body.
  apply (@Records_bind unit Tally); [apply Records_announce|].
  intros _. apply Records_body.
Qed.

Lemma Yields_bind {A} (m : M Test.State A) (k : A -> M Test.State Tally) :
  (forall a, Yields (k a)) -> Yields (bind m k).
Proof.
  intros Hk s res. unfold bind.
  destruct (m s) as [[a|msg] s']; [apply Hk|discriminate].
Qed.

Lemma Yields_run : Yields Test.run.
Proof.
  unfold Test.run.
  repeat (apply Yields_bind; intro).
  intros s res H. cbn in H |- *. now injection H as <-.
Qed.

Lemma Reports_refl (e : Env) : Reports e e [] [].
Proof.
  unfold Reports, ids, count. cbn. rewrite app_nil_r, Z.add_0_r. tauto.
Qed.

Lemma Reports_touch (ls : list string) (rs : list (bool * string))
  (c : string) (ix : list (nat * Z)) (e : Env) :
  filter is_result ls = numbered (ids e + 1) rs ->
  forallb body_line ls = true ->
  Reports e (touch ls (count rs) c ix e) ls rs.
Proof. unfold Reports. intros H Hb. repeat split; assumption. Qed.

Lemma Reports_store (only : bool) (index : nat) (t : TestObject.t)
  (e e' : Env) (ls : list string) (rs : list (bool * string)) :
  Reports e e' ls rs ->
  Reports e (with_runner (TestRunner.store only index t (the_runner e')) e')
    ls rs.
Proof.
  unfold Reports, TestRunner.store. intros H.
  destruct only; exact H.
Qed.

Lemma Reports_trans (e1 e2 e3 : Env) (ls1 ls2 : list string)
  (rs1 rs2 : list (bool * string)) :
  Reports e1 e2 ls1 rs1 -> Reports e2 e3 ls2 rs2 ->
  Reports e1 e3 (ls1 ++ ls2) (rs1 ++ rs2).
Proof.
  unfold Reports.
  intros (H1 & H2 & H3 & Hb & H4 & H5 & H6 & H7 & H8 & H9)
         (G1 & G2 & G3 & Gb & G4 & G5 & G6 & G7 & G8 & G9).
  rewrite G1, H1, G2, H2, app_assoc, count_app, Z.add_assoc.
  rewrite filter_app, H3, G3, H2, numbered_app, forallb_app, Hb, Gb.
  repeat split; try congruence.
  do 2 f_equal. lia.
Qed.

(** One test of the loop: the lines and identifiers of its assertions,
    and the tally it answers. *)
Lemma run_test_reports (only : bool) (index : nat) (t : TestObject.t)
  (e : Env) :
  exists ls rs,
    Reports e (snd (TestRunner.run_test only index t e)) ls rs
    /\ forall res, fst (TestRunner.run_test only index t e) = Return res ->
         pass res = (pass (TestObject._result t) + oks rs)%Z
         /\ fail res = (fail (TestObject._result t) + not_oks rs)%Z.
Proof.
  unfold TestRunner.run_test.
  destruct (Records_run t e)
    as (ls & rs & c & ix & He & Hl & Hb & Hr & Hp & Hf & Hn).
  pose proof (Yields_run (t, e)) as Hy.
  destruct (Test.run (t, e)) as [o [t' e']]; cbn [fst snd] in *.
  exists ls, rs. split.
  - apply Reports_store. subst e'. now apply Reports_touch.
  - intros res Hres. subst o. specialize (Hy res eq_refl). subst res.
    now split.
Qed.

(** The loop over the tests. *)
Lemma run_tests_reports (only : bool) (ts : list TestObject.t) (index : nat)
  (acc : TestRunner.Totals) (e : Env) :
  exists ls rs,
    Reports e (snd (TestRunner.run_tests only index ts acc e)) ls rs
    /\ forall totals,
         fst (TestRunner.run_tests only index ts acc e) = Return totals ->
         Forall unrun ts ->
         TestRunner.total totals = (TestRunner.total acc + count rs)%Z
         /\ TestRunner.success totals = (TestRunner.success acc + oks rs)%Z
         /\ TestRunner.failed totals = (TestRunner.failed acc + not_oks rs)%Z.
Proof.
  revert index acc e; induction ts as [|t ts IH]; intros index acc e;
    cbn [TestRunner.run_tests].
  - exists [], []. split; [apply Reports_refl|].
    intros totals H _. cbn in H. injection H as <-.
    unfold oks, not_oks, count; cbn. lia.
  - unfold bind.
    destruct (run_test_reports only index t e) as (ls1 & rs1 & He1 & Hres).
    destruct (TestRunner.run_test only index t e) as [[res|msg] e1];
      cbn [fst snd] in *.
    + specialize (Hres res eq_refl) as (Hp & Hf).
      destruct (IH (S index)
                  (TestRunner.mkTotals
                     (TestRunner.total acc + (fail res + pass res))
                     (TestRunner.success acc + pass res)
                     (TestRunner.failed acc + fail res)) e1)
        as (ls2 & rs2 & He2 & Htot).
      exists (ls1 ++ ls2)%list, (rs1 ++ rs2)%list.
      split; [now apply (Reports_trans He1)|].
      intros totals H Hall.
      inversion Hall as [|? ? Hzero Hrest]; subst.
      specialize (Htot totals H Hrest) as (Ht & Hs & Hfl).
      cbn [TestRunner.total TestRunner.success TestRunner.failed] in *.
      unfold unrun in Hzero. rewrite Hzero in Hp, Hf. cbn [pass fail] in Hp, Hf.
      rewrite count_app, oks_app, not_oks_app.
      pose proof (count_outcomes rs1). lia.
    + exists ls1, rs1. split; [exact He1|].
      intros totals H. discriminate H.
Qed.

Lemma run_tests_total (only : bool) (ts : list TestObject.t) (index : nat)
  (acc : TestRunner.Totals) (e : Env) :
  forall totals,
    fst (TestRunner.run_tests only index ts acc e) = Return totals ->
    (TestRunner.total totals - TestRunner.total acc
     = (TestRunner.success totals - TestRunner.success acc)
       + (TestRunner.failed totals - TestRunner.failed acc))%Z.
Proof.
  revert index acc e; induction ts as [|t ts IH]; intros index acc e totals;
    cbn [TestRunner.run_tests].
  - intros H. cbn in H. injection H as <-. lia.
  - unfold bind.
    destruct (TestRunner.run_test only index t e) as [[res|msg] e1];
      [|discriminate].
    intros H. apply IH in H.
    cbn [TestRunner.total TestRunner.success TestRunner.failed] in H. lia.
Qed.

(** [run] in one piece: the version line, the loop, and the closing of
    a loop that met no exception. *)
Lemma run_eq (e : Env) :
  TestRunner.run e
  = let r := the_runner e in
    let loop :=
      TestRunner.run_tests (Nat.ltb 0 (List.length (RunnerObject.onlyTests r)))
        0 (selected r) (TestRunner.mkTotals 0 0 0)
        (add_lines ["TAP version 13"] e) in
    match fst loop with
    | Return totals => (Return tt, finished totals (snd loop))
    | Throw msg => (Throw msg, snd loop)
    end.
Proof.
  unfold TestRunner.run, selected.
  cbv zeta. unfold bind at 1, gets at 1. unfold bind at 1.
  rewrite report_eq. unfold bind at 1.
  destruct (TestRunner.run_tests _ 0 _ _ _) as [[totals|msg] e1];
    cbn [fst snd]; [|reflexivity].
  unfold finished, summary_lines, finish_events.
  unfold bind at 1. unfold on_runner at 1, modify at 1.
  repeat (unfold bind at 1; rewrite report_eq).
  unfold bind at 1.
  destruct (Z.eqb (TestRunner.failed totals) 0); cbn [negb].
  - unfold bind at 1. rewrite !report_eq, !add_lines_app. unfold bind, gets.
    cbn [app].
    change (RunnerObject._onFinishCallback (the_runner (add_lines ?l ?x)))
      with (RunnerObject._onFinishCallback (the_runner x)).
    destruct e1 as [r c ev ix]; cbn [the_runner with_runner].
    destruct r; cbn [RunnerObject._onFinishCallback SetRunner.completed].
    destruct (truthy _); [reflexivity|].
    destruct has_process; [reflexivity|].
    unfold when, ret, with_events. cbn. now rewrite app_nil_r.
  - rewrite !report_eq, !add_lines_app. unfold bind, gets.
    cbn [app].
    destruct e1 as [r c ev ix]; cbn [the_runner with_runner].
    destruct r; cbn [RunnerObject._onFinishCallback SetRunner.completed].
    destruct (truthy _); [reflexivity|].
    destruct has_process; [reflexivity|].
    unfold when, ret, with_events. cbn. now rewrite app_nil_r.
Qed.

End RunSummary.

Section RunOutcome.
Context {host : Host}.

Lemma summary_not_results (totals : TestRunner.Totals) :
  filter is_result (summary_lines totals) = [].
Proof.
  unfold summary_lines.
  rewrite filter_app.
  destruct (Z.eqb (TestRunner.failed totals) 0);
    cbn [filter app String.append]; rewrite ?is_result_head by reflexivity;
    reflexivity.
Qed.

(** The loop of [run], from the version line on. *)
Lemma run_loop (e : Env) :
  let r := the_runner e in
  let loop :=
    TestRunner.run_tests (Nat.ltb 0 (List.length (RunnerObject.onlyTests r)))
      0 (selected r) (TestRunner.mkTotals 0 0 0)
      (add_lines ["TAP version 13"] e) in
  exists ls rs,
    lines (snd loop) = (lines e ++ "TAP version 13" :: ls)%list
    /\ ids (snd loop) = (ids e + count rs)%Z
    /\ filter is_result ls = numbered (ids e + 1) rs
    /\ forallb body_line ls = true
    /\ events (snd loop) = events e
    /\ RunnerObject.completed (the_runner (snd loop))
       = RunnerObject.completed (the_runner e)
    /\ RunnerObject._onFinishCallback (the_runner (snd loop))
       = RunnerObject._onFinishCallback (the_runner e)
    /\ RunnerObject.rethrowExceptions (the_runner (snd loop))
       = RunnerObject.rethrowExceptions (the_runner e)
    /\ forall totals,
         fst loop = Return totals ->
         (TestRunner.total totals
          = TestRunner.success totals + TestRunner.failed totals)%Z
         /\ (Forall unrun (selected r) -> totals = totals_of rs).
Proof.
  intros r loop.
  destruct (run_tests_reports
              (Nat.ltb 0 (List.length (RunnerObject.onlyTests r))) (selected r)
              0 (TestRunner.mkTotals 0 0 0) (add_lines ["TAP version 13"] e))
    as (ls & rs & Hrep & Htot).
  pose proof (run_tests_total
                (Nat.ltb 0 (List.length (RunnerObject.onlyTests r)))
                (selected r) 0 (TestRunner.mkTotals 0 0 0)
                (add_lines ["TAP version 13"] e)) as Hsum.
  fold loop in Hrep, Htot, Hsum.
  exists ls, rs.
  destruct Hrep as (H1 & H2 & H3 & Hb & H4 & H5 & H6 & H7 & H8 & H9).
  split.
  { rewrite H1. change (lines (add_lines ["TAP version 13"] e))
      with (lines e ++ ["TAP version 13"])%list.
    now rewrite <- app_assoc. }
  repeat (split; [assumption|]).
  intros totals Hret. split.
  - specialize (Hsum totals Hret). cbn in Hsum. lia.
  - intros Hall.
    destruct (Htot totals Hret Hall) as (Ht & Hs & Hf).
    destruct totals as [a b c]; unfold totals_of; cbn in *.
    now subst.
Qed.

Lemma finished_lines (totals : TestRunner.Totals) (e : Env) :
  lines (finished totals e) = (lines e ++ summary_lines totals)%list.
Proof. reflexivity. Qed.

Lemma run_returned (e : Env) :
  fst (TestRunner.run e) = Return tt ->
  exists ls rs totals,
    lines (snd (TestRunner.run e))
    = (lines e ++ "TAP version 13" :: ls ++ summary_lines totals)%list
    /\ forallb body_line ls = true
    /\ filter is_result ls = numbered (ids e + 1) rs
    /\ ids (snd (TestRunner.run e)) = (ids e + count rs)%Z
    /\ RunnerObject.completed (the_runner (snd (TestRunner.run e))) = true
    /\ events (snd (TestRunner.run e))
       = (events e
          ++ finish_events
               (RunnerObject._onFinishCallback (the_runner e)) totals)%list
    /\ (TestRunner.total totals
        = TestRunner.success totals + TestRunner.failed totals)%Z
    /\ (Forall unrun (selected (the_runner e)) -> totals = totals_of rs).
Proof.
  rewrite run_eq. cbv zeta.
  destruct (run_loop e)
    as (ls & rs & H1 & H2 & H3 & Hb & H4 & H5 & H6 & H7 & Htot).
  destruct (TestRunner.run_tests _ 0 _ _ _) as [[totals|msg] e1];
    cbn [fst snd] in *; [|discriminate].
  intros _. exists ls, rs, totals.
  rewrite finished_lines, H1.
  split; [now rewrite <- app_assoc|].
  split; [exact Hb|]. split; [exact H3|].
  split; [exact H2|]. split; [reflexivity|].
  split; [unfold finished; cbn; now rewrite H4, H6|].
  exact (Htot totals eq_refl).
Qed.

Lemma run_threw (msg : string) (e : Env) :
  fst (TestRunner.run e) = Throw msg ->
  exists ls rs,
    lines (snd (TestRunner.run e)) = (lines e ++ "TAP version 13" :: ls)%list
    /\ forallb body_line ls = true
    /\ filter is_result ls = numbered (ids e + 1) rs
    /\ events (snd (TestRunner.run e)) = events e
    /\ RunnerObject.completed (the_runner (snd (TestRunner.run e)))
       = RunnerObject.completed (the_runner e)
    /\ RunnerObject.rethrowExceptions (the_runner (snd (TestRunner.run e)))
       = RunnerObject.rethrowExceptions (the_runner e).
Proof.
  rewrite run_eq. cbv zeta.
  destruct (run_loop e)
    as (ls & rs & H1 & H2 & H3 & Hb & H4 & H5 & H6 & H7 & Htot).
  destruct (TestRunner.run_tests _ 0 _ _ _) as [[totals|m] e1];
    cbn [fst snd] in *; [discriminate|].
  intros _. exists ls, rs. tauto.
Qed.

End RunOutcome.

(* ================================================================= *)
(** ** The plan along a test function: what is reported *)

Section Plan.
Context {host : Host}.

Lemma Spends__assert (p : bool) (actual expected : Value)
  (description operator : string) :
  Spends (Test._assert p actual expected description operator).
Proof.
  intros t e n Hplan Hle. cbv zeta.
  destruct (TestObject.done t) eqn:Hdone.
  - rewrite _assert_finished by assumption. reflexivity.
  - assert (Hp : TestObject._planned (counted t) = Some n)
      by (unfold counted; now rewrite Hplan).
    assert (Ha : or_zero (TestObject._actual (counted t))
                 = (or_zero (TestObject._actual t) + 1)%Z)
      by (unfold counted; now rewrite Hplan).
    assert (Hm : made (counted t) = made t)
      by (unfold counted; now rewrite Hplan).
    destruct (Z.ltb n (or_zero (TestObject._actual t) + 1)) eqn:Hcmp.
    + apply Z.ltb_lt in Hcmp.
      rewrite (@_assert_more host p actual expected description operator
                 t e n Hdone Hplan Hcmp).
      exact Hm.
    + apply Z.ltb_ge in Hcmp.
      rewrite _assert_accepted; try assumption.
      2:{ intros m Hm'. assert (m = n) by congruence. subst m. exact Hcmp. }
      destruct (TestObject.runner t), p; cbn [fst snd];
        try rewrite diagnostics_returns;
        unfold made, Test.count_pass, Test.count_fail in *; simpl_test;
        cbn [pass fail]; rewrite ?Hp, ?Ha; repeat split; lia.
Qed.

Lemma Spends_guarded (msg : option string) (m : M Test.State unit) :
  Spends m -> Spends (bind (Test.require_msg msg) (fun _ => m)).
Proof.
  intros Hm t e n Hplan Hle. cbv zeta.
  assert (Heq : bind (Test.require_msg msg) (fun _ => m) (t, e)
                = if TestObject.strict t && missing msg
                  then (Throw "tapzero msg required", (t, e))
                  else m (t, e)).
  { unfold bind. rewrite require_msg_eq.
    now destruct (TestObject.strict t && missing msg). }
  rewrite Heq.
  destruct (TestObject.strict t && missing msg);
    [reflexivity|exact (Hm t e n Hplan Hle)].
Qed.

Lemma Spends_throws (fn : unit -> option ErrorObject) (expected : Value)
  (msg : option string) :
  Spends (Test.throws fn expected msg).
Proof.
  unfold Test.throws.
  set (args := match expected with
               | VString s => (Some s, VUndefined)
               | _ => (msg, expected)
               end).
  destruct args as [msg' expected'].
  apply Spends_guarded.
  assert (Hthrow : forall x k, Spends (bind (@throw Test.State bool x) k)).
  { intros x k t e n _ _. rewrite bind_throw. reflexivity. }
  assert (Hret : forall (p : bool) a d,
            Spends (bind (ret p)
                      (fun pass => Test._assert pass a expected' d "throws"))).
  { intros p a d t e. rewrite bind_ret. apply Spends__assert. }
  destruct expected'; try apply Hret;
    try match goal with
    | |- context [if truthy ?v then _ else _] =>
        destruct (truthy v); [apply Hthrow|apply Hret]
    end.
  destruct (fn tt); [|apply Hret].
  intros t0 e0. rewrite bind_regexp_test. apply Spends__assert.
Qed.

Lemma Spends_call (c : Script.Call) : is_plan c = false -> Spends (Test.call c).
Proof.
  destruct c; cbn [Test.call is_plan]; intros Hc; try discriminate Hc;
    try (apply Spends_guarded, Spends__assert); try apply Spends_throws.
  - intros t e n Hplan Hle. unfold Test.comment. rewrite bind_this.
    unfold when.
    destruct (TestObject.runner t); [rewrite env_eq|unfold ret];
      cbn [fst snd]; repeat split; auto; lia.
  - intros t e n _ _. reflexivity.
Qed.

(** Under a plan and without another call of [plan], the results that a
    test function tallies are at most what the plan leaves, whether the
    function returns or throws. *)
Lemma apply_spends (fn : TestFn) (t : TestObject.t) (e : Env) (n : Z) :
  plans fn = 0%nat ->
  TestObject._planned t = Some n ->
  (or_zero (TestObject._actual t) <= n)%Z ->
  (made (fst (snd (Test.apply fn (t, e)))) - made t
   <= n - or_zero (TestObject._actual t))%Z.
Proof.
  revert t e; induction fn as [|c fn IH]; intros t e Hplans Hplan Hle.
  - cbn. lia.
  - unfold plans in Hplans. cbn [filter] in Hplans.
    destruct (is_plan c) eqn:Hc; [discriminate Hplans|].
    cbn [Test.apply]. unfold bind.
    pose proof (Spends_call c Hc t e Hplan Hle) as Hs. cbv zeta in Hs.
    destruct (Test.call c (t, e)) as [[[]|m] [t1 e1]]; cbn [fst snd] in *.
    + destruct Hs as (Hp1 & Hle1 & Hm1).
      specialize (IH t1 e1 Hplans Hp1 Hle1). lia.
    + lia.
Qed.

Lemma length_numbered (from : Z) (rs : list (bool * string)) :
  count (numbered from rs) = count rs.
Proof.
  unfold count. f_equal.
  revert from; induction rs as [|[p d] rs IH]; intro from;
    cbn [numbered List.length]; [reflexivity|now rewrite IH].
Qed.

End Plan.

(** A plan of five, three assertions and then a plan of one: the run of
    the test returns with a count of three over a plan of one.  And a plan
    of two with three assertions: the third call throws, and the count
    stored is three. *)
Lemma count_passes_plan :
  let ok := Script.Ok (VBool true) None in
  let lowered :=
    Test.run (host := quiet_host)
      (Test.new "t" [Script.Plan 5; ok; ok; ok; Script.Plan 1]
         (Some TestRunner.new), fresh) in
  let third :=
    Test.run (host := quiet_host)
      (Test.new "t" [Script.Plan 2; ok; ok; ok] (Some TestRunner.new), fresh) in
  (fst lowered = Return (mkTally 3 0)
   /\ TestObject._planned (fst (snd lowered)) = Some 1%Z
   /\ TestObject._actual (fst (snd lowered)) = Some 3%Z)
  /\ (fst third = Throw "More tests than planned in TEST *t*"
      /\ TestObject._planned (fst (snd third)) = Some 2%Z
      /\ TestObject._actual (fst (snd third)) = Some 3%Z).
Proof. vm_compute. repeat split. Qed.

(** C2, amended: on a test whose plan is [n], an assertion call made when
    the count of assertions is already [n] or more throws, and it throws
    before anything goes to the sink: no line is reported, no identifier is
    taken and the tally is as it was; the count stored is then one more than
    it was.  A call that returns leaves the count at one more than it was and
    at most [n].  Along a test function that does not call [plan] again, at
    most as many results as the plan leaves are reported, whether the
    function returns or throws; and along a function that declares its plan
    once, with a count that is not negative, the count of assertions is at
    most the plan whenever the function has run to the end of one of its
    calls. *)
Theorem assertion_within_plan (host : Host) :
  (forall (t : TestObject.t) (e : Env) (n : Z) (pass : bool)
          (actual expected : Value) (description operator : string),
     TestObject._planned t = Some n ->
     let after :=
       Test._assert pass actual expected description operator (t, e) in
     ((n < or_zero (TestObject._actual t) + 1)%Z ->
        fst after
        = Throw (if TestObject.done t
                 then "assertion occurred after test was finished: "
                      ++ TestObject.name t
                 else "More tests than planned in TEST *"
                      ++ TestObject.name t ++ "*")
        /\ snd (snd after) = e
        /\ TestObject._result (fst (snd after)) = TestObject._result t
        /\ (TestObject.done t = false ->
            TestObject._actual (fst (snd after))
            = Some (or_zero (TestObject._actual t) + 1)%Z))
     /\ (fst after = Return tt ->
         TestObject._actual (fst (snd after))
         = Some (or_zero (TestObject._actual t) + 1)%Z
         /\ (or_zero (TestObject._actual (fst (snd after))) <= n)%Z)
     /\ ((or_zero (TestObject._actual t) + 1 <= n)%Z ->
         TestObject.done t = false ->
         fst after = Return tt))
  /\ (forall (t : TestObject.t) (e : Env) (n : Z) (fn : TestFn),
        TestObject._planned t = Some n ->
        (or_zero (TestObject._actual t) <= n)%Z ->
        plans fn = 0%nat ->
        let after := Test.apply fn (t, e) in
        exists ls,
          lines (snd (snd after)) = (lines e ++ ls)%list
          /\ (count (filter is_result ls)
              <= n - or_zero (TestObject._actual t))%Z
          /\ TestObject._planned (fst (snd after)) = Some n)
  /\ (forall (t : TestObject.t) (e : Env) (fn : TestFn),
        TestObject._planned t = None ->
        TestObject._actual t = None ->
        (plans fn <= 1)%nat ->
        plans_are_counts fn = true ->
        fst (Test.apply fn (t, e)) = Return tt ->
        within_plan (fst (snd (Test.apply fn (t, e))))).
Proof.
  split; [|split].
  - intros t e n pass actual expected description operator Hplan after.
    destruct (@_assert_under_plan host t e n pass actual expected description
                operator Hplan) as (Hover & Hret & Hroom).
    fold after in Hover, Hret, Hroom.
    split; [|split; [exact Hret|exact Hroom]].
    intros Hlt. destruct (Hover Hlt) as (H1 & H2 & H3).
    split; [exact H1|]. split; [exact H2|]. split; [exact H3|].
    intros Hdone. subst after.
    rewrite (@_assert_more host pass actual expected description operator
               t e n Hdone Hplan Hlt).
    cbn [fst snd]. unfold counted. now rewrite Hplan.
  - intros t e n fn Hplan Hle Hplans after.
    pose proof (@apply_spends host fn t e n Hplans Hplan Hle) as Hspent.
    assert (Hkeep : TestObject._planned (fst (snd after)) = Some n).
    { subst after. clear Hspent Hle. revert t e Hplan.
      induction fn as [|c fn IH]; intros t e Hplan; [exact Hplan|].
      unfold plans in Hplans. cbn [filter] in Hplans.
      destruct (is_plan c) eqn:Hc; [discriminate Hplans|].
      cbn [Test.apply]. unfold bind.
      destruct (@Keeps_call host c Hc t e) as [Hk _].
      destruct (Test.call c (t, e)) as [[[]|m] [t1 e1]]; cbn [fst snd] in *.
      - apply IH; [exact Hplans|congruence].
      - congruence. }
    destruct (@Records_apply host fn t e)
      as (ls & rs & c & ix & He & Hl & _ & _ & Hp & Hf & _).
    fold after in He, Hp, Hf, Hspent.
    exists ls. split; [now rewrite He|]. split; [|exact Hkeep].
    rewrite Hl, length_numbered, count_outcomes.
    unfold made in Hspent. lia.
  - intros t e fn. apply count_within_plan_along.
Qed.

Lemma assertion_within_plan_witness :
  let t := TestObject.mk "t" (Some 2%Z) (Some 2%Z) [] true (mkTally 2 0) false false in
  let ok := Script.Ok (VBool true) None in
  (fst (Test._assert (host := quiet_host) true (VBool true)
          (VString "truthy value") "should be truthy" "ok" (t, fresh))
   = Throw "More tests than planned in TEST *t*"
   /\ lines (snd (snd (Test._assert (host := quiet_host) true (VBool true)
                         (VString "truthy value") "should be truthy" "ok"
                         (t, fresh)))) = [])
  /\ (exists ls,
        lines (snd (snd (Test.apply (host := quiet_host) [ok; ok; ok]
                           (SetTest._planned (Some 2%Z)
                              (Test.new "t" [] (Some TestRunner.new)),
                            fresh))))
        = ([] ++ ls)%list
        /\ (count (filter is_result ls) <= 2 - 0)%Z)
  /\ within_plan
       (fst (snd (Test.apply (host := quiet_host) [Script.Plan 2; ok; ok]
                    (Test.new "t" [] (Some TestRunner.new), fresh)))).
Proof.
  intros t ok.
  destruct (assertion_within_plan quiet_host) as (Hcall & Halong & Honce).
  split; [|split].
  - destruct (Hcall t fresh 2%Z true (VBool true) (VString "truthy value")
                "should be truthy" "ok" eq_refl) as [Hthrow _].
    destruct (Hthrow ltac:(cbn; lia)) as (Ho & He & _).
    split; [exact Ho|]. rewrite He. reflexivity.
  - destruct (Halong (SetTest._planned (Some 2%Z)
                        (Test.new "t" [] (Some TestRunner.new)))
                fresh 2%Z [ok; ok; ok] eq_refl ltac:(cbn; lia) eq_refl)
      as (ls & Hl & Hc & _).
    exists ls. split; [exact Hl|exact Hc].
  - apply (Honce (Test.new "t" [] (Some TestRunner.new)) fresh
             [Script.Plan 2; ok; ok]); reflexivity.
Defined.

(* ================================================================= *)
(** ** The report of any run *)

(** X1: when [run] meets no exception and the tests it takes have not
    run before, the lines it sends are the version line, the lines of the
    tests (results, comments and diagnostic blocks only) and the summary;
    the result lines are numbered consecutively after the identifiers
    already taken, and the plan line and the counts of the summary are
    those of the result lines: [total] their number, [success] the [ok]
    ones, [fail] the [not ok] ones.  The runner is then completed, and the
    host is asked what the end of a run asks with these totals. *)
Theorem run_report_counts_results (host : Host) (e : Env) :
  Forall unrun (selected (the_runner e)) ->
  fst (TestRunner.run e) = Return tt ->
  exists ls rs,
    lines (snd (TestRunner.run e))
    = (lines e ++ "TAP version 13" :: ls ++ summary_lines (totals_of rs))%list
    /\ forallb body_line ls = true
    /\ filter is_result ("TAP version 13" :: ls ++ summary_lines (totals_of rs))
       = numbered (ids e + 1) rs
    /\ ids (snd (TestRunner.run e)) = (ids e + count rs)%Z
    /\ count rs = (oks rs + not_oks rs)%Z
    /\ RunnerObject.completed (the_runner (snd (TestRunner.run e))) = true
    /\ events (snd (TestRunner.run e))
       = (events e
          ++ finish_events (RunnerObject._onFinishCallback (the_runner e))
               (totals_of rs))%list.
Proof.
  intros Hunrun Hret.
  destruct (run_returned e Hret)
    as (ls & rs & totals & Hl & Hb & Hr & Hi & Hc & Hev & _ & Htot).
  specialize (Htot Hunrun). subst totals.
  exists ls, rs. split; [exact Hl|]. split; [exact Hb|]. split.
  { change ("TAP version 13" :: ls ++ summary_lines (totals_of rs))%list
      with (["TAP version 13"] ++ ls ++ summary_lines (totals_of rs))%list.
    rewrite !filter_app, summary_not_results, Hr, app_nil_r. reflexivity. }
  split; [exact Hi|]. split; [apply count_outcomes|]. now split.
Qed.

Lemma run_report_counts_results_witness :
  let fn := [Script.Ok (VBool true) None; Script.Fail (Some "no")] in
  let e := snd (TestRunner.add "t" fn false fresh) in
  exists ls rs,
    lines (snd (TestRunner.run (host := quiet_host) e))
    = (lines e ++ "TAP version 13" :: ls ++ summary_lines (totals_of rs))%list
    /\ forallb body_line ls = true
    /\ filter is_result ("TAP version 13" :: ls ++ summary_lines (totals_of rs))
       = numbered (ids e + 1) rs
    /\ ids (snd (TestRunner.run (host := quiet_host) e)) = (ids e + count rs)%Z
    /\ count rs = (oks rs + not_oks rs)%Z
    /\ RunnerObject.completed
         (the_runner (snd (TestRunner.run (host := quiet_host) e))) = true
    /\ events (snd (TestRunner.run (host := quiet_host) e))
       = (events e
          ++ finish_events (host := quiet_host)
               (RunnerObject._onFinishCallback (the_runner e))
               (totals_of rs))%list.
Proof.
  intros fn e.
  apply (run_report_counts_results quiet_host e).
  - repeat constructor.
  - vm_compute. reflexivity.
Defined.

(** X2: when a test makes [run] throw, the run stops there: after the
    version line only lines of tests were sent, so no plan line and no
    summary; the runner is not completed and neither the callback of
    [onFinish] nor the exit handler is reached.  The function that [add]
    scheduled does not throw: it hands the error to the host to be thrown
    again when [rethrowExceptions] is set, and drops it otherwise. *)
Theorem run_stops_at_exception (host : Host) (msg : string) (e : Env) :
  fst (TestRunner.run e) = Throw msg ->
  (exists ls,
     lines (snd (TestRunner.run e)) = (lines e ++ "TAP version 13" :: ls)%list
     /\ forallb body_line ls = true)
  /\ RunnerObject.completed (the_runner (snd (TestRunner.run e)))
     = RunnerObject.completed (the_runner e)
  /\ events (snd (TestRunner.run e)) = events e
  /\ TestRunner.scheduled_run e
     = (Return tt,
        if RunnerObject.rethrowExceptions (the_runner e)
        then with_events (events e ++ [Rethrown msg]) (snd (TestRunner.run e))
        else snd (TestRunner.run e)).
Proof.
  intros Hthrow.
  destruct (@run_threw host msg e Hthrow)
    as (ls & rs & Hl & Hb & Hr & Hev & Hc & Hre).
  split; [now exists ls|]. split; [exact Hc|]. split; [exact Hev|].
  unfold TestRunner.scheduled_run.
  destruct (TestRunner.run e) as [[[]|m] e1]; cbn [fst snd] in *;
    [discriminate|].
  injection Hthrow as ->. rewrite Hre.
  destruct (RunnerObject.rethrowExceptions (the_runner e)); [|reflexivity].
  unfold emit, modify. now rewrite Hev.
Qed.

Lemma run_stops_at_exception_witness :
  let fn := [Script.Ok (VBool true) None; Script.Raise "boom"] in
  let e := snd (TestRunner.add "t" fn false fresh) in
  lines (snd (TestRunner.run (host := quiet_host) e))
  = ["TAP version 13"; "# t"; "ok 1 should be truthy"]
  /\ TestRunner.scheduled_run (host := quiet_host) e
     = (Return tt,
        with_events [SetTimeout; Rethrown "boom"]
          (snd (TestRunner.run (host := quiet_host) e))).
Proof.
  intros fn e.
  pose proof (@run_stops_at_exception quiet_host "boom" e
                ltac:(vm_compute; reflexivity)) as H.
  split; [vm_compute; reflexivity|].
  exact (proj2 (proj2 (proj2 H))).
Defined.

(** X3: once a run has ended without an exception, [add] registers
    nothing more: it throws and leaves the runner as it is. *)
Theorem add_after_run_throws (host : Host) (e : Env) (name : string)
  (fn : TestFn) (only : bool) :
  fst (TestRunner.run e) = Return tt ->
  TestRunner.add name fn only (snd (TestRunner.run e))
  = (Throw "Cannot add() a test case after tests completed.",
     snd (TestRunner.run e)).
Proof.
  intros Hret.
  destruct (run_returned e Hret)
    as (ls & rs & totals & _ & _ & _ & _ & Hc & _).
  unfold TestRunner.add. unfold bind at 1, gets at 1.
  rewrite Hc. reflexivity.
Qed.

Lemma add_after_run_throws_witness :
  let e :=
    snd (TestRunner.add "t" [Script.Ok (VBool true) None]
           false fresh) in
  TestRunner.add "tester 2" [Script.Ok (VBool true) None]
    false (snd (TestRunner.run (host := quiet_host) e))
  = (Throw "Cannot add() a test case after tests completed.",
     snd (TestRunner.run (host := quiet_host) e)).
Proof.
  intro e.
  apply (add_after_run_throws quiet_host e).
  vm_compute. reflexivity.
Defined.

(** X4: [onFinish] refuses what is not a function and leaves the runner
    as it is.  After [onFinish(callback)], a run of tests that have not run
    before hands the callback the totals of the report, the number of result
    lines with the [ok] and the [not ok] ones, and the exit handler of the
    process is not installed. *)
Theorem onFinish_receives_totals (host : Host) (callback : Value) (e : Env) :
  let e1 := snd (TestRunner.onFinish callback e) in
  (String.eqb (typeof callback) "function" = false ->
   TestRunner.onFinish callback e
   = (Throw "onFinish() expects a function", e))
  /\ (String.eqb (typeof callback) "function" = true ->
      Forall unrun (selected (the_runner e)) ->
      fst (TestRunner.run e1) = Return tt ->
      exists ls rs,
        lines (snd (TestRunner.run e1))
        = (lines e ++ "TAP version 13" :: ls
           ++ summary_lines (totals_of rs))%list
        /\ filter is_result ls = numbered (ids e + 1) rs
        /\ events (snd (TestRunner.run e1))
           = (events e
              ++ [OnFinishCalled callback (count rs) (oks rs)
                    (not_oks rs)])%list).
Proof.
  intro e1. split.
  - intros Hty. unfold TestRunner.onFinish. now rewrite Hty.
  - intros Hty Hunrun Hret.
    assert (He1 : e1 = with_runner
                         (SetRunner._onFinishCallback callback (the_runner e))
                         e).
    { unfold e1, TestRunner.onFinish. now rewrite Hty. }
    clearbody e1. subst e1.
    destruct (run_returned _ Hret)
      as (ls & rs & totals & Hl & Hb & Hr & Hi & Hc & Hev & _ & Htot).
    specialize (Htot Hunrun). subst totals.
    exists ls, rs.
    split; [exact Hl|]. split; [exact Hr|].
    rewrite Hev. cbn [the_runner with_runner events
                      RunnerObject._onFinishCallback
                      SetRunner._onFinishCallback].
    unfold finish_events.
    destruct callback; try discriminate Hty. reflexivity.
Qed.

Lemma onFinish_receives_totals_witness :
  let fn := [Script.Ok (VBool true) None; Script.Fail (Some "no")] in
  let e := snd (TestRunner.add "t" fn false fresh) in
  let e1 := snd (TestRunner.onFinish (VFunction 7) e) in
  exists ls rs,
    lines (snd (TestRunner.run (host := quiet_host) e1))
    = (lines e ++ "TAP version 13" :: ls ++ summary_lines (totals_of rs))%list
    /\ filter is_result ls = numbered (ids e + 1) rs
    /\ events (snd (TestRunner.run (host := quiet_host) e1))
       = (events e
          ++ [OnFinishCalled (VFunction 7) (count rs) (oks rs)
                (not_oks rs)])%list.
Proof.
  intros fn e e1.
  apply (proj2 (onFinish_receives_totals quiet_host (VFunction 7) e)).
  - reflexivity.
  - repeat constructor.
  - vm_compute. reflexivity.
Defined.

(* ================================================================= *)
(** ** What the registrations leave *)

Section Registering.

Lemma new_strict (name : string) (fn : TestFn) (r1 r2 : RunnerObject.t) :
  RunnerObject.strict r1 = RunnerObject.strict r2 ->
  Test.new name fn (Some r1) = Test.new name fn (Some r2).
Proof. unfold Test.new. now intros ->. Qed.

Lemma queued_strict (exclusive : bool) (r1 r2 : RunnerObject.t)
  (cs : list Registration) :
  RunnerObject.strict r1 = RunnerObject.strict r2 ->
  queued exclusive r1 cs = queued exclusive r2 cs.
Proof.
  intros H. unfold queued.
  induction cs as [|c cs IH]; [reflexivity|].
  cbn [flat_map]. rewrite IH.
  destruct c as [n [f|]|n [f|]|n f], exclusive; try reflexivity;
    now rewrite (@new_strict n f r1 r2 H).
Qed.

Lemma add_eq (name : string) (fn : TestFn) (only : bool) (e : Env) :
  RunnerObject.completed (the_runner e) = false ->
  TestRunner.add name fn only e = (Return tt, added name fn only e).
Proof.
  intros Hc. unfold TestRunner.add, added.
  unfold bind at 1, gets at 1. rewrite Hc.
  unfold when at 1. unfold bind at 1, ret at 1.
  unfold bind at 1, gets at 1. unfold bind at 1, on_runner at 1, modify at 1.
  unfold bind at 1, gets at 1.
  destruct e as [r c ev ix]; destruct r as [rep ts os sch id co re st cb].
  destruct only, sch; reflexivity.
Qed.

Lemma queued_cons (exclusive : bool) (r : RunnerObject.t)
  (c : Registration) (cs : list Registration) :
  queued exclusive r (c :: cs)
  = (queued exclusive r [c] ++ queued exclusive r cs)%list.
Proof. unfold queued. cbn [flat_map]. now rewrite app_nil_r. Qed.

Lemma register_all_eq (cs : list Registration) (e : Env) :
  RunnerObject.completed (the_runner e) = false ->
  let r := the_runner e in
  let e' := snd (register_all cs e) in
  fst (register_all cs e) = Return tt
  /\ RunnerObject.tests (the_runner e')
     = (RunnerObject.tests r ++ queued false r cs)%list
  /\ RunnerObject.onlyTests (the_runner e')
     = (RunnerObject.onlyTests r ++ queued true r cs)%list
  /\ events e' = (events e ++ schedules r cs)%list
  /\ lines e' = lines e
  /\ ids e' = ids e
  /\ CACHED_FILE e' = CACHED_FILE e
  /\ RunnerObject.completed (the_runner e') = false
  /\ RunnerObject.strict (the_runner e') = RunnerObject.strict r
  /\ RunnerObject._onFinishCallback (the_runner e')
     = RunnerObject._onFinishCallback r
  /\ RunnerObject.rethrowExceptions (the_runner e')
     = RunnerObject.rethrowExceptions r.
Proof.
  revert e; induction cs as [|c cs IH]; intros e Hc r e'.
  - subst e' r. cbn [register_all ret fst snd queued flat_map].
    unfold schedules. cbn [queued flat_map app].
    rewrite !app_nil_r.
    destruct (RunnerObject.scheduled (the_runner e)); rewrite ?app_nil_r;
      repeat split; assumption.
  - assert (Hstep : exists e1,
              register c e = (Return tt, e1)
              /\ RunnerObject.completed (the_runner e1) = false
              /\ RunnerObject.strict (the_runner e1) = RunnerObject.strict r
              /\ RunnerObject.tests (the_runner e1)
                 = (RunnerObject.tests r ++ queued false r [c])%list
              /\ RunnerObject.onlyTests (the_runner e1)
                 = (RunnerObject.onlyTests r ++ queued true r [c])%list
              /\ events e1 = (events e ++ schedules r [c])%list
              /\ RunnerObject.scheduled (the_runner e1)
                 = match schedules r [c] with
                   | [] => RunnerObject.scheduled r
                   | _ :: _ => true
                   end
              /\ lines e1 = lines e /\ ids e1 = ids e
              /\ CACHED_FILE e1 = CACHED_FILE e
              /\ RunnerObject._onFinishCallback (the_runner e1)
                 = RunnerObject._onFinishCallback r
              /\ RunnerObject.rethrowExceptions (the_runner e1)
                 = RunnerObject.rethrowExceptions r).
    { subst r. unfold schedules.
      destruct c as [n [f|]|n [f|]|n f];
        cbn [register test only skip queued flat_map app];
        rewrite ?add_eq by assumption; unfold added;
        destruct e as [r0 c0 ev ix]; destruct r0 as [rep ts os sch id co re st cb];
        cbn in Hc |- *; subst co;
        eexists; (split; [reflexivity|]);
        destruct sch; cbn; rewrite ?app_nil_r; repeat split. }
    destruct Hstep
      as (e1 & Hreg & Hc1 & Hs1 & Ht1 & Ho1 & Hev1 & Hsch1 & Hl1 & Hi1 & Hca1
          & Hcb1 & Hre1).
    destruct (IH e1 Hc1)
      as (Hret & Ht & Ho & Hev & Hl & Hi & Hca & Hco & Hs & Hcb & Hre).
    subst e'. cbn [register_all]. unfold bind. rewrite Hreg.
    destruct (register_all cs e1) as [o e2]; cbn [fst snd] in *.
    rewrite (@queued_strict false (the_runner e1) r cs Hs1) in Ht.
    rewrite (@queued_strict true (the_runner e1) r cs Hs1) in Ho.
    split; [exact Hret|].
    split.
    { now rewrite Ht, Ht1, <- app_assoc, <- queued_cons. }
    split.
    { now rewrite Ho, Ho1, <- app_assoc, <- queued_cons. }
    split.
    { rewrite Hev, Hev1, <- app_assoc. f_equal.
      unfold schedules in *. rewrite Hsch1.
      rewrite (@queued_strict false (the_runner e1) r cs Hs1).
      rewrite (@queued_strict true (the_runner e1) r cs Hs1).
      rewrite (queued_cons false r c cs), (queued_cons true r c cs).
      destruct (RunnerObject.scheduled r); [reflexivity|].
      destruct (queued false r [c]) as [|t1 l1];
        destruct (queued true r [c]) as [|t2 l2]; cbn [app];
        try reflexivity.
      destruct (queued false r cs); reflexivity. }
    repeat split; congruence.
Qed.

End Registering.

Section TestLife.
Context {host : Host}.

Lemma require_msg_strict (msg : option string) (t : TestObject.t) (e : Env) :
  TestObject.strict t = true -> missing msg = true ->
  Test.require_msg msg (t, e) = (Throw "tapzero msg required", (t, e)).
Proof.
  intros Hs Hm. unfold Test.require_msg.
  now rewrite bind_this, Hs, Hm.
Qed.

Lemma guarded_strict {A} (msg : option string) (m : M Test.State A)
  (t : TestObject.t) (e : Env) :
  TestObject.strict t = true -> missing msg = true ->
  bind (Test.require_msg msg) (fun _ => m) (t, e)
  = (Throw "tapzero msg required", (t, e)).
Proof.
  intros Hs Hm. unfold bind at 1. now rewrite require_msg_strict.
Qed.

Lemma tally_ext (a b : Tally) :
  pass a = pass b -> fail a = fail b -> a = b.
Proof. destruct a, b; cbn; congruence. Qed.

Lemma body_eq (t : TestObject.t) (e : Env) :
  test_body (t, e)
  = let after := Test.apply (TestObject.fn t) (t, e) in
    let t1 := fst (snd after) in
    match fst after with
    | Throw m => (Throw m, snd after)
    | Return _ =>
        match TestObject._planned t1 with
        | Some n =>
            if (or_zero (TestObject._actual t1) <? n)%Z
            then (Throw (Test.ended_before_planned n
                           (or_zero (TestObject._actual t1))),
                  (SetTest.done true t1, snd (snd after)))
            else (Return (TestObject._result t1),
                  (SetTest.done true t1, snd (snd after)))
        | None => (Return (TestObject._result t1),
                   (SetTest.done true t1, snd (snd after)))
        end
    end.
Proof.
  unfold test_body. rewrite bind_this. unfold bind at 1. cbv zeta.
  destruct (Test.apply (TestObject.fn t) (t, e)) as [[[]|m] [t1 e1]];
    [|reflexivity].
  rewrite bind_update, bind_this. simpl_test.
  destruct (TestObject._planned t1) as [n|].
  - rewrite bind_bind, bind_this. simpl_test. unfold when.
    destruct (or_zero (TestObject._actual t1) <? n)%Z.
    + now rewrite bind_throw.
    + now rewrite bind_ret.
  - now rewrite bind_ret.
Qed.

Lemma body_done (s : Test.State) (res : Tally) :
  fst (test_body s) = Return res ->
  TestObject.done (fst (snd (test_body s))) = true.
Proof.
  destruct s as [t e]. rewrite body_eq. cbv zeta.
  destruct (Test.apply (TestObject.fn t) (t, e)) as [[[]|m] [t1 e1]];
    cbn [fst snd]; [|discriminate].
  destruct (TestObject._planned t1) as [n|]; [|reflexivity].
  destruct (or_zero (TestObject._actual t1) <? n)%Z; [discriminate|reflexivity].
Qed.

(** An assertion that returns counts one when a plan is declared, and
    leaves the plan as it is. *)
Lemma _assert_counts (p : bool) (actual expected : Value)
  (description operator : string) (t : TestObject.t) (e : Env) :
  fst (Test._assert p actual expected description operator (t, e)) = Return tt ->
  let t' := fst (snd (Test._assert p actual expected description operator
                        (t, e))) in
  TestObject._planned t' = TestObject._planned t
  /\ or_zero (TestObject._actual t')
     = (or_zero (TestObject._actual t)
        + match TestObject._planned t with Some _ => 1 | None => 0 end)%Z.
Proof.
  intros Hret. cbv zeta.
  assert (Hdone : TestObject.done t = false).
  { destruct (TestObject.done t) eqn:Hd; [|reflexivity].
    rewrite _assert_finished in Hret by assumption. discriminate Hret. }
  assert (Hplan : forall n, TestObject._planned t = Some n ->
                            (or_zero (TestObject._actual t) + 1 <= n)%Z).
  { intros n Hn.
    destruct (Z.ltb n (or_zero (TestObject._actual t) + 1)) eqn:Hcmp.
    - apply Z.ltb_lt in Hcmp.
      rewrite (@_assert_more host p actual expected description operator
                 t e n Hdone Hn Hcmp) in Hret.
      discriminate Hret.
    - now apply Z.ltb_ge in Hcmp. }
  clear Hret. rewrite _assert_accepted by assumption.
  assert (Hc : TestObject._planned (counted t) = TestObject._planned t
               /\ or_zero (TestObject._actual (counted t))
                  = (or_zero (TestObject._actual t)
                     + match TestObject._planned t with
                       | Some _ => 1
                       | None => 0
                       end)%Z).
  { unfold counted. destruct (TestObject._planned t) eqn:E; simpl_test;
      rewrite ?E; split; try reflexivity; lia. }
  destruct (TestObject.runner t), p; cbn [fst snd]; exact Hc.
Qed.

(** [throws] comes to one call of [_assert], on the test as it is, or
    throws before it. *)
Lemma throws_cases (fn : unit -> option ErrorObject) (expected : Value)
  (msg : option string) (t : TestObject.t) (e : Env) :
  exists p a x d e',
    Test.throws fn expected msg (t, e) = Test._assert p a x d "throws" (t, e')
    \/ exists m, Test.throws fn expected msg (t, e) = (Throw m, (t, e')).
Proof.
  remember (Test.throws fn expected msg (t, e)) as X eqn:HX.
  unfold Test.throws in HX.
  set (args := match expected with
               | VString s => (Some s, VUndefined)
               | _ => (msg, expected)
               end) in HX.
  destruct args as [msg' expected'].
  unfold bind at 1 in HX. rewrite require_msg_eq in HX.
  destruct (TestObject.strict t && missing msg').
  { exists true, VNull, VNull, "", e. right. eexists. exact HX. }
  destruct expected';
    try (rewrite bind_ret in HX; do 4 eexists; exists e; left; exact HX);
    try (match type of HX with
         | context [if truthy ?v then _ else _] => destruct (truthy v)
         end;
         [rewrite bind_throw in HX; exists true, VNull, VNull, "", e; right;
          eexists; exact HX
         |rewrite bind_ret in HX; do 4 eexists; exists e; left; exact HX]).
  destruct (fn tt).
  - rewrite bind_regexp_test in HX. do 5 eexists. left. exact HX.
  - rewrite bind_ret in HX. do 4 eexists. exists e. left. exact HX.
Qed.

Lemma call_counts (c : Script.Call) (t : TestObject.t) (e : Env) :
  is_plan c = false ->
  fst (Test.call c (t, e)) = Return tt ->
  let t' := fst (snd (Test.call c (t, e))) in
  TestObject._planned t' = TestObject._planned t
  /\ or_zero (TestObject._actual t')
     = (or_zero (TestObject._actual t)
        + if is_assertion c
          then match TestObject._planned t with Some _ => 1 | None => 0 end
          else 0)%Z.
Proof.
  assert (Hguard : forall msg p a x d o,
            fst (bind (Test.require_msg msg)
                   (fun _ => Test._assert p a x d o) (t, e)) = Return tt ->
            let t' := fst (snd (bind (Test.require_msg msg)
                                  (fun _ => Test._assert p a x d o) (t, e))) in
            TestObject._planned t' = TestObject._planned t
            /\ or_zero (TestObject._actual t')
               = (or_zero (TestObject._actual t)
                  + match TestObject._planned t with
                    | Some _ => 1
                    | None => 0
                    end)%Z).
  { intros msg p a x d o. unfold bind. rewrite require_msg_eq.
    destruct (TestObject.strict t && missing msg); [discriminate|].
    apply _assert_counts. }
  destruct c; cbn [Test.call is_plan is_assertion]; intros Hc;
    try discriminate Hc;
    try (unfold Test.deepEqual, Test.notDeepEqual, Test.equal, Test.notEqual,
           Test.fail, Test.ok, Test.ifError; apply Hguard).
  - intros _. unfold Test.comment. rewrite bind_this. unfold when.
    destruct (TestObject.runner t); [rewrite env_eq|unfold ret];
      cbn [fst snd]; split; try reflexivity; lia.
  - destruct (throws_cases fn expected message0 t e)
      as (p & a & x & d & e' & [H|[m H]]); rewrite H.
    + apply _assert_counts.
    + discriminate.
  - discriminate.
Qed.

(** Along a test function that returns: the plan in force at the end is
    the last one declared, and the count grew by the assertion calls made
    under a plan. *)
Lemma apply_counts (fn : TestFn) (t : TestObject.t) (e : Env) :
  fst (Test.apply fn (t, e)) = Return tt ->
  let t' := fst (snd (Test.apply fn (t, e))) in
  TestObject._planned t'
  = match last_plan fn with
    | Some n => Some n
    | None => TestObject._planned t
    end
  /\ or_zero (TestObject._actual t')
     = (or_zero (TestObject._actual t)
        + match TestObject._planned t with
          | Some _ => assertions fn
          | None => assertions (after_first_plan fn)
          end)%Z.
Proof.
  revert t e; induction fn as [|c fn IH]; intros t e Hret; cbv zeta.
  - cbn. split; [reflexivity|]. unfold assertions. cbn.
    destruct (TestObject._planned t); lia.
  - cbn [Test.apply] in Hret |- *. unfold bind in Hret |- *.
    destruct (is_plan c) eqn:Hc.
    + destruct c; try discriminate Hc.
      cbn [Test.call] in Hret |- *.
      unfold Test.plan, Test.update, modify in Hret |- *.
      cbn [fst snd] in Hret |- *.
      destruct (IH (SetTest._planned (Some n) t) e Hret) as (Hp & Ha).
      cbv zeta in Hp, Ha.
      rewrite Hp, Ha. simpl_test.
      cbn [last_plan after_first_plan].
      split; [now destruct (last_plan fn)|].
      unfold assertions. cbn [filter is_assertion].
      now destruct (TestObject._planned t).
    + pose proof (@call_counts c t e Hc) as Hcall.
      destruct (Test.call c (t, e)) as [[[]|m] [t1 e1]]; cbn [fst snd] in *;
        [|discriminate Hret].
      destruct (Hcall eq_refl) as (Hp1 & Ha1).
      destruct (IH t1 e1 Hret) as (Hp & Ha). cbv zeta in Hp, Ha.
      rewrite Hp, Ha, Hp1, Ha1.
      assert (Hlast : last_plan (c :: fn) = last_plan fn).
      { cbn [last_plan]. destruct (last_plan fn); [reflexivity|].
        now destruct c. }
      assert (Hafter : after_first_plan (c :: fn) = after_first_plan fn)
        by (now destruct c).
      rewrite Hlast, Hafter. split; [reflexivity|].
      unfold assertions. cbn [filter].
      destruct (is_assertion c), (TestObject._planned t);
        cbn [List.length]; lia.
Qed.

(** The state in which the function of a test starts: the name of the
    test went out. *)
Lemma run_started (t : TestObject.t) (e : Env) :
  Test.run (t, e)
  = test_body (t, if TestObject.runner t
             then add_lines ["# " ++ TestObject.name t] e else e).
Proof.
  rewrite run_body. unfold bind at 1. rewrite bind_this. unfold when.
  destruct (TestObject.runner t); [|reflexivity].
  now rewrite env_eq, report_eq.
Qed.

Lemma run_done (t : TestObject.t) (e : Env) (res : Tally) :
  fst (Test.run (t, e)) = Return res ->
  TestObject.done (fst (snd (Test.run (t, e)))) = true.
Proof. rewrite run_started. apply body_done. Qed.

End TestLife.

(* ================================================================= *)
(** ** Registering tests *)

(** X5: on a runner that is not completed, a sequence of calls of
    [test], [only] and [skip] never throws; it appends to [tests] the tests
    of the [test] calls that come with a function and to [onlyTests] those
    of the [only] calls, in the order of the calls; [skip] and a call
    without a function register nothing.  Every test registered is new: no
    plan, no count, an empty tally, not done, and the strictness of the
    runner.  One run is scheduled, when none was before and a test was
    registered; nothing is reported. *)
Theorem registrations_queue_in_order (cs : list Registration) (e : Env) :
  RunnerObject.completed (the_runner e) = false ->
  let r := the_runner e in
  let e' := snd (register_all cs e) in
  fst (register_all cs e) = Return tt
  /\ RunnerObject.tests (the_runner e')
     = (RunnerObject.tests r ++ queued false r cs)%list
  /\ RunnerObject.onlyTests (the_runner e')
     = (RunnerObject.onlyTests r ++ queued true r cs)%list
  /\ Forall (fun t =>
               t = TestObject.mk (TestObject.name t) None None
                     (TestObject.fn t) true (mkTally 0 0) false
                     (RunnerObject.strict r))
       (queued false r cs ++ queued true r cs)
  /\ events e' = (events e ++ schedules r cs)%list
  /\ List.length (schedules r cs) <= 1
  /\ lines e' = lines e.
Proof.
  intros Hc r e'.
  destruct (register_all_eq cs e Hc)
    as (Hret & Ht & Ho & Hev & Hl & _).
  split; [exact Hret|]. split; [exact Ht|]. split; [exact Ho|].
  split.
  { apply Forall_app; split; unfold queued; apply Forall_flat_map;
      apply Forall_forall; intros [n [f|]|n [f|]|n f] _;
      repeat constructor. }
  split; [exact Hev|]. split; [|exact Hl].
  unfold schedules. destruct (RunnerObject.scheduled r); [cbn; lia|].
  destruct (queued false r cs ++ queued true r cs)%list; cbn; lia.
Qed.

Lemma registrations_queue_in_order_witness :
  let ok := [Script.Ok (VBool true) None] in
  let cs := [CallTest "a" (Some ok); CallSkip "b" (Some ok);
             CallOnly "c" (Some ok); CallTest "d" None;
             CallTest "e" (Some ok)] in
  let e' := snd (register_all cs fresh) in
  map TestObject.name (RunnerObject.tests (the_runner e')) = ["a"; "e"]
  /\ map TestObject.name (RunnerObject.onlyTests (the_runner e')) = ["c"]
  /\ events e' = [SetTimeout].
Proof.
  intros ok cs e'.
  destruct (registrations_queue_in_order cs fresh eq_refl)
    as (_ & Ht & Ho & _ & Hev & _).
  fold e' in Ht, Ho, Hev. rewrite Ht, Ho, Hev.
  repeat split.
Defined.

(** X6: [setStrict] reaches the tests registered after it and none of
    those registered before, in both registries: a test takes the strictness
    the runner has when it is registered, by [test] or by [only]. *)
Theorem setStrict_applies_to_later_tests (before after : list Registration)
  (strict : bool) (e : Env) :
  RunnerObject.completed (the_runner e) = false ->
  let r := the_runner e in
  let e1 := snd (register_all before e) in
  let e2 := snd (setStrict strict e1) in
  let e3 := snd (register_all after e2) in
  RunnerObject.tests (the_runner e3)
  = (RunnerObject.tests r ++ queued false r before
     ++ queued false (SetRunner.strict strict r) after)%list
  /\ Forall (fun t => TestObject.strict t = RunnerObject.strict r)
       (queued false r before)
  /\ Forall (fun t => TestObject.strict t = strict)
       (queued false (SetRunner.strict strict r) after)
  /\ RunnerObject.onlyTests (the_runner e3)
     = (RunnerObject.onlyTests r ++ queued true r before
        ++ queued true (SetRunner.strict strict r) after)%list
  /\ Forall (fun t => TestObject.strict t = RunnerObject.strict r)
       (queued true r before)
  /\ Forall (fun t => TestObject.strict t = strict)
       (queued true (SetRunner.strict strict r) after).
Proof.
  intros Hc r e1 e2 e3.
  destruct (register_all_eq before e Hc)
    as (_ & Ht1 & Ho1 & _ & _ & _ & _ & Hc1 & Hs1 & _).
  fold e1 in Ht1, Ho1, Hc1, Hs1.
  assert (Hc2 : RunnerObject.completed (the_runner e2) = false) by exact Hc1.
  destruct (register_all_eq after e2 Hc2) as (_ & Ht3 & Ho3 & _).
  fold e3 in Ht3, Ho3.
  assert (Hall : forall exclusive rr cs s,
            RunnerObject.strict rr = s ->
            Forall (fun t => TestObject.strict t = s) (queued exclusive rr cs)).
  { intros exclusive rr cs s <-. unfold queued.
    apply Forall_flat_map; apply Forall_forall.
    intros [n [f|]|n [f|]|n f] _; destruct exclusive; repeat constructor. }
  split.
  { rewrite Ht3.
    rewrite (@queued_strict false (the_runner e2)
               (SetRunner.strict strict r) after eq_refl).
    change (RunnerObject.tests (the_runner e2))
      with (RunnerObject.tests (the_runner e1)).
    now rewrite Ht1, <- app_assoc. }
  split; [now apply Hall|]. split; [now apply Hall|].
  split.
  { rewrite Ho3.
    rewrite (@queued_strict true (the_runner e2)
               (SetRunner.strict strict r) after eq_refl).
    change (RunnerObject.onlyTests (the_runner e2))
      with (RunnerObject.onlyTests (the_runner e1)).
    now rewrite Ho1, <- app_assoc. }
  split; now apply Hall.
Qed.

Lemma setStrict_applies_to_later_tests_witness :
  let ok := [Script.Ok (VBool true) None] in
  let e1 := snd (register_all [CallTest "a" (Some ok); CallOnly "c" (Some ok)]
                   fresh) in
  let e3 := snd (register_all [CallTest "b" (Some ok); CallOnly "d" (Some ok)]
                   (snd (setStrict true e1))) in
  map TestObject.strict (RunnerObject.tests (the_runner e3)) = [false; true]
  /\ map TestObject.strict (RunnerObject.onlyTests (the_runner e3))
     = [false; true].
Proof.
  intros ok e1 e3.
  destruct (setStrict_applies_to_later_tests
              [CallTest "a" (Some ok); CallOnly "c" (Some ok)]
              [CallTest "b" (Some ok); CallOnly "d" (Some ok)] true fresh
              eq_refl) as (Ht & _ & _ & Ho & _).
  fold e1 e3 in Ht, Ho. rewrite Ht, Ho. split; reflexivity.
Defined.

(* ================================================================= *)
(** ** The life of a test *)

(** X7: on a strict test, every assertion method called without a
    description throws the error that asks for one, before anything is
    counted or reported: the test and the state around it are as they
    were. *)
Theorem strict_requires_description (host : Host) (c : Script.Call)
  (t : TestObject.t) (e : Env) :
  TestObject.strict t = true ->
  is_assertion c = true ->
  has_description c = false ->
  Test.call c (t, e) = (Throw "tapzero msg required", (t, e)).
Proof.
  intros Hs Ha Hd.
  destruct c; try discriminate Ha; cbn [has_description] in Hd;
    cbn [Test.call];
    try (apply negb_false_iff in Hd;
         unfold Test.deepEqual, Test.notDeepEqual, Test.equal, Test.notEqual,
           Test.fail, Test.ok, Test.ifError;
         now apply guarded_strict).
  unfold Test.throws.
  destruct expected; apply negb_false_iff in Hd; now apply guarded_strict.
Qed.

Lemma strict_requires_description_witness :
  let t := Test.new "t" [] (Some (SetRunner.strict true TestRunner.new)) in
  Test.call (host := quiet_host) (Script.Throws (fun _ => None) (VString "") None)
    (t, fresh)
  = (Throw "tapzero msg required", (t, fresh)).
Proof.
  intro t.
  apply (strict_requires_description quiet_host); reflexivity.
Defined.

(** X8: a test built without a runner sends nothing, takes no
    identifier and tallies nothing, whatever its function does and whether
    its run returns or throws: the runner, the cached file name and the
    trace of the host are as they were (of the state around the test, only
    the [lastIndex] of a regular expression given to [throws] can move). *)
Theorem test_without_runner_is_silent (host : Host) (t : TestObject.t)
  (e : Env) :
  TestObject.runner t = false ->
  (exists ix, snd (snd (Test.run (t, e))) = with_lastIndex ix e)
  /\ TestObject._result (fst (snd (Test.run (t, e)))) = TestObject._result t
  /\ forall res, fst (Test.run (t, e)) = Return res ->
                 res = TestObject._result t.
Proof.
  intros Hr.
  destruct (Records_run t e)
    as (ls & rs & c & ix & He & Hl & Hb & Hsame & Hp & Hf & Hn).
  destruct (Hn Hr) as [Henv ->].
  unfold oks, not_oks, count in Hp, Hf. cbn in Hp, Hf.
  rewrite Z.add_0_r in Hp, Hf.
  assert (Hres : TestObject._result (fst (snd (Test.run (t, e))))
                 = TestObject._result t).
  { now apply tally_ext. }
  split; [now exists ix|]. split; [exact Hres|].
  intros res Hret. rewrite (Yields_run (t, e) Hret). exact Hres.
Qed.

Lemma test_without_runner_is_silent_witness :
  let t := Test.new "t" [Script.Fail None; Script.Ok (VBool true) None] None in
  (exists ix,
     snd (snd (Test.run (host := quiet_host) (t, fresh)))
     = with_lastIndex ix fresh)
  /\ fst (Test.run (host := quiet_host) (t, fresh)) = Return (mkTally 0 0).
Proof.
  intro t.
  destruct (test_without_runner_is_silent quiet_host t fresh eq_refl)
    as (He & _ & _).
  split; [exact He|]. vm_compute. reflexivity.
Defined.

(** X9: a test whose run returned is finished: an assertion that
    reaches it afterwards, as from a callback that fires late, throws the
    error that names the test and changes nothing. *)
Theorem assertion_after_run_throws (host : Host) (t : TestObject.t) (e : Env)
  (res : Tally) (p : bool) (actual expected : Value)
  (description operator : string) :
  fst (Test.run (t, e)) = Return res ->
  Test._assert p actual expected description operator (snd (Test.run (t, e)))
  = (Throw ("assertion occurred after test was finished: "
            ++ TestObject.name t),
     snd (Test.run (t, e))).
Proof.
  intros Hret.
  pose proof (run_done t e Hret) as Hdone.
  destruct (Records_run t e)
    as (ls & rs & c & ix & _ & _ & _ & (Hname & _) & _).
  destruct (Test.run (t, e)) as [o [t1 e1]]; cbn [fst snd] in *.
  rewrite _assert_finished by exact Hdone. now rewrite Hname.
Qed.

Lemma assertion_after_run_throws_witness :
  let t := Test.new "late" [Script.Ok (VBool true) None]
             (Some TestRunner.new) in
  fst (Test._assert (host := quiet_host) true (VBool true) (VBool true)
         "again" "ok" (snd (Test.run (host := quiet_host) (t, fresh))))
  = Throw "assertion occurred after test was finished: late".
Proof.
  intro t.
  rewrite (@assertion_after_run_throws quiet_host t fresh (mkTally 1 0) true
             (VBool true) (VBool true) "again" "ok" eq_refl).
  reflexivity.
Defined.

(** X10: the run of a test returns exactly when its function returns
    and, if a plan is then in force, the count stored has reached it; what it
    returns is the tally of the test.  The count stored is the number of
    assertion calls made while a plan was declared: on a new test whose
    function returns, the plan in force is the last one declared and the
    count is the number of assertion calls that follow the first call of
    [plan]; those made before it are not counted. *)
Theorem run_returns_tally (host : Host) (t : TestObject.t) (e : Env)
  (res : Tally) :
  let started :=
    (t, if TestObject.runner t
        then add_lines ["# " ++ TestObject.name t] e else e) in
  let after := Test.apply (TestObject.fn t) started in
  (fst (Test.run (t, e)) = Return res
   <-> fst after = Return tt
       /\ res = TestObject._result (fst (snd after))
       /\ forall n, TestObject._planned (fst (snd after)) = Some n ->
                    (n <= or_zero (TestObject._actual (fst (snd after))))%Z)
  /\ (TestObject._planned t = None ->
      TestObject._actual t = None ->
      fst after = Return tt ->
      TestObject._planned (fst (snd after)) = last_plan (TestObject.fn t)
      /\ or_zero (TestObject._actual (fst (snd after)))
         = assertions (after_first_plan (TestObject.fn t))).
Proof.
  intros started after. split.
  - rewrite run_started, body_eq. cbv zeta.
    fold started. fold after.
    destruct after as [[[]|m] [t1 e1]]; cbn [fst snd].
    + destruct (TestObject._planned t1) as [n|].
      * destruct (Z.ltb_spec (or_zero (TestObject._actual t1)) n) as [Hlt|Hge];
          cbn [fst].
        -- split; [discriminate|]. intros (_ & _ & H).
           specialize (H n eq_refl). lia.
        -- split.
           ++ intros H. injection H as <-. repeat split.
              intros n' Hn'. injection Hn' as <-. exact Hge.
           ++ now intros (_ & -> & _).
      * cbn [fst]. split.
        -- intros H. injection H as <-. repeat split. discriminate.
        -- now intros (_ & -> & _).
    + split; [discriminate|]. intros (H & _). discriminate H.
  - intros Hp Ha Hret.
    destruct (apply_counts (TestObject.fn t) (fst started) (snd started))
      as (Hplan & Hcount).
    { now rewrite <- surjective_pairing. }
    rewrite <- surjective_pairing in Hplan, Hcount. fold after in Hplan, Hcount.
    subst started. cbn [fst snd] in Hplan, Hcount.
    rewrite Hp in Hplan, Hcount. rewrite Ha in Hcount. cbn [or_zero] in Hcount.
    split; [|now rewrite Hcount].
    rewrite Hplan. now destruct (last_plan (TestObject.fn t)).
Qed.

Lemma run_returns_tally_witness :
  let ok := Script.Ok (VBool true) None in
  let t := Test.new "t" [ok; ok; Script.Plan 2] (Some TestRunner.new) in
  let after :=
    Test.apply (host := quiet_host) (TestObject.fn t)
      (t, add_lines ["# t"] fresh) in
  (TestObject._planned (fst (snd after)) = Some 2%Z
   /\ or_zero (TestObject._actual (fst (snd after))) = 0%Z)
  /\ fst (Test.run (host := quiet_host) (t, fresh))
     <> Return (mkTally 2 0).
Proof.
  intros ok t after.
  destruct (run_returns_tally quiet_host t fresh (mkTally 2 0))
    as (Hiff & Hnew).
  cbv zeta in Hiff, Hnew. cbn [TestObject.runner t Test.new] in Hiff, Hnew.
  split.
  - exact (Hnew eq_refl eq_refl eq_refl).
  - intros Hret. apply Hiff in Hret as (_ & _ & Hreach).
    specialize (Hreach 2%Z eq_refl). vm_compute in Hreach. now apply Hreach.
Defined.

(* ================================================================= *)
(** ** The comparator on objects, arrays and errors *)

Module ComparatorFacts.
Import FastDeepEqual Symmetry SymmetryFacts.

Lemma items_eq_Forall2 (xs ys : list Value) :
  List.length xs = List.length ys ->
  items_eq deepEqual xs ys = true
  <-> Forall2 (fun x y => deepEqual x y = true) xs ys.
Proof.
  revert ys; induction xs as [|x xs IH]; intros [|y ys] Hlen;
    try discriminate Hlen.
  - split; [constructor|reflexivity].
  - injection Hlen as Hlen. cbn [items_eq tl hd].
    fold (items_eq deepEqual). split.
    + intros H. destruct (items_eq deepEqual xs ys) eqn:E; [|discriminate].
      constructor; [exact H|]. now apply IH.
    + intros H. inversion H as [|? ? ? ? Hxy Hrest]; subst.
      apply (IH ys Hlen) in Hrest. now rewrite Hrest.
Qed.

Lemma plain_objects (i j : nat) (cls : string)
  (ps qs ha hb : list (string * Value)) (ja jb pa pb : option Value) :
  deepEqual (VObject i cls None None ps ha ja pa)
    (VObject j cls None None qs hb jb pb) = true
  <-> i = j
      \/ (List.length ps = List.length qs
          /\ forall k v, In (k, v) ps ->
               exists w, lookup k (qs ++ hb) = Some w
                         /\ deepEqual v w = true).
Proof.
  rewrite deepEqual_unfold.
  cbn [strict_eq is_object andb same_constructor constructor_of Ctor_eqb].
  rewrite String.eqb_refl. cbn [negb].
  destruct (Nat.eqb i j) eqn:Eij.
  { apply Nat.eqb_eq in Eij. split; [now left|reflexivity]. }
  apply Nat.eqb_neq in Eij.
  unfold structure_eq.
  cbn [overrides_valueOf overrides_toString own_props].
  destruct (Nat.eqb (List.length ps) (List.length qs)) eqn:Elen; cbn [negb].
  2:{ apply Nat.eqb_neq in Elen. split; [discriminate|].
      intros [H|[H _]]; contradiction. }
  apply Nat.eqb_eq in Elen.
  rewrite all_own_forallb, fields_eq_forallb.
  split.
  - intros H. right. split; [exact Elen|]. intros k v Hin.
    destruct (forallb (hasOwnProperty (VObject j cls None None qs hb jb pb))
                (map fst ps)) eqn:Eown; [|discriminate].
    cbn [negb] in H.
    rewrite forallb_forall in Eown, H.
    specialize (H (k, v) Hin). cbn [fst snd] in H.
    assert (Hk : In k (map fst ps)) by (apply in_map_iff; now exists (k, v)).
    specialize (Eown k Hk).
    unfold hasOwnProperty, get in *. cbn [all_props] in *.
    destruct (lookup k (qs ++ hb)) as [w|]; [|discriminate].
    now exists w.
  - intros [H|[_ H]]; [contradiction|].
    assert (Hown : forallb
                     (hasOwnProperty (VObject j cls None None qs hb jb pb))
                     (map fst ps) = true).
    { apply forallb_forall. intros k Hk.
      apply in_map_iff in Hk as ([k' v] & <- & Hin).
      destruct (H k' v Hin) as (w & Hw & _).
      unfold hasOwnProperty. cbn [all_props fst]. now rewrite Hw. }
    rewrite Hown. cbn [negb].
    apply forallb_forall. intros [k v] Hin. cbn [fst snd].
    destruct (H k v Hin) as (w & Hw & Heq).
    unfold get. cbn [all_props]. now rewrite Hw.
Qed.

Lemma lookup_app_left (k : string) (v : Value) (ps qs : list (string * Value)) :
  lookup k ps = Some v -> lookup k (ps ++ qs) = Some v.
Proof.
  induction ps as [|[k' v'] ps IH]; cbn; [discriminate|].
  destruct (String.eqb k k'); [trivial|exact IH].
Qed.

Lemma append_inj (a b c : string) : a ++ b = a ++ c -> b = c.
Proof.
  induction a as [|x a IH]; cbn; [trivial|].
  intros H. injection H as H. now apply IH.
Qed.

Lemma append_longer (a b : string) : b <> "" -> a <> a ++ b.
Proof.
  intros Hb. induction a as [|x a IH]; cbn.
  - congruence.
  - intros H. injection H as H. now apply IH.
Qed.

(** With one name that is not empty, what [toString] answers tells the
    messages apart. *)
Lemma error_toString_eqb (name m m' : string) :
  name <> "" ->
  String.eqb (error_toString name m) (error_toString name m') = String.eqb m m'.
Proof.
  intros Hname. unfold error_toString.
  apply String.eqb_neq in Hname. rewrite Hname.
  destruct (String.eqb m "") eqn:Em, (String.eqb m' "") eqn:Em'.
  - apply String.eqb_eq in Em, Em'. subst. apply String.eqb_refl.
  - apply String.eqb_eq in Em. subst m.
    rewrite (String.eqb_sym "" m'), Em'.
    apply String.eqb_neq. apply append_longer. discriminate.
  - apply String.eqb_eq in Em'. subst m'. rewrite Em.
    apply String.eqb_neq. intros H. symmetry in H. revert H.
    apply append_longer. discriminate.
  - destruct (String.eqb m m') eqn:E.
    + apply String.eqb_eq in E. subst. apply String.eqb_refl.
    + apply String.eqb_neq in E. apply String.eqb_neq.
      intros H. apply E. apply append_inj in H. cbn in H. now injection H.
Qed.

End ComparatorFacts.

(* ================================================================= *)
(** ** What the comparator compares *)

(** X11: two objects of one class that override neither [valueOf] nor
    [toString] are deep-equal exactly when they are one object, or have the
    same number of enumerable own properties and each enumerable property of
    the first is an own property of the second, enumerable or not, with a
    deep-equal value. *)
Theorem deepEqual_plain_objects (i j : nat) (cls : string)
  (ps qs ha hb : list (string * Value)) (ja jb pa pb : option Value) :
  FastDeepEqual.deepEqual (VObject i cls None None ps ha ja pa)
    (VObject j cls None None qs hb jb pb) = true
  <-> i = j
      \/ (List.length ps = List.length qs
          /\ forall k v, In (k, v) ps ->
               exists w, lookup k (qs ++ hb) = Some w
                         /\ FastDeepEqual.deepEqual v w = true).
Proof. apply ComparatorFacts.plain_objects. Qed.

(** X12: the order of the properties does not count: two objects of one
    class without overrides whose properties are the same up to their order
    are deep-equal (the keys of an object are distinct). *)
Theorem deepEqual_ignores_key_order (i j : nat) (cls : string)
  (ps qs ha hb : list (string * Value)) (ja jb pa pb : option Value) :
  NoDup (map fst ps) ->
  Permutation ps qs ->
  FastDeepEqual.deepEqual (VObject i cls None None ps ha ja pa)
    (VObject j cls None None qs hb jb pb) = true.
Proof.
  intros Hnodup Hperm.
  apply ComparatorFacts.plain_objects. right.
  split; [now apply Permutation_length|].
  intros k v Hin. exists v. split; [|apply SymmetryFacts.deepEqual_refl].
  apply ComparatorFacts.lookup_app_left.
  apply SymmetryFacts.In_lookup.
  - apply (Permutation_NoDup (Permutation_map fst Hperm) Hnodup).
  - now apply (Permutation_in _ Hperm).
Qed.

Lemma deepEqual_ignores_key_order_witness :
  FastDeepEqual.deepEqual
    (literal 1
       [("a", VNumber (Num 1)); ("b", array 3 [VNull])])
    (literal 2
       [("b", array 3 [VNull]); ("a", VNumber (Num 1))]) = true.
Proof.
  apply deepEqual_ignores_key_order.
  - repeat constructor; cbn; intuition discriminate.
  - apply perm_swap.
Defined.

(** X13: two arrays are deep-equal exactly when they are one array, or
    have one constructor, the same length and deep-equal elements at every
    index. *)
Theorem deepEqual_arrays (i j : nat) (xs ys : list Value) (c d : string) :
  FastDeepEqual.deepEqual (VArray i xs c) (VArray j ys d) = true
  <-> i = j
      \/ (c = d
          /\ Forall2 (fun x y => FastDeepEqual.deepEqual x y = true) xs ys).
Proof.
  rewrite SymmetryFacts.deepEqual_unfold.
  cbn [strict_eq is_object andb same_constructor constructor_of Ctor_eqb
       array_items].
  destruct (Nat.eqb i j) eqn:Eij.
  { apply Nat.eqb_eq in Eij. split; [now left|reflexivity]. }
  apply Nat.eqb_neq in Eij.
  destruct (String.eqb c d) eqn:Ecd; cbn [negb].
  2:{ apply String.eqb_neq in Ecd. split; [discriminate|].
      intros [H|[H _]]; contradiction. }
  apply String.eqb_eq in Ecd.
  destruct (Nat.eqb (List.length xs) (List.length ys)) eqn:Elen; cbn [negb].
  - apply Nat.eqb_eq in Elen.
    rewrite (ComparatorFacts.items_eq_Forall2 xs ys Elen).
    split; [now right|]. now intros [H|[_ H]].
  - apply Nat.eqb_neq in Elen. split; [discriminate|].
    intros [H|[_ H]]; [contradiction|].
    apply Forall2_length in H. contradiction.
Qed.

(** X14: two errors are deep-equal exactly when they are one object, or
    have one constructor and [toString] answers the same for both, which it
    makes of the name and the message; the stack does not count.  Two errors
    of one constructor and one name that is not empty are then deep-equal
    exactly when they carry the same message. *)
Theorem deepEqual_errors_by_toString (i j : nat)
  (m m' stack stack' name name' c c' : string) :
  FastDeepEqual.deepEqual (VError i m stack name c) (VError j m' stack' name' c')
  = Nat.eqb i j
    || (String.eqb c c'
        && String.eqb (error_toString name m) (error_toString name' m'))
  /\ (name <> "" ->
      FastDeepEqual.deepEqual (VError i m stack name c) (VError j m' stack' name c)
      = Nat.eqb i j || String.eqb m m').
Proof.
  assert (H : FastDeepEqual.deepEqual (VError i m stack name c)
                (VError j m' stack' name' c')
              = Nat.eqb i j
                || (String.eqb c c'
                    && String.eqb (error_toString name m)
                         (error_toString name' m'))).
  { rewrite SymmetryFacts.deepEqual_unfold.
    cbn [strict_eq is_object andb same_constructor constructor_of Ctor_eqb].
    destruct (Nat.eqb i j); [reflexivity|].
    destruct (String.eqb c c'); [|reflexivity]. cbn [negb orb andb].
    unfold Symmetry.structure_eq.
    cbn [overrides_valueOf overrides_toString call_toString]. reflexivity. }
  split; [exact H|].
  intros Hname.
  rewrite SymmetryFacts.deepEqual_unfold.
  cbn [strict_eq is_object andb same_constructor constructor_of Ctor_eqb].
  destruct (Nat.eqb i j); [reflexivity|].
  rewrite String.eqb_refl. cbn [negb orb].
  unfold Symmetry.structure_eq.
  cbn [overrides_valueOf overrides_toString call_toString].
  now apply ComparatorFacts.error_toString_eqb.
Qed.

Lemma deepEqual_errors_by_toString_witness :
  FastDeepEqual.deepEqual (error 1 "x" "at a") (error 2 "x" "at b") = true
  /\ FastDeepEqual.deepEqual (error 1 "x" "at a")
       (VError 2 "x" "at a" "TypeError" "TypeError") = false.
Proof.
  unfold error. split.
  - rewrite (proj2 (deepEqual_errors_by_toString 1 2 "x" "x" "at a" "at b"
                      "Error" "Error" "Error" "Error")
               ltac:(discriminate)).
    reflexivity.
  - rewrite (proj1 (deepEqual_errors_by_toString 1 2 "x" "x" "at a" "at a"
                      "Error" "TypeError" "Error" "TypeError")).
    reflexivity.
Defined.

(* ================================================================= *)
(** ** Frames and positions *)

Module CallSiteFacts.

Lemma length_append (a b : string) :
  String.length (a ++ b) = String.length a + String.length b.
Proof. induction a as [|c a IH]; cbn; [reflexivity|now rewrite IH]. Qed.

Lemma substring_all (s : string) : String.substring 0 (String.length s) s = s.
Proof. induction s as [|c s IH]; cbn; [reflexivity|now rewrite IH]. Qed.

Lemma substring_left (a b : string) :
  String.substring 0 (String.length a) (a ++ b) = a.
Proof.
  induction a as [|c a IH]; cbn.
  - now destruct b.
  - now rewrite IH.
Qed.

Lemma substring_right (a b : string) :
  String.substring (String.length a) (String.length b) (a ++ b) = b.
Proof.
  induction a as [|c a IH]; cbn; [apply substring_all|exact IH].
Qed.

Lemma strip_position_suffix (part file : string) :
  part <> "" -> strip_position part (file ++ ":" ++ part) = file.
Proof.
  intros Hne. unfold strip_position, Str.endsWith, Str.take.
  apply String.eqb_neq in Hne. rewrite Hne. cbn [negb andb].
  assert (Hs : String.length (":" ++ part) = S (String.length part))
    by reflexivity.
  remember (":" ++ part) as s eqn:Es.
  rewrite length_append, Hs.
  replace (String.length file + S (String.length part)
           - S (String.length part))
    with (String.length file) by lia.
  rewrite <- Hs, substring_right, String.eqb_refl.
  replace (Nat.leb (String.length s) (String.length file + String.length s))
    with true by (symmetry; apply Nat.leb_le; lia).
  cbn [andb].
  replace (String.length file + String.length s - String.length part - 1)
    with (String.length file) by lia.
  apply substring_left.
Qed.

Section Frames.
Context {host : Host}.

Lemma first_outside_spec (dir : string) (lines : list string) :
  (first_outside dir lines = "" /\ Forall (skipped dir) lines)
  \/ exists before line after m,
       lines = (before ++ line :: after)%list
       /\ Forall (skipped dir) before
       /\ at_regex_exec line = Some m
       /\ inside dir m = false
       /\ first_outside dir lines
          = or_else (m1 m) "<anonymous>" ++ " (" ++ m2 m ++ ")".
Proof.
  induction lines as [|l ls IH]; cbn [first_outside].
  - left. split; [reflexivity|constructor].
  - destruct (at_regex_exec l) as [m|] eqn:Em.
    + fold (inside dir m). destruct (inside dir m) eqn:Ein.
      * destruct IH as [[H Hall]|(before & line & after & m' & -> & Hb & Hm
                                   & Hin & Hr)].
        -- left. split; [exact H|]. constructor; [|exact Hall].
           unfold skipped. now rewrite Em.
        -- right. exists (l :: before), line, after, m'.
           repeat split; try assumption.
           constructor; [|exact Hb]. unfold skipped. now rewrite Em.
      * right. exists [], l, ls, m. repeat split; try assumption.
        constructor.
    + destruct IH as [[H Hall]|(before & line & after & m' & -> & Hb & Hm
                                 & Hin & Hr)].
      * left. split; [exact H|]. constructor; [|exact Hall].
        unfold skipped. now rewrite Em.
      * right. exists (l :: before), line, after, m'.
        repeat split; try assumption.
        constructor; [|exact Hb]. unfold skipped. now rewrite Em.
Qed.

Lemma call_site_not_empty (name : option string) (file : string) :
  or_else name "<anonymous>" ++ " (" ++ file ++ ")" <> "".
Proof.
  unfold or_else. destruct name as [[|c s]|]; discriminate.
Qed.

End Frames.

End CallSiteFacts.

Section Blocks.
Context {host : Host}.

Lemma getTapZeroFileName_is (e : Env) :
  getTapZeroFileName e
  = (Return (package_file (CACHED_FILE e)),
     with_CACHED_FILE (package_file (CACHED_FILE e)) e).
Proof.
  unfold getTapZeroFileName, package_file; unfold_monad.
  destruct (negb (String.eqb (CACHED_FILE e) "")).
  - now rewrite with_CACHED_FILE_same.
  - destruct (first_match (Str.split_lines temp_error_stack)); cbn.
    + reflexivity.
    + now rewrite with_CACHED_FILE_same.
Qed.

Lemma diagnostics_block (actual expected : Value)
  (operator atErr err : string) (e : Env) :
  let dir := package_file (CACHED_FILE e) in
  Test.diagnostics actual expected operator atErr err e
  = (Return tt,
     with_CACHED_FILE dir
       (add_lines
          (diagnostic_block operator (toJSON expected) (toJSON actual)
             (first_outside dir (Str.split_lines atErr)) err) e)).
Proof.
  cbv zeta.
  unfold Test.diagnostics, diagnostic_block, bind.
  rewrite !report_eq, report_values_eq, !add_lines_app.
  unfold findAtLineFromError, bind. rewrite getTapZeroFileName_is.
  change (CACHED_FILE (add_lines ?ls e)) with (CACHED_FILE e).
  generalize (package_file (CACHED_FILE e)). intro dir. unfold when, ret.
  cbv beta iota.
  destruct (String.eqb (first_outside dir (Str.split_lines atErr)) "");
    cbn [negb].
  - cbv beta iota.
    rewrite !report_eq, report_stack_eq, report_eq.
    rewrite !add_lines_cached, !add_lines_app, <- !app_assoc. reflexivity.
  - rewrite !report_eq, report_stack_eq, report_eq.
    rewrite !add_lines_cached, !add_lines_app, <- !app_assoc. reflexivity.
Qed.

End Blocks.

(* ================================================================= *)
(** ** The call site of a failing assertion *)

(** X15: [findAtLineFromError] splits the stack of the error into its
    lines, asks [getTapZeroFileName] for the file of the package, which is
    cached from then on, and answers the first frame of the stack that does
    not lie in that file: the lines before it are no frames or frames of the
    package, and the answer is the name of its function, [<anonymous>]
    without one, with its position.  The answer is empty exactly when there
    is no such frame; it is empty for every stack when the file of the
    package is not known. *)
Theorem call_site_is_first_frame_outside (host : Host) (err_stack : string)
  (e : Env) :
  let dir := package_file (CACHED_FILE e) in
  let lines := Str.split_lines err_stack in
  exists site,
    findAtLineFromError err_stack e = (Return site, with_CACHED_FILE dir e)
    /\ (site = "" <-> Forall (skipped dir) lines)
    /\ (site <> "" ->
        exists before line after m,
          lines = (before ++ line :: after)%list
          /\ Forall (skipped dir) before
          /\ at_regex_exec line = Some m
          /\ inside dir m = false
          /\ site = or_else (m1 m) "<anonymous>" ++ " (" ++ m2 m ++ ")")
    /\ (dir = "" -> site = "").
Proof.
  intros dir lines.
  exists (first_outside dir lines).
  split.
  { unfold findAtLineFromError, bind. rewrite getTapZeroFileName_is.
    reflexivity. }
  assert (Hspec := CallSiteFacts.first_outside_spec dir lines).
  split; [split|split].
  - intros Hempty.
    destruct Hspec as [[_ H]|(b & l & a & m & _ & _ & _ & _ & Hr)];
      [exact H|].
    rewrite Hr in Hempty.
    now apply CallSiteFacts.call_site_not_empty in Hempty.
  - intros Hall.
    destruct Hspec as [[H _]|(b & l & a & m & Hl & _ & Hm & Hin & _)];
      [exact H|].
    rewrite Hl in Hall.
    apply Forall_app in Hall as [_ Hall].
    inversion Hall as [|? ? Hsk _]; subst.
    unfold skipped in Hsk. rewrite Hm in Hsk. congruence.
  - intros Hne.
    destruct Hspec as [[H _]|H]; [contradiction|exact H].
  - intros ->. clear Hspec. induction lines as [|l ls IH]; [reflexivity|].
    cbn [first_outside]. destruct (at_regex_exec l) as [m|]; [|exact IH].
    unfold Str.take. cbn [String.length]. destruct (m2 m); exact IH.
Qed.

(** X16: when no file name is cached and the first frame of the stack
    of a new error gives the path of the package followed by a line and a
    column, [getTapZeroFileName] answers the path without the position and
    caches it; from then on it answers the cached path, whatever the stack
    of the host is. *)
Theorem getTapZeroFileName_caches_path (host : Host) (e : Env) (m : AtMatch)
  (path line col : string) :
  CACHED_FILE e = "" ->
  first_match (Str.split_lines temp_error_stack) = Some m ->
  m2 m = path ++ ":" ++ line ++ ":" ++ col ->
  m3 m = line ->
  m4 m = Some col ->
  line <> "" -> col <> "" -> path <> "" ->
  getTapZeroFileName e = (Return path, with_CACHED_FILE path e)
  /\ forall host' : Host,
       getTapZeroFileName (host := host') (with_CACHED_FILE path e)
       = (Return path, with_CACHED_FILE path e).
Proof.
  intros Hcache Hfirst Hm2 Hm3 Hm4 Hline Hcol Hpath.
  split.
  - unfold getTapZeroFileName. unfold bind at 1, gets at 1.
    rewrite Hcache. cbn [String.eqb negb].
    rewrite Hfirst, Hm4, Hm3, Hm2. cbv zeta.
    change (path ++ ":" ++ line ++ ":" ++ col)
      with (path ++ (":" ++ line) ++ ":" ++ col).
    rewrite <- StrFacts.append_assoc.
    rewrite (CallSiteFacts.strip_position_suffix (path ++ ":" ++ line) Hcol).
    rewrite (CallSiteFacts.strip_position_suffix path Hline).
    reflexivity.
  - intros host'. unfold getTapZeroFileName. unfold bind at 1, gets at 1.
    cbn [CACHED_FILE with_CACHED_FILE].
    apply String.eqb_neq in Hpath. now rewrite Hpath.
Qed.

Lemma getTapZeroFileName_caches_path_witness :
  getTapZeroFileName (host := frames_host) fresh
  = (Return "/lib/index.js", with_CACHED_FILE "/lib/index.js" fresh).
Proof.
  apply (proj1
           (@getTapZeroFileName_caches_path frames_host fresh
              (mkAtMatch (Some "f") "/lib/index.js:9:5" "9" (Some "5"))
              "/lib/index.js" "9" "5"
              eq_refl ltac:(vm_compute; reflexivity) eq_refl eq_refl eq_refl
              ltac:(discriminate) ltac:(discriminate) ltac:(discriminate))).
Defined.

(* ================================================================= *)
(** ** The report of a failing assertion *)

(** X17: a failing assertion that is accepted, on a test with a
    runner, sends its [not ok] line with the next identifier and then one
    diagnostic block: the operator, the expected and the actual value as
    serialized, the call site when one is found, and a stack.  The call site
    is taken from the stack of the assertion; when the actual value is an
    error, the value shown is its message and the stack shown is its own.
    The tally counts one more failure. *)
Theorem failing_assertion_reports_block (host : Host) (t : TestObject.t)
  (e : Env) (actual expected : Value) (description operator : string) :
  TestObject.done t = false ->
  TestObject.runner t = true ->
  (forall n, TestObject._planned t = Some n ->
             (or_zero (TestObject._actual t) + 1 <= n)%Z) ->
  let atErr := assert_error_stack description in
  let stack := match actual with VError _ _ s _ _ => s | _ => atErr end in
  let value := match actual with VError _ m _ _ _ => VString m | _ => actual end in
  let dir := package_file (CACHED_FILE e) in
  Test._assert false actual expected description operator (t, e)
  = (Return tt,
     (Test.count_fail (counted t),
      with_CACHED_FILE dir
        (add_lines
           (diagnostic_block operator (toJSON expected) (toJSON value)
              (first_outside dir (Str.split_lines atErr)) stack)
           (result_line false description e)))).
Proof.
  intros Hdone Hrun Hplan atErr stack value dir.
  rewrite _assert_accepted by assumption. rewrite Hrun. cbv zeta.
  rewrite diagnostics_block.
  fold atErr. subst stack value dir. destruct actual; reflexivity.
Qed.

Lemma failing_assertion_reports_block_witness :
  lines
    (snd (snd (Test._assert (host := frames_host) false
                 (error 4 "boom" "e /app/lib.js 2 2") VNull "no error"
                 "ifError"
                 (Test.new "t" [] (Some TestRunner.new), fresh))))
  = ["not ok 1 no error";
     "  ---";
     "    operator: ifError";
     "    expected: null";
     "    actual:   " ++ JSON.dquote ++ "boom" ++ JSON.dquote;
     "    at:       t (/app/test.js:7:3)";
     "    stack:    |-";
     "      e /app/lib.js 2 2";
     "  ..."].
Proof.
  rewrite (@failing_assertion_reports_block frames_host
              (Test.new "t" [] (Some TestRunner.new)) fresh
              (error 4 "boom" "e /app/lib.js 2 2") VNull "no error" "ifError"
              eq_refl eq_refl ltac:(discriminate)) .
  vm_compute. reflexivity.
Defined.

(* ================================================================= *)
(** ** The results a run reports *)

Section Verdict.
Context {host : Host}.

Lemma Verdicts_ext {A} (m : M Test.State A)
  (vs ws : list (nat * Z) -> list (bool * string) * list (nat * Z)) :
  (forall ix, vs ix = ws ix) -> Verdicts m vs -> Verdicts m ws.
Proof.
  intros Heq Hm t e a Hrun Hret.
  destruct (Hm t e a Hrun Hret) as (ls & c & H).
  exists ls, c. now rewrite <- Heq.
Qed.

Lemma Verdicts_same {A} (m : M Test.State A) :
  (forall t e a, fst (m (t, e)) = Return a ->
     snd (snd (m (t, e))) = e
     /\ same_test t (fst (snd (m (t, e))))
     /\ TestObject._result (fst (snd (m (t, e)))) = TestObject._result t) ->
  Verdicts m no_verdict.
Proof.
  intros H t e a _ Hret. destruct (H t e a Hret) as (He & Hs & Hr).
  exists [], (CACHED_FILE e). unfold no_verdict. cbn [fst snd].
  rewrite He, Hr.
  change (count []) with 0%Z. rewrite touch_nil.
  unfold oks, not_oks, count. cbn [filter List.length Z.of_nat].
  rewrite !Z.add_0_r. tauto.
Qed.

Lemma Verdicts_ret {A} (a : A) : Verdicts (ret a) no_verdict.
Proof.
  apply Verdicts_same. intros t e _ _. cbn. auto using same_test_refl.
Qed.

Lemma Verdicts_throw {A} (msg : string)
  (vs : list (nat * Z) -> list (bool * string) * list (nat * Z)) :
  Verdicts (@throw Test.State A msg) vs.
Proof. intros t e a _ H. discriminate H. Qed.

Lemma Verdicts_this {A} (f : TestObject.t -> A) :
  Verdicts (Test.this f) no_verdict.
Proof.
  apply Verdicts_same. intros t e _ _. cbn. auto using same_test_refl.
Qed.

Lemma Verdicts_update (f : TestObject.t -> TestObject.t) :
  (forall t, same_test t (f t)) ->
  (forall t, TestObject._result (f t) = TestObject._result t) ->
  Verdicts (Test.update f) no_verdict.
Proof.
  intros Hs Hr. apply Verdicts_same. intros t e _ _. cbn. auto.
Qed.

Lemma Verdicts_bind {A B} (m : M Test.State A) (k : A -> M Test.State B)
  (vs1 vs2 : list (nat * Z) -> list (bool * string) * list (nat * Z)) :
  Verdicts m vs1 -> (forall a, Verdicts (k a) vs2) ->
  Verdicts (bind m k) (and_then vs1 vs2).
Proof.
  intros Hm Hk t e b Hrun. unfold bind.
  specialize (Hm t e).
  destruct (m (t, e)) as [[a|msg] [t1 e1]]; cbn [fst snd] in *;
    [|discriminate].
  destruct (Hm a Hrun eq_refl) as (ls1 & c1 & He1 & Hl1 & Hb1 & Hs1 & Hp1 & Hf1).
  assert (Hrun1 : TestObject.runner t1 = true)
    by (destruct Hs1 as (_ & _ & Hr & _); congruence).
  specialize (Hk a t1 e1 b Hrun1).
  destruct (k a (t1, e1)) as [o2 [t2 e2]]; cbn [fst snd] in *.
  intros Hret.
  destruct (Hk Hret) as (ls2 & c2 & He2 & Hl2 & Hb2 & Hs2 & Hp2 & Hf2).
  exists (ls1 ++ ls2)%list, c2. subst e2 e1.
  rewrite lastIndex_touch in *.
  unfold and_then. cbn [fst snd].
  rewrite touch_touch, count_app, oks_app, not_oks_app.
  split; [reflexivity|]. split.
  { rewrite filter_app, Hl1, Hl2, ids_touch, numbered_app.
    do 2 f_equal. lia. }
  split; [now rewrite forallb_app, Hb1, Hb2|].
  split; [now apply (same_test_trans Hs1)|].
  split; lia.
Qed.

Lemma Verdicts_nil_bind {A B} (m : M Test.State A) (k : A -> M Test.State B)
  (vs : list (nat * Z) -> list (bool * string) * list (nat * Z)) :
  Verdicts m no_verdict -> (forall a, Verdicts (k a) vs) ->
  Verdicts (bind m k) vs.
Proof.
  intros Hm Hk.
  apply (@Verdicts_ext _ _ (and_then no_verdict vs)).
  - intro ix. unfold and_then, no_verdict. cbn [fst snd app].
    now destruct (vs ix).
  - now apply Verdicts_bind.
Qed.

Lemma Verdicts_when_throw (b : bool) (msg : string) :
  Verdicts (when b (throw msg)) no_verdict.
Proof. destruct b; [apply Verdicts_throw|apply Verdicts_ret]. Qed.

Lemma Verdicts__assert (p : bool) (actual expected : Value)
  (description operator : string) :
  Verdicts (Test._assert p actual expected description operator)
    (fun ix => ([(p, description)], ix)).
Proof.
  intros t e a Hrun Hret.
  pose proof (same_test_counted t) as Hcr.
  assert (Hcres : TestObject._result (counted t) = TestObject._result t)
    by (unfold counted; now destruct (TestObject._planned t)).
  assert (Hdone : TestObject.done t = false).
  { destruct (TestObject.done t) eqn:Hd; [|reflexivity].
    rewrite _assert_finished in Hret by assumption. discriminate Hret. }
  assert (Hplan : forall n, TestObject._planned t = Some n ->
                            (or_zero (TestObject._actual t) + 1 <= n)%Z).
  { intros n Hn.
    destruct (Z.ltb n (or_zero (TestObject._actual t) + 1)) eqn:Hcmp.
    - apply Z.ltb_lt in Hcmp.
      rewrite (@_assert_more host p actual expected description operator
                 t e n Hdone Hn Hcmp) in Hret.
      discriminate Hret.
    - now apply Z.ltb_ge in Hcmp. }
  clear Hret. rewrite _assert_accepted by assumption. rewrite Hrun.
  cbn [fst snd].
  destruct p.
  - exists [result_text true (ids e + 1) description], (CACHED_FILE e).
    cbn [fst snd]. rewrite result_line_touch.
    unfold Test.count_pass. simpl_test. cbn [pass fail]. rewrite Hcres.
    split; [reflexivity|]. split.
    { cbn [filter numbered]. now rewrite is_result_text. }
    split; [cbn [forallb]; unfold body_line; now rewrite is_result_text|].
    split; [exact Hcr|].
    split; [reflexivity|cbn; lia].
  - cbv zeta. cbn [fst snd].
    destruct (diagnostics_lines
                (snd (Test.shown (assert_error_stack description) actual))
                expected operator (assert_error_stack description)
                (fst (Test.shown (assert_error_stack description) actual))
                (result_line false description e)) as (c & more & Hd & Hm).
    rewrite Hd. cbn [snd].
    rewrite result_line_touch, add_lines_touch, cached_touch.
    exists ([result_text false (ids e + 1) description] ++ more)%list, c.
    unfold Test.count_fail. simpl_test. cbn [pass fail]. rewrite Hcres.
    split; [reflexivity|]. split.
    { rewrite filter_app, (indented_is_not_result _ Hm).
      cbn [filter numbered app]. now rewrite is_result_text. }
    split.
    { rewrite forallb_app, (indented_body _ Hm). cbn [forallb].
      unfold body_line. now rewrite is_result_text. }
    split; [exact Hcr|].
    split; [cbn; lia|reflexivity].
Qed.

Lemma Verdicts_guarded {A} (msg : option string) (m : M Test.State A)
  (vs : list (nat * Z) -> list (bool * string) * list (nat * Z)) :
  Verdicts m vs -> Verdicts (bind (Test.require_msg msg) (fun _ => m)) vs.
Proof.
  intros Hm. apply Verdicts_nil_bind; [|intros _; exact Hm].
  unfold Test.require_msg.
  apply Verdicts_nil_bind; [apply Verdicts_this|intro strict].
  apply Verdicts_when_throw.
Qed.

Lemma Verdicts_throws (fn : unit -> option ErrorObject) (expected : Value)
  (msg : option string) :
  Verdicts (Test.throws fn expected msg)
    (verdict (Script.Throws fn expected msg)).
Proof.
  unfold Test.throws, verdict, throws_passes.
  destruct expected as [| |b|n|s|i|i xs c|i src fl c|i m st n c
                        |i c vo ts ps hs js pm];
    apply Verdicts_guarded; intros t e a Hrun Hret;
    try (destruct (truthy _) eqn:Htruthy;
         [rewrite bind_throw in Hret; discriminate Hret|]);
    try (rewrite bind_ret in Hret |- *;
         destruct (fn tt);
         exact (@Verdicts__assert _ _ _ _ _ t e a Hrun Hret)).
  destruct (fn tt) as [err|].
  - rewrite bind_regexp_test in Hret |- *.
    exact (@Verdicts__assert _ _ _ _ _ t _ a Hrun Hret).
  - rewrite bind_ret in Hret |- *.
    exact (@Verdicts__assert _ _ _ _ _ t e a Hrun Hret).
Qed.

Lemma Verdicts_announce (msg : string) :
  Verdicts (bind (Test.this TestObject.runner)
              (fun has_runner =>
                 when has_runner (Test.env (report ("# " ++ msg)))))
    no_verdict.
Proof.
  intros t e a Hrun _. rewrite bind_this, Hrun. unfold when.
  rewrite env_eq, report_eq. cbn [fst snd].
  exists ["# " ++ msg], (CACHED_FILE e).
  split.
  { destruct e as [r c ev ix]; destruct r. unfold touch, add_lines; cbn.
    now rewrite Z.add_0_r. }
  split; [reflexivity|].
  split; [cbn [forallb]; now rewrite body_line_comment|].
  split; [apply same_test_refl|].
  unfold oks, not_oks, count; cbn. rewrite !Z.add_0_r. now split.
Qed.

Lemma Verdicts_call (c : Script.Call) : Verdicts (Test.call c) (verdict c).
Proof.
  destruct c; cbn [Test.call];
    try (apply Verdicts_guarded, Verdicts__assert).
  - apply Verdicts_announce.
  - apply Verdicts_update; intro; [repeat split|reflexivity].
  - apply Verdicts_throws.
  - apply Verdicts_throw.
Qed.

Lemma verdicts_cons (c : Script.Call) (fn : TestFn) (ix : list (nat * Z)) :
  verdicts (c :: fn) ix = and_then (verdict c) (verdicts fn) ix.
Proof.
  cbn [verdicts]. unfold and_then.
  destruct (verdict c ix) as [vs ix1]. cbn [fst snd].
  now destruct (verdicts fn ix1).
Qed.

Lemma verdicts_app (fn gn : TestFn) (ix : list (nat * Z)) :
  verdicts (fn ++ gn)%list ix = and_then (verdicts fn) (verdicts gn) ix.
Proof.
  revert ix; induction fn as [|c fn IH]; intro ix.
  - unfold and_then. cbn. now destruct (verdicts gn ix).
  - cbn [app]. rewrite verdicts_cons. unfold and_then.
    rewrite IH, verdicts_cons. unfold and_then. cbn [fst snd].
    now rewrite app_assoc.
Qed.

Lemma Verdicts_apply (fn : TestFn) : Verdicts (Test.apply fn) (verdicts fn).
Proof.
  induction fn as [|c fn IH]; cbn [Test.apply]; [apply Verdicts_ret|].
  apply (@Verdicts_ext _ _ (and_then (verdict c) (verdicts fn))).
  - intro ix. now rewrite verdicts_cons.
  - apply Verdicts_bind; [apply Verdicts_call|intros _; exact IH].
Qed.

End Verdict.

Section RunVerdicts.
Context {host : Host}.

Lemma touch_add_lines (more ls : list string) (k : Z) (c : string)
  (ix : list (nat * Z)) (e : Env) :
  touch ls k c ix (add_lines more e) = touch (more ++ ls) k c ix e.
Proof.
  destruct e as [r c0 ev ix0]; destruct r. unfold touch, add_lines; cbn.
  now rewrite app_assoc.
Qed.

Lemma is_result_comment (msg : string) : is_result ("# " ++ msg) = false.
Proof. now apply is_result_head. Qed.

(** The run of one test that returns: the name of the test, then the
    lines of its function. *)
Lemma run_verdicts (t : TestObject.t) (e : Env) (res : Tally) :
  TestObject.runner t = true ->
  fst (Test.run (t, e)) = Return res ->
  let vs := verdicts (TestObject.fn t) (lastIndex e) in
  exists ls c,
    snd (snd (Test.run (t, e)))
    = touch (("# " ++ TestObject.name t) :: ls) (count (fst vs)) c (snd vs) e
    /\ filter is_result ls = numbered (ids e + 1) (fst vs)
    /\ forallb body_line ls = true
    /\ pass res = (pass (TestObject._result t) + oks (fst vs))%Z
    /\ fail res = (fail (TestObject._result t) + not_oks (fst vs))%Z.
Proof.
  intros Hrun. rewrite run_started, Hrun, body_eq. cbv zeta.
  pose proof (@Verdicts_apply host (TestObject.fn t) t
                (add_lines ["# " ++ TestObject.name t] e)) as Happly.
  destruct (Test.apply (TestObject.fn t)
              (t, add_lines ["# " ++ TestObject.name t] e))
    as [[[]|m] [t1 e1]]; cbn [fst snd] in *; [|discriminate].
  destruct (Happly tt Hrun eq_refl) as (ls & c & He & Hl & Hb & Hs & Hp & Hf).
  change (lastIndex (add_lines ["# " ++ TestObject.name t] e))
    with (lastIndex e) in *.
  intros Hret. exists ls, c.
  destruct (TestObject._planned t1) as [n|];
    [destruct (or_zero (TestObject._actual t1) <? n)%Z; [discriminate|]|];
    cbn [fst snd] in Hret |- *; injection Hret as <-;
    rewrite He, touch_add_lines; cbn [app];
    (split; [reflexivity|]); (split; [exact Hl|]); (split; [exact Hb|]);
    now split.
Qed.

Lemma run_test_verdicts (only : bool) (index : nat) (t : TestObject.t)
  (e : Env) (res : Tally) :
  queued_test t ->
  fst (TestRunner.run_test only index t e) = Return res ->
  let vs := verdicts (TestObject.fn t) (lastIndex e) in
  exists ls,
    Reports e (snd (TestRunner.run_test only index t e)) ls (fst vs)
    /\ lastIndex (snd (TestRunner.run_test only index t e)) = snd vs
    /\ res = mkTally (oks (fst vs)) (not_oks (fst vs)).
Proof.
  intros [Hrun Hzero]. unfold TestRunner.run_test.
  pose proof (@run_verdicts t e) as Hv.
  destruct (Test.run (t, e)) as [o [t' e']]; cbn [fst snd] in *.
  intros ->.
  destruct (Hv res Hrun eq_refl) as (ls & c & He & Hl & Hb & Hp & Hf).
  exists (("# " ++ TestObject.name t) :: ls). split; [|split].
  - apply Reports_store. subst e'. apply Reports_touch.
    + cbn [filter]. now rewrite is_result_comment.
    + cbn [forallb]. now rewrite body_line_comment.
  - subst e'. reflexivity.
  - unfold unrun in Hzero. rewrite Hzero in Hp, Hf. cbn [pass fail] in Hp, Hf.
    now apply tally_ext.
Qed.

Lemma run_tests_verdicts (only : bool) (ts : list TestObject.t) (index : nat)
  (acc totals : TestRunner.Totals) (e : Env) :
  Forall queued_test ts ->
  fst (TestRunner.run_tests only index ts acc e) = Return totals ->
  let vs := verdicts (flat_map TestObject.fn ts) (lastIndex e) in
  exists ls,
    Reports e (snd (TestRunner.run_tests only index ts acc e)) ls (fst vs)
    /\ lastIndex (snd (TestRunner.run_tests only index ts acc e)) = snd vs
    /\ totals
       = TestRunner.mkTotals (TestRunner.total acc + count (fst vs))
           (TestRunner.success acc + oks (fst vs))
           (TestRunner.failed acc + not_oks (fst vs)).
Proof.
  revert index acc e; induction ts as [|t ts IH]; intros index acc e Hall;
    cbn [TestRunner.run_tests flat_map].
  - intros H. cbn in H. injection H as <-.
    exists []. split; [apply Reports_refl|]. split; [reflexivity|].
    destruct acc; unfold oks, not_oks, count; cbn.
    now rewrite !Z.add_0_r.
  - inversion Hall as [|? ? Ht Hrest]; subst.
    unfold bind.
    pose proof (@run_test_verdicts only index t e) as Hone.
    destruct (TestRunner.run_test only index t e) as [[res|msg] e1];
      cbn [fst snd] in *; [|discriminate].
    destruct (Hone res Ht eq_refl) as (ls1 & Hrep1 & Hix1 & ->).
    intros Hret.
    destruct (IH (S index) _ e1 Hrest Hret) as (ls2 & Hrep2 & Hix2 & ->).
    rewrite Hix1 in Hrep2, Hix2 |- *.
    rewrite verdicts_app. unfold and_then. cbn [fst snd].
    exists (ls1 ++ ls2)%list. split; [now apply (Reports_trans Hrep1)|].
    split; [exact Hix2|].
    cbn [TestRunner.total TestRunner.success TestRunner.failed pass fail].
    rewrite count_app, oks_app, not_oks_app.
    pose proof (count_outcomes
                  (fst (verdicts (TestObject.fn t) (lastIndex e)))).
    f_equal; lia.
Qed.

Lemma store_nth_middle (pre rest : list TestObject.t) (t t' : TestObject.t) :
  TestRunner.store_nth (List.length pre) t' (pre ++ t :: rest)%list
  = (pre ++ t' :: rest)%list.
Proof.
  induction pre as [|p pre IH]; cbn [List.length app TestRunner.store_nth];
    [reflexivity|now rewrite IH].
Qed.

(** What [test.run()] leaves of the two registries: the test that ran
    is stored where it was taken, done when its run returned. *)
Lemma run_test_registry (only : bool) (t : TestObject.t) (e : Env)
  (pre rest : list TestObject.t) :
  registry only (the_runner e) = (pre ++ t :: rest)%list ->
  exists t',
    registry only
      (the_runner (snd (TestRunner.run_test only (List.length pre) t e)))
    = (pre ++ t' :: rest)%list
    /\ registry (negb only)
         (the_runner (snd (TestRunner.run_test only (List.length pre) t e)))
       = registry (negb only) (the_runner e)
    /\ same_test t t'
    /\ (forall res,
          fst (TestRunner.run_test only (List.length pre) t e) = Return res ->
          TestObject.done t' = true).
Proof.
  intros Hreg. unfold TestRunner.run_test.
  destruct (Records_run t e)
    as (ls & rs & c & ix & He & _ & _ & Hsame & _).
  pose proof (@run_done host t e) as Hdone.
  destruct (Test.run (t, e)) as [o [t' e']]; cbn [fst snd] in *.
  exists t'. subst e'.
  split; [|split; [|split; [exact Hsame|]]].
  - destruct only; cbn in Hreg |- *; rewrite Hreg; apply store_nth_middle.
  - destruct only; reflexivity.
  - intros res ->. now apply (Hdone res).
Qed.

Lemma run_tests_registry (only : bool) (ts : list TestObject.t)
  (acc totals : TestRunner.Totals) (e : Env) (pre rest : list TestObject.t) :
  registry only (the_runner e) = (pre ++ ts ++ rest)%list ->
  fst (TestRunner.run_tests only (List.length pre) ts acc e) = Return totals ->
  exists ts',
    registry only
      (the_runner (snd (TestRunner.run_tests only (List.length pre) ts acc e)))
    = (pre ++ ts' ++ rest)%list
    /\ registry (negb only)
         (the_runner
            (snd (TestRunner.run_tests only (List.length pre) ts acc e)))
       = registry (negb only) (the_runner e)
    /\ Forall2 ran ts ts'.
Proof.
  revert acc e pre; induction ts as [|t ts IH]; intros acc e pre Hreg;
    cbn [TestRunner.run_tests].
  - intros _. exists []. cbn [fst snd ret]. repeat split; [exact Hreg|constructor].
  - unfold bind. cbn [app] in Hreg.
    destruct (run_test_registry only t e pre (ts ++ rest) Hreg)
      as (t' & Hreg1 & Hother1 & Hsame & Hdone).
    destruct (TestRunner.run_test only (List.length pre) t e)
      as [[res|msg] e1]; cbn [fst snd] in *; [|discriminate].
    intros Hret.
    assert (Hreg1' : registry only (the_runner e1)
                     = ((pre ++ [t']) ++ ts ++ rest)%list)
      by (now rewrite <- app_assoc).
    assert (Hlen : S (List.length pre) = List.length (pre ++ [t'])%list)
      by (rewrite length_app; cbn; lia).
    rewrite Hlen in Hret |- *.
    destruct (IH _ e1 (pre ++ [t'])%list Hreg1' Hret)
      as (ts' & Hreg2 & Hother2 & Hran).
    exists (t' :: ts'). split; [|split].
    + rewrite Hreg2, <- app_assoc. reflexivity.
    + now rewrite Hother2.
    + constructor; [|exact Hran]. split; [exact Hsame|now apply (Hdone res)].
Qed.

End RunVerdicts.

(** X18: when [run] meets no exception and the tests it takes are as
    [add] made them, the result lines of its report are, in order, the
    results of the assertion calls that the functions of the tests make: each
    is [ok] exactly when the condition of its method holds, carries the
    description given or else the one of the method, and has the next
    identifier; the other lines are comments and diagnostic blocks, and the
    summary counts these results.  The condition of [throws] with a regular
    expression is what [test] answers on the message of the error caught,
    from the [lastIndex] that the calls before left when the flags are [g]
    or [y]; the run leaves every [lastIndex] where the last test left it. *)
Theorem run_reports_the_verdicts (host : Host) (e : Env) :
  Forall queued_test (selected (the_runner e)) ->
  fst (TestRunner.run e) = Return tt ->
  let calls := flat_map TestObject.fn (selected (the_runner e)) in
  let vs := fst (verdicts calls (lastIndex e)) in
  exists ls,
    lines (snd (TestRunner.run e))
    = (lines e ++ "TAP version 13" :: ls ++ summary_lines (totals_of vs))%list
    /\ filter is_result ls = numbered (ids e + 1) vs
    /\ forallb body_line ls = true
    /\ events (snd (TestRunner.run e))
       = (events e
          ++ finish_events (RunnerObject._onFinishCallback (the_runner e))
               (totals_of vs))%list
    /\ lastIndex (snd (TestRunner.run e)) = snd (verdicts calls (lastIndex e)).
Proof.
  intros Hall. rewrite run_eq. cbv zeta.
  pose proof (@run_tests_verdicts host
                (Nat.ltb 0 (List.length (RunnerObject.onlyTests (the_runner e))))
                (selected (the_runner e)) 0 (TestRunner.mkTotals 0 0 0))
    as Hloop.
  specialize (fun totals => Hloop totals (add_lines ["TAP version 13"] e) Hall).
  destruct (TestRunner.run_tests _ 0 _ _ _) as [[totals|msg] e1];
    cbn [fst snd] in *; [|discriminate].
  intros _.
  destruct (Hloop totals eq_refl)
    as (ls & (H1 & H2 & H3 & Hb & H4 & H5 & H6 & _) & Hix & ->).
  change (lastIndex (add_lines ["TAP version 13"] e)) with (lastIndex e) in *.
  exists ls. rewrite finished_lines, H1.
  split.
  { change (lines (add_lines ["TAP version 13"] e))
      with (lines e ++ ["TAP version 13"])%list.
    now rewrite <- !app_assoc. }
  split; [exact H3|]. split; [exact Hb|].
  split; [|exact Hix].
  unfold finished; cbn [events with_events]. now rewrite H4, H6.
Qed.

Lemma run_reports_the_verdicts_witness :
  let boom := fun _ : unit => Some (mkError 9 "boom" "Error: boom" "Error" "Error") in
  let fn := [Script.Comment "start";
             Script.Equal (VNumber (Num 1)) (VNumber (Num 1)) None;
             Script.Fail (Some "no");
             Script.Throws (fun _ => None) (VString "must throw") None;
             Script.Throws boom (regexp 5 "boom" "g") (Some "first");
             Script.Throws boom (regexp 5 "boom" "g") (Some "again");
             Script.Throws boom (regexp 6 "boom" "") (Some "plain");
             Script.Throws boom (regexp 6 "boom" "") (Some "plain again")] in
  let e := snd (TestRunner.add "t" fn false fresh) in
  filter is_result (lines (snd (TestRunner.run (host := quiet_host) e)))
  = ["ok 1 should be equal"; "not ok 2 no"; "not ok 3 must throw";
     "ok 4 first"; "not ok 5 again"; "ok 6 plain"; "ok 7 plain again"].
Proof.
  intros boom fn e.
  destruct (@run_reports_the_verdicts quiet_host e
              ltac:(repeat constructor) ltac:(vm_compute; reflexivity))
    as (ls & Hl & Hr & _).
  rewrite Hl.
  change ("TAP version 13" :: ls ++ summary_lines ?t)%list
    with (["TAP version 13"] ++ ls ++ summary_lines t)%list.
  rewrite !filter_app, Hr, summary_not_results, app_nil_r.
  vm_compute. reflexivity.
Defined.

(* ================================================================= *)
(** ** The run of the exclusive tests *)

(** C3: when the registry of exclusive tests is not empty as [run]
    starts, the other registry is after the run what it was before it, none
    of its tests having run, and the outcome, the lines of the sink, the
    identifiers and the totals are those of the same run with that registry
    empty.  The exclusive tests are the ones that run: when they are as [add]
    made them and the run meets no exception, the result lines are, in
    order, the results of the assertion calls of their functions, the
    summary and the totals given to the host count these results and no
    other, and every exclusive test is then in its registry, done. *)
Theorem only_exclusive_tests_run (host : Host) (e : Env) :
  RunnerObject.onlyTests (the_runner e) <> [] ->
  let exclusive := RunnerObject.onlyTests (the_runner e) in
  let after := TestRunner.run e in
  (RunnerObject.tests (the_runner (snd after))
   = RunnerObject.tests (the_runner e)
   /\ TestRunner.run (retest [] e) = (fst after, retest [] (snd after))
   /\ lines (snd after) = lines (snd (TestRunner.run (retest [] e)))
   /\ events (snd after) = events (snd (TestRunner.run (retest [] e))))
  /\ (Forall queued_test exclusive ->
      fst after = Return tt ->
      let vs :=
        fst (verdicts (flat_map TestObject.fn exclusive) (lastIndex e)) in
      exists ls,
        lines (snd after)
        = (lines e ++ "TAP version 13" :: ls
           ++ summary_lines (totals_of vs))%list
        /\ filter is_result ls = numbered (ids e + 1) vs
        /\ forallb body_line ls = true
        /\ events (snd after)
           = (events e
              ++ finish_events (RunnerObject._onFinishCallback (the_runner e))
                   (totals_of vs))%list
        /\ Forall2 ran exclusive (RunnerObject.onlyTests (the_runner (snd after)))).
Proof.
  intros Honly exclusive after. split.
  - pose proof (run_exclusive (RunnerObject.tests (the_runner e)) e Honly)
      as Hkeep.
    rewrite retest_same in Hkeep.
    pose proof (run_exclusive [] e Honly) as Hnone.
    fold after in Hkeep, Hnone.
    split; [|split; [exact Hnone|]].
    + destruct after as [o e1]. cbn [fst snd] in *.
      injection Hkeep as Hkeep. rewrite Hkeep at 1. reflexivity.
    + rewrite Hnone. split; reflexivity.
  - intros Hall Hret. subst after.
    assert (Hlen : Nat.ltb 0 (List.length (RunnerObject.onlyTests (the_runner e)))
                   = true).
    { destruct (RunnerObject.onlyTests (the_runner e));
        [congruence|reflexivity]. }
    assert (Hsel : selected (the_runner e) = exclusive).
    { unfold selected. now rewrite Hlen. }
    revert Hret. rewrite run_eq. cbv zeta. rewrite Hsel, Hlen.
    pose proof (@run_tests_verdicts host true exclusive 0
                  (TestRunner.mkTotals 0 0 0)) as Hloop.
    specialize (fun totals =>
                  Hloop totals (add_lines ["TAP version 13"] e) Hall).
    pose proof (@run_tests_registry host true exclusive
                  (TestRunner.mkTotals 0 0 0)) as Hreg.
    specialize (fun totals =>
                  Hreg totals (add_lines ["TAP version 13"] e) [] []).
    cbn [List.length app] in Hreg.
    destruct (TestRunner.run_tests true 0 exclusive _ _) as [[totals|msg] e1];
      cbn [fst snd] in *; [|discriminate].
    intros _.
    destruct (Hreg totals ltac:(now rewrite app_nil_r) eq_refl)
      as (ts' & Hts & _ & Hran).
    destruct (Hloop totals eq_refl)
      as (ls & (H1 & H2 & H3 & Hb & H4 & H5 & H6 & _) & Hix & ->).
    rewrite app_nil_r in Hts. cbn [registry] in Hts.
    change (lastIndex (add_lines ["TAP version 13"] e)) with (lastIndex e) in *.
    exists ls. rewrite finished_lines, H1.
    split.
    { change (lines (add_lines ["TAP version 13"] e))
        with (lines e ++ ["TAP version 13"])%list.
      now rewrite <- !app_assoc. }
    split; [exact H3|]. split; [exact Hb|].
    split.
    { unfold finished; cbn [events with_events]. now rewrite H4, H6. }
    change (RunnerObject.onlyTests (the_runner (finished ?t e1)))
      with (RunnerObject.onlyTests (the_runner e1)).
    now rewrite Hts.
Qed.

Lemma only_exclusive_tests_run_witness :
  let e :=
    snd (TestRunner.add "c" [Script.Ok (VBool true) None] true
      (snd (TestRunner.add "b" [Script.Fail None] false
        (snd (TestRunner.add "a"
                [Script.Ok (VBool true) None] false fresh))))) in
  let after := snd (TestRunner.run (host := quiet_host) e) in
  RunnerObject.tests (the_runner after) = RunnerObject.tests (the_runner e)
  /\ filter is_result (lines after) = ["ok 1 should be truthy"]
  /\ map TestObject.done (RunnerObject.onlyTests (the_runner after)) = [true]
  /\ map TestObject.done (RunnerObject.tests (the_runner after))
     = [false; false].
Proof.
  intros e after.
  pose proof (only_exclusive_tests_run quiet_host e
                ltac:(vm_compute; discriminate)) as ((Hkeep & _) & Hrun).
  destruct (Hrun ltac:(repeat constructor) ltac:(vm_compute; reflexivity))
    as (ls & Hl & Hr & _ & _ & Hran).
  fold after in Hkeep, Hl, Hran.
  split; [exact Hkeep|]. split; [|split].
  - rewrite Hl.
    change ("TAP version 13" :: ls ++ summary_lines ?t)%list
      with (["TAP version 13"] ++ ls ++ summary_lines t)%list.
    rewrite !filter_app, Hr, summary_not_results, app_nil_r.
    vm_compute. reflexivity.
  - vm_compute. reflexivity.
  - rewrite Hkeep. vm_compute. reflexivity.
Defined.
